(** * cntk.debug: the interactive graph debugger of CNTK's Python bindings

    A shallow embedding of [bindings/python/cntk/debug.py]: the
    [DebugNode] user function with its command-line loop, the status line
    it prints, [debug_model] and [save_as_legacy_model], followed by the
    properties of the module's specification.

    Python features are rendered as follows.
    - Console input is a finite list of lines still to be typed ([stdin]);
      [input] on an exhausted list raises [EOFError].
    - Everything the module prints, every prompt and every call of
      [pdb.set_trace] is an [event] appended to [stdout], in order.
    - [DebugNode._commands] and [DebugNode._last_pass] are class attributes:
      they live in the [world], not in a [DebugNode] instance.  The local
      variable [commands] of [forward] and [backward] is, at every point of
      these methods, the very list object bound to [DebugNode._commands],
      so the model keeps that one list.
    - The [while] loops run on fuel: one unit per iteration.
    - Lists have no size limit (no [MemoryError]).
    - The builtins are those of Python 3: [input] returns the line typed,
      as a string. *)

From Stdlib Require Import Ascii String ZArith DecimalString DecimalPos DecimalZ.
From stdpp Require Import base list strings gmap.


(** ** Python strings *)

Module Py.

(** [c.isspace()] for a character below code point 256. *)
Definition isspace (c : ascii) : bool :=
  let n := nat_of_ascii c in
  ((9 <=? n) && (n <=? 13) || (28 <=? n) && (n <=? 32)
   || (n =? 133) || (n =? 160))%nat.

Definition is_empty (s : string) : bool :=
  match s with "" => true | _ => false end.

Fixpoint lstrip (s : string) : string :=
  match s with
  | "" => ""
  | String c r => if isspace c then lstrip r else s
  end.

Fixpoint rstrip (s : string) : string :=
  match s with
  | "" => ""
  | String c r =>
      let r' := rstrip r in
      if isspace c && is_empty r' then "" else String c r'
  end.

(** [s.strip()] *)
Definition strip (s : string) : string := rstrip (lstrip s).

(** [s[1:]] *)
Definition tail (s : string) : string :=
  match s with "" => "" | String _ r => r end.

(** [s[0] == c]; the callers index non-empty strings only. *)
Definition head_is (c : ascii) (s : string) : bool :=
  match s with "" => false | String a _ => Ascii.eqb a c end.

(** [sub in s] *)
Fixpoint contains (s sub : string) : bool :=
  String.prefix sub s
  || match s with "" => false | String _ r => contains r sub end.

(** [sep.join(l)] *)
Fixpoint join (sep : string) (l : list string) : string :=
  match l with
  | [] => ""
  | [x] => x
  | x :: r => x +:+ sep +:+ join sep r
  end.

(** [c * n] for a string [c] *)
Fixpoint repeat_str (c : string) (n : nat) : string :=
  match n with 0 => "" | S k => c +:+ repeat_str c k end.

(** [str(z)] for an integer. *)
Definition str_int (z : Z) : string := NilZero.string_of_int (Z.to_int z).

(** [str(t)] for a tuple of integers: [()], [(2,)], [(2, 3)]. *)
Definition str_tuple (t : list Z) : string :=
  match t with
  | [] => "()"
  | [x] => "(" +:+ str_int x +:+ ",)"
  | _ => "(" +:+ join ", " (str_int <$> t) +:+ ")"
  end.

Definition is_digit (c : ascii) : bool :=
  let n := nat_of_ascii c in ((48 <=? n) && (n <=? 57))%nat.

(** The digit grouping of PEP 515: a single underscore may sit between two
    digits.  [ungroup prev s] removes such underscores; [prev] tells whether
    the previous character was a digit.  Any other underscore is an error. *)
Fixpoint ungroup (prev : bool) (s : string) : option string :=
  match s with
  | "" => Some ""
  | String c r =>
      if Ascii.eqb c "_" then
        match r with
        | String d _ => if prev && is_digit d then ungroup false r else None
        | "" => None
        end
      else String c <$> ungroup (is_digit c) r
  end.

Definition digits_value (s : string) : option Z :=
  d ← ungroup false s ≫= NilZero.uint_of_string; Some (Z.of_uint d).

(** [int(s)] in base ten: surrounding whitespace, an optional sign, decimal
    digits.  [None] stands for [ValueError]. *)
Definition int (s : string) : option Z :=
  match strip s with
  | String "-" r => Z.opp <$> digits_value r
  | String "+" r => digits_value r
  | t => digits_value t
  end.

End Py.

(** ** Graph nodes of the host framework

    The attributes of a node that the debugger reads.  [isinstance] tests
    look at [node_class]; only a [Function] has an [op_name]; for any other
    class [type_str] is what [str(type(node))] gives. *)

Inductive node_class :=
| ConstantClass
| ParameterClass
| FunctionClass (op_name : string)
| OtherClass (type_str : string).

Record node := Node {
  class_of : node_class;
  is_sparse : bool;
  name : string;
  uid : string;
  dynamic_axes : list string;
  shape : list Z
}.

(** A [DebugNode] instance: what [__init__] hands to [UserFunction] and the
    wrapped node kept in [self.after]. *)
Record DebugNode := {
  inputs : list node;
  as_numpy : bool;
  fn_name : string;
  after : node
}.

(** [DebugNode.__init__(self, arg, name='DebugNode')] *)
Definition DebugNode_init (arg : node) (name : string) : DebugNode :=
  {| inputs := [arg]; as_numpy := true; fn_name := name; after := arg |}.

(** Nodes are dictionary keys. *)
#[global] Instance node_class_eq_dec : EqDecision node_class.
Proof. solve_decision. Defined.

#[global] Instance node_eq_dec : EqDecision node.
Proof. solve_decision. Defined.

#[global] Instance node_class_countable : Countable node_class.
Proof.
  refine (inj_countable'
    (λ c, match c with
          | ConstantClass => inl ()
          | ParameterClass => inr (inl ())
          | FunctionClass o => inr (inr (inl o))
          | OtherClass t => inr (inr (inr t))
          end)
    (λ x, match x with
          | inl _ => ConstantClass
          | inr (inl _) => ParameterClass
          | inr (inr (inl o)) => FunctionClass o
          | inr (inr (inr t)) => OtherClass t
          end) _).
  by intros [].
Defined.

#[global] Instance node_countable : Countable node.
Proof.
  refine (inj_countable'
    (λ n, (class_of n, is_sparse n, name n, uid n, dynamic_axes n, shape n))
    (λ '(c, s, n, u, d, sh), Node c s n u d sh) _).
  by intros [].
Defined.

(** [CloneMethod] of the host framework. *)
Inductive CloneMethod := CloneMethod_share | CloneMethod_clone | CloneMethod_freeze.

(** The pass markers ['f'] and ['b']. *)
Inductive pass := pass_f | pass_b.

Definition pass_eqb (p q : pass) : bool :=
  match p, q with
  | pass_f, pass_f | pass_b, pass_b => true
  | _, _ => false
  end.

Inductive exn :=
| SystemExit (code : Z)
| EOFError
| TypeError
| IndexError
| ValueError
| SyntaxError
| OtherError (what : string).

Inductive result (A : Type) :=
| Ok (a : A)
| Err (e : exn).
Arguments Ok {A} a.
Arguments Err {A} e.

(** How a computation ends: it returns, raises, or is cut off because the
    fuel of a loop ran out. *)
Inductive outcome (A : Type) :=
| Returned (a : A)
| Raised (e : exn)
| OutOfFuel.
Arguments Returned {A} a.
Arguments Raised {A} e.
Arguments OutOfFuel {A}.

Inductive host_call :=
| cntk_py_save_as_legacy_model (root_op : node) (filename : string).

Section Debugger.

(** [data] is what the host passes as [argument] and [root_gradients];
    [state] is what it passes to [backward] as a non-[None] state. *)
Context {data state : Type}.
Variable str_state : state → string.

(** The objects that can sit in the command queue: a string, a callable
    (called with the data and the wrapped node, it yields a truth value or
    raises), or any other object (a number, a tuple, ...), which is not
    callable and equal to no string. *)
Inductive value :=
| VStr (s : string)
| VCallable (f : data → node → result bool)
| VOther (repr : string).

(** Python's [eval] on the text typed after [n]: a value or an exception.
    The expression is taken to have no effect on the debugger's state. *)
Variable eval : string → result value.

(** [v == s] for a string literal [s] *)
Definition value_is (v : value) (s : string) : bool :=
  match v with
  | VStr t => String.eqb t s
  | _ => false
  end.

Definition callable (v : value) : bool :=
  match v with
  | VCallable _ => true
  | _ => false
  end.

Inductive event :=
| Prompt (p : string)
| Print (s : string)
| PrintData (d : data)
| PdbSetTrace.

(** The extension module [cntk_py] of the host framework: a call returns
    or raises.  What it does to files is outside this module. *)
Variable cntk_py : host_call → result unit.

(** The class attributes of [DebugNode]. *)
Record DebugNode_class := {
  _commands : list value;
  _last_pass : pass
}.

(** [heap] holds the [DebugNode] objects created so far; an object is
    known by its position there. *)
Record world := {
  cls : DebugNode_class;
  stdin : list string;
  stdout : list event;
  host_calls : list host_call;
  heap : list DebugNode
}.

Definition with_cls (c : DebugNode_class) (w : world) : world :=
  {| cls := c; stdin := stdin w; stdout := stdout w;
     host_calls := host_calls w; heap := heap w |}.

Definition with_stdin (l : list string) (w : world) : world :=
  {| cls := cls w; stdin := l; stdout := stdout w;
     host_calls := host_calls w; heap := heap w |}.

Definition with_stdout (l : list event) (w : world) : world :=
  {| cls := cls w; stdin := stdin w; stdout := l;
     host_calls := host_calls w; heap := heap w |}.

Definition with_host_calls (l : list host_call) (w : world) : world :=
  {| cls := cls w; stdin := stdin w; stdout := stdout w;
     host_calls := l; heap := heap w |}.

Definition with_heap (h : list DebugNode) (w : world) : world :=
  {| cls := cls w; stdin := stdin w; stdout := stdout w;
     host_calls := host_calls w; heap := h |}.

(** [_commands = []] and [_last_pass = 'f'] *)
Definition DebugNode_class_init : DebugNode_class :=
  {| _commands := []; _last_pass := pass_f |}.

Definition world_init (lines : list string) : world :=
  {| cls := DebugNode_class_init; stdin := lines; stdout := [];
     host_calls := []; heap := [] |}.

(** *** Computations *)

Definition M (A : Type) : Type := world → outcome A * world.

Definition ret {A} (a : A) : M A := λ w, (Returned a, w).

Definition bind {A B} (c : M A) (k : A → M B) : M B :=
  λ w, match c w with
       | (Returned a, w') => k a w'
       | (Raised e, w') => (Raised e, w')
       | (OutOfFuel, w') => (OutOfFuel, w')
       end.

Definition raise {A} (e : exn) : M A := λ w, (Raised e, w).

Definition out_of_fuel {A} : M A := λ w, (OutOfFuel, w).

(** [try: c except e: h] for the one exception [e] *)
Definition try_except {A} (c : M A) (e : exn → bool) (h : M A) : M A :=
  λ w, match c w with
       | (Raised x, w') => if e x then h w' else (Raised x, w')
       | r => r
       end.

Definition lift {A} (r : result A) : M A :=
  match r with
  | Ok a => ret a
  | Err e => raise e
  end.


Notation "x <- c1 ;; c2" := (bind c1 (λ x, c2))
  (at level 100, c1 at next level, right associativity).
Notation "c1 ;; c2" := (bind c1 (λ _, c2))
  (at level 100, right associativity).

(** [while not test(s): s = body(s)], at most [fuel] iterations. *)
Fixpoint while_not {S} (fuel : nat) (test : S → bool) (body : S → M S)
    (s : S) : M S :=
  if test s then ret s
  else match fuel with
       | 0 => out_of_fuel
       | S n => s' <- body s ;; while_not n test body s'
       end.

Definition emit (e : event) : M unit :=
  λ w, (Returned (), with_stdout (stdout w ++ [e]) w).

(** [print(s)] *)
Definition print (s : string) : M unit := emit (Print s).

(** [input(prompt)] *)
Definition input (prompt : string) : M string :=
  emit (Prompt prompt) ;;
  λ w, match stdin w with
       | [] => (Raised EOFError, w)
       | line :: rest => (Returned line, with_stdin rest w)
       end.

Definition get_cls : M DebugNode_class := λ w, (Returned (cls w), w).

Definition put_cls (c : DebugNode_class) : M unit :=
  λ w, (Returned (), with_cls c w).

(** reading [DebugNode._commands] *)
Definition get_commands : M (list value) :=
  c <- get_cls ;; ret (_commands c).

(** [DebugNode._commands = l] *)
Definition set_commands (l : list value) : M unit :=
  c <- get_cls ;; put_cls {| _commands := l; _last_pass := _last_pass c |}.

(** [DebugNode._last_pass = p] *)
Definition set_last_pass (p : pass) : M unit :=
  c <- get_cls ;; put_cls {| _commands := _commands c; _last_pass := p |}.

(** [commands[-1]] *)
Definition commands_last : M value :=
  l <- get_commands ;;
  match last l with
  | Some v => ret v
  | None => raise IndexError
  end.

(** [commands.pop()] *)
Definition pop : M value :=
  v <- commands_last ;;
  l <- get_commands ;;
  set_commands (removelast l) ;;
  ret v.

(** [pdb.set_trace()]: the session is recorded as one event; the user is
    taken to leave it with [continue], having changed nothing. *)
Definition pdb_set_trace : M unit := emit PdbSetTrace.

(** A call into the host framework's extension module. *)
Definition call_host (c : host_call) : M unit :=
  (λ w, (Returned (), with_host_calls (host_calls w ++ [c]) w)) ;;
  lift (cntk_py c).

(** [DebugNode(arg)]: a new object, known by its position in the heap. *)
Definition new_DebugNode (arg : node) : M nat :=
  λ w, (Returned (length (heap w)),
        with_heap (heap w ++ [DebugNode_init arg "DebugNode"]) w).

(** *** [save_as_legacy_model] *)

Definition save_as_legacy_model (root_op : node) (filename : string)
    : M unit :=
  call_host (cntk_py_save_as_legacy_model root_op filename).

(** *** [DebugNode.__wait_for_input] *)

Definition help_text : string :=
"Commands:
    n - execute the next node
    n <number> - execute the next <number> nodes
    n <lambda> - execute until the lambda expression is True. Examples:
                 Until a Times node is hit:
                     lambda arg, node: node.op_name == 'Times'
                 Until a node is hit that has 3 dimensions:
                     lambda arg, node: len(node.shape) == 3
                 Until the variance of the input exceeds 1 (np = numpy):
                     lambda arg, node: np.var(arg) > 1
    f - run until forward pass (like 'n' when already in forward pass)
    b - run until backward pass (like 'n' when already in backward pass)
    c - run until end
    p - print input (forward) or root gradients (backward)
    d - drop into a pdb shell
    q - quit
".

(** The variable [understood]: [False] or a list. *)
Inductive understood_t :=
| UFalse
| UList (l : list value).

(** The truth value of [understood]: [False] and [[]] are false. *)
Definition truthy (u : understood_t) : bool :=
  match u with
  | UFalse | UList [] => false
  | UList (_ :: _) => true
  end.

Definition is_ValueError (e : exn) : bool :=
  match e with ValueError => true | _ => false end.

Definition is_SyntaxError (e : exn) : bool :=
  match e with SyntaxError => true | _ => false end.

(** [int(s)], raising [ValueError] *)
Definition py_int (s : string) : M Z :=
  match Py.int s with
  | Some z => ret z
  | None => raise ValueError
  end.

(** The [if]/[elif] chain on a non-empty [new_input]; it yields the new
    value of [understood]. *)
Definition interpret (new_input : string) (understood : understood_t)
    : M understood_t :=
  if (String.length new_input =? 1)%nat
     && Py.contains "bcdfp" new_input then
    ret (UList [VStr new_input])
  else if Py.head_is "n" new_input then
    try_except
      (number <-
         (if (1 <? String.length new_input)%nat
          then py_int (Py.tail new_input)
          else ret 1%Z) ;;
       ret (UList (replicate (Z.to_nat number) (VStr "n"))))
      is_ValueError
      (try_except
         (code <- lift (eval (Py.tail new_input)) ;;
          ret (UList [code]))
         is_SyntaxError
         (ret UFalse))
  else if String.eqb new_input "q" then
    raise (SystemExit 0)
  else ret understood.

(** One iteration of [while not understood]. *)
Definition wait_for_input_body (prompt : string) (understood : understood_t)
    : M understood_t :=
  line <- input prompt ;;
  let new_input := Py.strip line in
  if Py.is_empty new_input then ret understood
  else
    understood <- interpret new_input understood ;;
    (if negb (truthy understood) then print help_text else ret ()) ;;
    ret understood.

(** The loop is left only with a true [understood], which is a list. *)
Definition as_list (u : understood_t) : list value :=
  match u with
  | UList l => l
  | UFalse => []
  end.

Definition __wait_for_input (fuel : nat) (prompt : string)
    : M (list value) :=
  understood <- while_not fuel truthy (wait_for_input_body prompt) UFalse ;;
  ret (as_list understood).


(** *** [DebugNode._format_status] *)

(** [node_type] holds a string or, in the last branch, a type object. *)
Inductive node_type_t :=
| TStr (s : string)
| TType (type_str : string).

Definition _format_status (self : DebugNode) : result string :=
  let node_type :=
    match class_of (after self) with
    | ConstantClass => TStr "Constant"
    | ParameterClass => TStr "Parameter"
    | FunctionClass op_name => TStr op_name
    | OtherClass t => TType t
    end in
  let node_type :=
    if is_sparse (after self) then
      match node_type with
      | TStr s => Ok (TStr (s +:+ " (sparse)"))
      | TType _ => Err TypeError
      end
    else Ok node_type in
  match node_type with
  | Err e => Err e
  | Ok node_type =>
      let name :=
        if negb (Py.is_empty (name (after self)))
        then "name='" +:+ name (after self) +:+ "' "
        else "" in
      let dyn_axes :=
        "[" +:+ Py.join "," (replicate (length (dynamic_axes (after self))) "*")
        +:+ "]" in
      Ok (match node_type with TStr s => s | TType t => t end
          +:+ " node with " +:+ name +:+ "uid='" +:+ uid (after self)
          +:+ "' shape=" +:+ dyn_axes +:+ Py.str_tuple (shape (after self)))
  end.

(** *** [DebugNode._print_status] *)

Definition _print_status (self : DebugNode) (current_pass : pass) : M unit :=
  c <- get_cls ;;
  (if negb (pass_eqb current_pass (_last_pass c)) then
     if pass_eqb current_pass pass_f then
       (print "" ;;
        print (Py.repeat_str "=" 40 +:+ " forward  " +:+ Py.repeat_str "=" 40))
     else
       print (Py.repeat_str "=" 40 +:+ " backward " +:+ Py.repeat_str "=" 40)
   else ret ()) ;;
  if pass_eqb current_pass pass_f then
    (s <- lift (_format_status self) ;; print ("Forward after " +:+ s))
  else
    (s <- lift (_format_status self) ;; print ("Backward before " +:+ s)).

(** *** [DebugNode.forward] and [DebugNode.backward] *)

Definition is_nil (l : list value) : bool :=
  match l with [] => true | _ => false end.

(** [v(arg, node)] taken as a condition *)
Definition call (v : value) (arg : data) (n : node) : M bool :=
  match v with
  | VCallable f => lift (f arg n)
  | _ => raise TypeError
  end.

(** [str(state)] *)
Definition str (st : option state) : string :=
  match st with
  | None => "None"
  | Some s => str_state s
  end.

(** [if not commands: DebugNode._commands = commands =
    self.__wait_for_input(prompt)], the head of both loops. *)
Definition refill (fuel : nat) (prompt : string) : M unit :=
  commands <- get_commands ;;
  if is_nil commands then
    (l <- __wait_for_input fuel prompt ;; set_commands l)
  else ret ().

(** The [if]/[elif] chain of [forward] on [v = commands[-1]]; it yields the
    new value of [done]. *)
Definition forward_dispatch (self : DebugNode) (argument : data)
    (done : bool) (v : value) : M bool :=
  if value_is v "c" then ret true
  else if value_is v "n" then (pop ;; ret true)
  else if value_is v "b" then ret true
  else if value_is v "f" then (pop ;; ret true)
  else if value_is v "p" then
    (print "Input: " ;; emit (PrintData argument) ;; pop ;; ret done)
  else if value_is v "d" then (pop ;; pdb_set_trace ;; ret true)
  else if callable v then
    (r <- call v argument (after self) ;;
     if r then (pop ;; ret done) else ret true)
  else ret done.

(** One iteration of [while not done] in [forward]. *)
Definition forward_body (fuel : nat) (self : DebugNode) (argument : data)
    (done : bool) : M bool :=
  refill fuel "[CNTK forward] >>> " ;;
  v <- commands_last ;;
  forward_dispatch self argument done v.

(** [forward(self, argument, device=None, outputs_to_retain=None)]; the
    two optional arguments are not used. *)
(** The loop [while not done] of [forward], entered with [done = False]. *)
Definition forward_loop (fuel : nat) (self : DebugNode) (argument : data)
    : M bool :=
  while_not fuel id (forward_body fuel self argument) false.

Definition forward (fuel : nat) (self : DebugNode) (argument : data)
    : M (option state * data) :=
  _print_status self pass_f ;;
  forward_loop fuel self argument ;;
  set_last_pass pass_f ;;
  ret (None, argument).

(** The [if]/[elif] chain of [backward]. *)
Definition backward_dispatch (self : DebugNode) (st : option state)
    (root_gradients : data) (done : bool) (v : value) : M bool :=
  if value_is v "c" then ret true
  else if value_is v "n" then (pop ;; ret true)
  else if value_is v "b" then (pop ;; ret true)
  else if value_is v "f" then ret true
  else if value_is v "p" then
    (print ("State: " +:+ str st) ;; print "Root gradients: " ;;
     emit (PrintData root_gradients) ;; pop ;; ret done)
  else if value_is v "d" then (pdb_set_trace ;; ret true)
  else if callable v then
    (r <- call v root_gradients (after self) ;;
     if r then (pop ;; ret done) else ret true)
  else ret done.

(** One iteration of [while not done] in [backward]. *)
Definition backward_body (fuel : nat) (self : DebugNode)
    (st : option state) (root_gradients : data) (done : bool) : M bool :=
  refill fuel "[CNTK backward] >>> " ;;
  v <- commands_last ;;
  backward_dispatch self st root_gradients done v.

(** The loop [while not done] of [backward]. *)
Definition backward_loop (fuel : nat) (self : DebugNode)
    (st : option state) (root_gradients : data) : M bool :=
  while_not fuel id (backward_body fuel self st root_gradients) false.

Definition backward (fuel : nat) (self : DebugNode) (st : option state)
    (root_gradients : data) : M data :=
  _print_status self pass_b ;;
  backward_loop fuel self st root_gradients ;;
  set_last_pass pass_b ;;
  ret root_gradients.

(** *** The host driving the nodes

    Evaluating or training the rewritten graph, the host framework calls
    [forward] and [backward] of the debug nodes one after the other. *)

Inductive visit :=
| Forward (self : DebugNode) (argument : data)
| Backward (self : DebugNode) (st : option state) (root_gradients : data).

Definition visited (v : visit) : DebugNode :=
  match v with
  | Forward self _ | Backward self _ _ => self
  end.

(** The data handed to the node. *)
Definition visit_data (v : visit) : data :=
  match v with
  | Forward _ argument => argument
  | Backward _ _ root_gradients => root_gradients
  end.

(** One call; the result is the output of [forward], or what [backward]
    returns. *)
Definition run_visit (fuel : nat) (v : visit) : M data :=
  match v with
  | Forward self argument =>
      r <- forward fuel self argument ;; ret (snd r)
  | Backward self st root_gradients =>
      backward fuel self st root_gradients
  end.

Fixpoint run_visits (fuel : nat) (vs : list visit) : M (list data) :=
  match vs with
  | [] => ret []
  | v :: rest =>
      r <- run_visit fuel v ;;
      rs <- run_visits fuel rest ;;
      ret (r :: rs)
  end.


(** *** [debug_model]

    [depth_first_search] (of [cntk.graph]) and [Function.clone] belong to
    the host framework; they are taken as given. *)

Section DebugModel.

Context {model_t : Type}.
Variable depth_first_search : model_t → (node → bool) → list node.
Variable clone : model_t → CloneMethod → gmap node nat → model_t.

(** [{n: DebugNode(n) for n in nodes}], filled in the order of [nodes]. *)
Fixpoint dict_of_nodes (nodes : list node) (mod_ : gmap node nat)
    : M (gmap node nat) :=
  match nodes with
  | [] => ret mod_
  | n :: rest => d <- new_DebugNode n ;; dict_of_nodes rest (<[n := d]> mod_)
  end.

Definition debug_model (model : model_t) : M model_t :=
  let nodes := depth_first_search model (λ x, true) in
  mod_ <- dict_of_nodes nodes ∅ ;;
  let model := clone model CloneMethod_share mod_ in
  ret model.

End DebugModel.

End Debugger.

(** *** [DebugNode.infer_outputs]

    [output_variable] belongs to the host framework and the data type of a
    node is an attribute the debugger reads nowhere else; both are taken as
    given.  [self.inputs[0]] raises [IndexError] on an empty list. *)

Section InferOutputs.

Context {dtype_t variable : Type}.
Variable dtype : node → dtype_t.
Variable output_variable : list Z → dtype_t → list string → variable.

Definition infer_outputs (self : DebugNode) : result (list variable) :=
  match inputs self with
  | [] => Err IndexError
  | input0 :: _ =>
      Ok [output_variable (shape input0) (dtype input0)
            (dynamic_axes input0)]
  end.

End InferOutputs.

(** ** Concrete data for the examples *)

Module Sample.

(** Tensors are shown as flat lists of integers. *)
Definition tensor : Type := list Z.

Definition op_name_is (s : string) (n : node) : result bool :=
  match class_of n with
  | FunctionClass op => Ok (String.eqb op s)
  | _ => Err (OtherError "AttributeError")
  end.

(** [lambda arg, node: node.op_name == 'Times'] *)
Definition until_Times (arg : tensor) (n : node) : result bool :=
  op_name_is "Times" n.

(** [lambda arg, node: len(node.shape) == 3] *)
Definition until_rank_3 (arg : tensor) (n : node) : result bool :=
  Ok (length (shape n) =? 3)%nat.

(** [eval] on the two predicates of the help text; on any other text this
    table answers [SyntaxError], as Python does for [" )"]. *)
Definition eval_lambdas (s : string) : result (@value tensor) :=
  if String.eqb s " lambda arg, node: node.op_name == 'Times'" then
    Ok (VCallable until_Times)
  else if String.eqb s " lambda arg, node: len(node.shape) == 3" then
    Ok (VCallable until_rank_3)
  else Err SyntaxError.

(** The same table with two more entries: the float [1.5] and the
    undefined name [foo]. *)
Definition eval (s : string) : result (@value tensor) :=
  if String.eqb s " 1.5" then Ok (VOther "1.5")
  else if String.eqb s " foo" then Err (OtherError "NameError")
  else eval_lambdas s.

Definition str_state (s : Empty_set) : string := match s with end.

Definition Parameter28 : node :=
  {| class_of := ParameterClass; is_sparse := false; name := "";
     uid := "Parameter28"; dynamic_axes := []; shape := [2%Z] |}.

Definition Times29 : node :=
  {| class_of := FunctionClass "Times"; is_sparse := false; name := "";
     uid := "Times29"; dynamic_axes := ["defaultBatchAxis"; "defaultDynamicAxis"];
     shape := [2%Z] |}.

(** A sparse input variable. *)
Definition Input3 : node :=
  {| class_of := OtherClass "<class 'cntk.variables.Variable'>";
     is_sparse := true; name := "features"; uid := "Input3";
     dynamic_axes := ["defaultBatchAxis"]; shape := [1000%Z] |}.

Definition d_param : DebugNode := DebugNode_init Parameter28 "DebugNode".
Definition d_times : DebugNode := DebugNode_init Times29 "DebugNode".
Definition d_input : DebugNode := DebugNode_init Input3 "DebugNode".

(** A rank-3 function node with a name. *)
Definition Conv7 : node :=
  {| class_of := FunctionClass "Convolution"; is_sparse := false;
     name := "conv1"; uid := "Convolution7";
     dynamic_axes := ["defaultBatchAxis"]; shape := [16; 28; 28]%Z |}.

Definition d_conv : DebugNode := DebugNode_init Conv7 "DebugNode".

Definition forward := @forward tensor Empty_set eval.
Definition backward := @backward tensor Empty_set str_state eval.
Definition run_visit := @run_visit tensor Empty_set str_state eval.
Definition run_visits := @run_visits tensor Empty_set str_state eval.

(** The host's extension module, here always successful. *)
Definition cntk_py (c : host_call) : result unit := Ok ().

End Sample.


(** ** Vocabulary of the properties *)

(** The status line can be built for every node except a sparse node that
    is neither a constant, a parameter nor a function. *)
Definition formattable (n : node) : bool :=
  match class_of n with
  | OtherClass _ => negb (is_sparse n)
  | _ => true
  end.

(** What the module's documentation promises at every stop: the node type,
    the name if given, the uid, and the shape as [[dynamic axes](static
    axes)]. *)
Definition type_of_node (n : node) : string :=
  let t := match class_of n with
           | ConstantClass => "Constant"
           | ParameterClass => "Parameter"
           | FunctionClass op => op
           | OtherClass t => t
           end in
  if is_sparse n then t +:+ " (sparse)" else t.

Definition status_line (n : node) : string :=
  type_of_node n +:+ " node with "
  +:+ (if Py.is_empty (name n) then "" else "name='" +:+ name n +:+ "' ")
  +:+ "uid='" +:+ uid n +:+ "' shape="
  +:+ ("[" +:+ Py.join "," (replicate (length (dynamic_axes n)) "*") +:+ "]")
  +:+ Py.str_tuple (shape n).

(** A run of decimal digits. *)
Fixpoint digits_only (s : string) : bool :=
  match s with
  | "" => true
  | String c r => Py.is_digit c && digits_only r
  end.

Section Vocabulary.

Context {data state : Type}.
Variable str_state : state → string.
Variable eval : string → result (@value data).

#[local] Abbreviation M := (@M data).
#[local] Abbreviation world := (@world data).
#[local] Abbreviation event := (@event data).
#[local] Abbreviation value := (@value data).
#[local] Abbreviation visit := (@visit data state).
#[local] Abbreviation forward_body := (forward_body eval).
#[local] Abbreviation forward_loop := (forward_loop eval).
#[local] Abbreviation backward_dispatch := (backward_dispatch str_state).
#[local] Abbreviation backward_body := (backward_body str_state eval).
#[local] Abbreviation backward_loop := (backward_loop str_state eval).
#[local] Abbreviation run_visit := (run_visit str_state eval).

(** The separator printed when the pass changes. *)
Definition banner (p last : pass) : list event :=
  if pass_eqb p last then []
  else match p with
       | pass_f =>
           [Print "";
            Print (Py.repeat_str "=" 40 +:+ " forward  "
                   +:+ Py.repeat_str "=" 40)]
       | pass_b =>
           [Print (Py.repeat_str "=" 40 +:+ " backward "
                   +:+ Py.repeat_str "=" 40)]
       end.

(** What [_print_status] prints: the separator, if any, then the status
    line. *)
Definition status_events (p last : pass) (n : node) : list event :=
  banner p last
  ++ [Print (match p with
             | pass_f => "Forward after "
             | pass_b => "Backward before "
             end +:+ status_line n)].

(** The world in which the command queue has been replaced. *)
Definition set_queue (l : list value) (w : world) : world :=
  with_cls {| _commands := l; _last_pass := _last_pass (cls w) |} w.

(** The world after a node has printed its status and finished a pass. *)
Definition finish (p : pass) (n : node) (w : world) : world :=
  with_cls {| _commands := _commands (cls w); _last_pass := p |}
    (with_stdout (stdout w ++ status_events p (_last_pass (cls w)) n) w).

(** The world after the status line of a pass has been printed. *)
Definition announced (p : pass) (n : node) (w : world) : world :=
  with_stdout (stdout w ++ status_events p (_last_pass (cls w)) n) w.

(** Recording the pass that has just ended. *)
Definition mark (p : pass) (w : world) : world :=
  with_cls {| _commands := _commands (cls w); _last_pass := p |} w.

Definition visit_pass (v : visit) : pass :=
  match v with
  | Forward _ _ => pass_f
  | Backward _ _ _ => pass_b
  end.

(** The loop of the visit [v]. *)
Definition visit_loop (fuel : nat) (v : visit) : M bool :=
  match v with
  | Forward self argument => forward_loop fuel self argument
  | Backward self st g => backward_loop fuel self st g
  end.

(** The body and the dispatch of the loop of a visit. *)
Definition visit_body (fuel : nat) (v : visit) (done : bool) : M bool :=
  match v with
  | Forward self argument => forward_body fuel self argument done
  | Backward self st g => backward_body fuel self st g done
  end.

Definition visit_dispatch (v : visit) (done : bool) (x : value) : M bool :=
  match v with
  | Forward self argument => forward_dispatch self argument done x
  | Backward self st g => backward_dispatch self st g done x
  end.

Definition is_prompt (e : event) : bool :=
  match e with
  | Prompt _ => true
  | _ => false
  end.

(** No prompt among the events [evs]. *)
Definition silent (evs : list event) : Prop :=
  Forall (λ e, is_prompt e = false) evs.

(** The world after a prompt has been shown and the line typed at it has
    been taken from the input, [more] being the lines typed later. *)
Definition prompted (prompt : string) (more : list string) (w : world)
    : world :=
  with_stdin more (with_stdout (stdout w ++ [Prompt prompt]) w).

(** A computation only ever adds to what has been printed. *)
Definition grows {A} (c : M A) : Prop :=
  ∀ w : world, stdout w `prefix_of` stdout (c w).2.

Definition prompt_of (v : visit) : string :=
  match v with
  | Forward _ _ => "[CNTK forward] >>> "
  | Backward _ _ _ => "[CNTK backward] >>> "
  end.

(** The world after a visit that used up one queued command without
    stopping. *)
Definition stepped (p : pass) (n : node) (w : world) : world :=
  mark p (set_queue (removelast (_commands (cls w))) (announced p n w)).

(** What it is for a visit to go by without a prompt. *)
Definition proceeds_without_prompting (fuel : nat) (v : visit) (w : world)
    : Prop :=
  ∃ w' (evs : list event),
    run_visit fuel v w = (Returned (visit_data v), w')
    ∧ stdout w' = stdout w ++ evs ∧ silent evs.

(** The objects the [if]/[elif] chains have a branch for. *)
Definition dispatchable (x : value) : bool :=
  callable x || value_is x "c" || value_is x "n" || value_is x "b"
  || value_is x "f" || value_is x "p" || value_is x "d".

(** What is still to be done, in turns of the loop of a visit: one for
    each queued command and one for each line to be read. *)
Definition work (w : world) : nat :=
  length (_commands (cls w)) + length (stdin w).

(** The predicate [p] applied at the visit [v]. *)
Definition holds_at (p : data → node → result bool) (v : visit)
    : result bool :=
  p (visit_data v) (after (visited v)).

(** One character that is none of [b c d f p n q]. *)
Definition unknown_character (s : string) : Prop :=
  (∃ c, s = String c "") ∧ Py.contains "bcdfpnq" s = false.

(** Several characters, the first of which is not [n]. *)
Definition not_starting_with_n (s : string) : Prop :=
  1 < String.length s ∧ Py.head_is "n" s = false.

(** [n] with an argument that is neither a number nor, for [eval], an
    expression. *)
Definition bad_n_argument (s : string) : Prop :=
  ∃ rest, s = String "n" rest ∧ rest ≠ "" ∧ Py.int rest = None
          ∧ eval rest = Err SyntaxError.

Definition unrecognized (s : string) : Prop :=
  unknown_character s ∨ not_starting_with_n s ∨ bad_n_argument s.

Definition status_prefix (p : pass) : string :=
  match p with
  | pass_f => "Forward after "
  | pass_b => "Backward before "
  end.

(** The debug node made for the graph node [n]. *)
Definition wrapper (n : node) : DebugNode := DebugNode_init n "DebugNode".

End Vocabulary.

Section MoreVocabulary.

Context {data state : Type}.
Variable str_state : state → string.
Variable eval : string → result (@value data).

#[local] Abbreviation M := (@M data).
#[local] Abbreviation world := (@world data).
#[local] Abbreviation event := (@event data).
#[local] Abbreviation value := (@value data).
#[local] Abbreviation visit := (@visit data state).

(** A computation that leaves the pass marker, the host calls and the heap
    alone and takes its input from the front of the lines to be typed. *)
Definition tame {A} (c : M A) : Prop :=
  ∀ w : world,
    _last_pass (cls (c w).2) = _last_pass (cls w)
    ∧ stdin (c w).2 `suffix_of` stdin w
    ∧ host_calls (c w).2 = host_calls w
    ∧ heap (c w).2 = heap w.

(** What the command [p] prints at a visit. *)
Definition printed_by_p (v : visit) : list event :=
  match v with
  | Forward _ argument => [Print "Input: "; PrintData argument]
  | Backward _ st root_gradients =>
      [Print ("State: " +:+ str str_state st); Print "Root gradients: ";
       PrintData root_gradients]
  end.

(** The letter that lets a visit of pass [p] go by and stops at the other
    pass: [b] in a forward pass, [f] in a backward pass. *)
Definition letter_of_other_pass (p : pass) : string :=
  match p with
  | pass_f => "b"
  | pass_b => "f"
  end.

(** The letter that stops at a visit of pass [p]. *)
Definition letter_of_pass (p : pass) : string :=
  match p with
  | pass_f => "f"
  | pass_b => "b"
  end.

(** The lists the parser can hand back: one of the letters [b c d f p], a
    run of [n], or the value [eval] gave for some text. *)
Definition parsed (l : list value) : Prop :=
  (∃ s, l = [VStr s] ∧ s ∈ ["b"; "c"; "d"; "f"; "p"])
  ∨ (∃ m, l = replicate (S m) (VStr "n"))
  ∨ (∃ t x, eval t = Ok x ∧ l = [x]).

(** [n] with a number that is not positive. *)
Definition nonpositive_steps (s : string) : Prop :=
  ∃ rest k, s = String "n" rest ∧ rest ≠ "" ∧ Py.int rest = Some k
            ∧ (k ≤ 0)%Z.

(** A line after which the parser asks again: blank, no command, or a
    number of steps that is not positive. *)
Definition ignored (line : string) : Prop :=
  Py.strip line = "" ∨ unrecognized eval (Py.strip line)
  ∨ nonpositive_steps (Py.strip line).

(** The number of [pdb] sessions among the events. *)
Fixpoint pdb_sessions (evs : list event) : nat :=
  match evs with
  | [] => 0
  | PdbSetTrace :: rest => S (pdb_sessions rest)
  | _ :: rest => pdb_sessions rest
  end.

(** From [w] to [w']: no input has been read and the queue has only lost
    commands from its end, or input has been read. *)
Definition queue_kept_or_input_read (w w' : world) : Prop :=
  (stdin w' = stdin w ∧ _commands (cls w') `prefix_of` _commands (cls w))
  ∨ length (stdin w') < length (stdin w).

(** An object the loop of the visit [v] takes off the queue and goes on
    after: the letter [p], or a predicate that holds at [v]. *)
Definition passed_over (v : visit) (x : value) : Prop :=
  x = VStr "p" ∨ ∃ p, x = VCallable p ∧ holds_at p v = Ok true.

(** An object at which the loop of the visit [v] sets [done]: one of the
    letters [c n b f d], or a predicate that does not hold at [v]. *)
Definition ends_visit (v : visit) (x : value) : Prop :=
  (∃ s, x = VStr s ∧ s ∈ ["c"; "n"; "b"; "f"; "d"])
  ∨ ∃ p, x = VCallable p ∧ holds_at p v = Ok false.

(** The command [s] is [n] followed by a text that is no integer and to
    which [eval] gives the object [x]. *)
Definition evaluates_to (s : string) (x : value) : Prop :=
  ∃ rest, s = String "n" rest ∧ rest ≠ "" ∧ Py.int rest = None
          ∧ eval rest = Ok x.

(** A line after which the visit [v] asks for another: a line the parser
    ignores, the command [p], or [n] with an expression whose value is
    passed over. *)
Definition line_passed_over (v : visit) (line : string) : Prop :=
  Py.strip line = "" ∨ unrecognized eval (Py.strip line)
  ∨ nonpositive_steps (Py.strip line)
  ∨ Py.strip line = "p"
  ∨ ∃ x, evaluates_to (Py.strip line) x ∧ passed_over v x.

(** A line that lets the visit [v] end: one of the letters [c n b f d], [n]
    with a positive number, or [n] with an expression whose value ends the
    visit. *)
Definition line_ends_visit (v : visit) (line : string) : Prop :=
  Py.strip line ∈ ["c"; "n"; "b"; "f"; "d"]
  ∨ (∃ rest k, Py.strip line = String "n" rest ∧ rest ≠ ""
               ∧ Py.int rest = Some k ∧ (0 < k)%Z)
  ∨ ∃ x, evaluates_to (Py.strip line) x ∧ ends_visit v x.

(** The queue and the lines to be typed let the visit [v] come to its end:
    the queue holds an object that ends the visit, all objects behind it
    being passed over; or the whole queue is passed over and a line that
    ends the visit is typed after lines that are passed over.  No [q], no
    end of the input and no exception comes before. *)
Definition session_ends (v : visit) (w : world) : Prop :=
  (∃ pre x post,
     _commands (cls w) = pre ++ x :: post
     ∧ ends_visit v x ∧ Forall (passed_over v) post)
  ∨ (Forall (passed_over v) (_commands (cls w))
     ∧ ∃ skipped line more,
         stdin w = skipped ++ line :: more
         ∧ Forall (line_passed_over v) skipped
         ∧ line_ends_visit v line).

(** Every visit of the list is a call of [backward]. *)
Definition all_backward (vs : list visit) : Prop :=
  Forall (λ v, visit_pass v = pass_b) vs.

End MoreVocabulary.

(** ** Facts on decimal numerals *)

Lemma digit_not_space c : Py.is_digit c = true → Py.isspace c = false.
Proof. by destruct c as [[] [] [] [] [] [] [] []]. Qed.

Lemma digit_not_underscore c : Py.is_digit c = true → Ascii.eqb c "_" = false.
Proof. by destruct c as [[] [] [] [] [] [] [] []]. Qed.

Lemma string_of_uint_digits d :
  digits_only (NilEmpty.string_of_uint d) = true.
Proof. induction d; cbn [NilEmpty.string_of_uint digits_only]; by rewrite ?IHd. Qed.

Lemma ungroup_digits s b : digits_only s = true → Py.ungroup b s = Some s.
Proof.
  revert b. induction s as [|c r IH]; intros b; [done |].
  cbn [digits_only Py.ungroup]. intros [Hc Hr]%andb_prop.
  rewrite (digit_not_underscore c Hc). by rewrite IH.
Qed.

Lemma rstrip_digits s : digits_only s = true → Py.rstrip s = s.
Proof.
  induction s as [|c r IH]; [done |].
  cbn [digits_only Py.rstrip]. intros [Hc Hr]%andb_prop.
  by rewrite (digit_not_space c Hc), IH.
Qed.

Lemma lstrip_digits s : digits_only s = true → Py.lstrip s = s.
Proof.
  destruct s as [|c r]; [done |].
  cbn [digits_only Py.lstrip]. intros [Hc Hr]%andb_prop.
  by rewrite (digit_not_space c Hc).
Qed.

Lemma str_int_pos (p : positive) :
  Py.str_int (Z.pos p) = NilEmpty.string_of_uint (Pos.to_uint p)
  ∧ Py.str_int (Z.pos p) ≠ ""
  ∧ digits_only (Py.str_int (Z.pos p)) = true.
Proof.
  unfold Py.str_int. cbn [Z.to_int NilZero.string_of_int].
  pose proof (DecimalPos.Unsigned.to_uint_nonnil p) as Hnil.
  assert (NilZero.string_of_uint (Pos.to_uint p)
          = NilEmpty.string_of_uint (Pos.to_uint p)) as ->
    by (unfold NilZero.string_of_uint; by destruct (Pos.to_uint p)).
  split_and!; [done | | apply string_of_uint_digits].
  by destruct (Pos.to_uint p).
Qed.

Lemma digits_value_str_int (p : positive) :
  Py.digits_value (Py.str_int (Z.pos p)) = Some (Z.pos p).
Proof.
  destruct (str_int_pos p) as (_ & _ & Hd).
  unfold Py.digits_value. rewrite (ungroup_digits _ _ Hd). cbn [mbind option_bind].
  unfold Py.str_int. cbn [Z.to_int NilZero.string_of_int].
  rewrite NilZero.usu by apply DecimalPos.Unsigned.to_uint_nonnil.
  cbn [mbind option_bind]. f_equal.
  exact (DecimalZ.of_to (Z.pos p)).
Qed.

(** [int] reads back what [str] prints, also after a blank. *)
Lemma int_str_int (p : positive) :
  Py.int (" " +:+ Py.str_int (Z.pos p)) = Some (Z.pos p).
Proof.
  destruct (str_int_pos p) as (_ & Hne & Hd).
  pose proof (digits_value_str_int p) as Hv.
  change (" " +:+ Py.str_int (Z.pos p))
    with (String " " (Py.str_int (Z.pos p))).
  unfold Py.int, Py.strip. cbn [Py.lstrip].
  change (Py.isspace " ") with true. cbn match.
  rewrite (lstrip_digits _ Hd), (rstrip_digits _ Hd).
  destruct (Py.str_int (Z.pos p)) as [|c r]; [done |].
  apply andb_prop in Hd as [Hc _].
  destruct c as [[] [] [] [] [] [] [] []]; try discriminate Hc; exact Hv.
Qed.

(** The command line [n <k>] reaches the parser unchanged. *)
Lemma strip_n_number (p : positive) :
  Py.strip ("n " +:+ Py.str_int (Z.pos p))
  = String "n" (" " +:+ Py.str_int (Z.pos p)).
Proof.
  destruct (str_int_pos p) as (_ & Hne & Hd).
  change ("n " +:+ Py.str_int (Z.pos p))
    with (String "n" (String " " (Py.str_int (Z.pos p)))).
  change (" " +:+ Py.str_int (Z.pos p))
    with (String " " (Py.str_int (Z.pos p))).
  unfold Py.strip. cbn [Py.lstrip].
  change (Py.isspace "n") with false. cbn match.
  cbn [Py.rstrip]. rewrite (rstrip_digits _ Hd).
  change (Py.isspace "n") with false. change (Py.isspace " ") with true.
  by destruct (Py.str_int (Z.pos p)).
Qed.


Section Properties.

Context {data state : Type}.
Variable str_state : state → string.
Variable eval : string → result (@value data).
Variable cntk_py : host_call → result unit.

#[local] Abbreviation M := (@M data).
#[local] Abbreviation world := (@world data).
#[local] Abbreviation event := (@event data).
#[local] Abbreviation value := (@value data).
#[local] Abbreviation visit := (@visit data state).
#[local] Abbreviation interpret := (interpret eval).
#[local] Abbreviation wait_for_input_body := (wait_for_input_body eval).
#[local] Abbreviation __wait_for_input := (__wait_for_input eval).
#[local] Abbreviation refill := (refill eval).
#[local] Abbreviation forward_body := (forward_body eval).
#[local] Abbreviation forward_loop := (forward_loop eval).
#[local] Abbreviation forward := (@forward data state eval).
#[local] Abbreviation backward_dispatch := (backward_dispatch str_state).
#[local] Abbreviation backward_body := (backward_body str_state eval).
#[local] Abbreviation backward_loop := (backward_loop str_state eval).
#[local] Abbreviation backward := (backward str_state eval).
#[local] Abbreviation run_visit := (run_visit str_state eval).
#[local] Abbreviation run_visits := (run_visits str_state eval).
#[local] Abbreviation save_as_legacy_model := (save_as_legacy_model cntk_py).
#[local] Abbreviation visit_loop := (visit_loop str_state eval).
#[local] Abbreviation visit_body := (visit_body str_state eval).
#[local] Abbreviation visit_dispatch := (visit_dispatch str_state).
#[local] Abbreviation proceeds_without_prompting :=
  (proceeds_without_prompting str_state eval).
#[local] Abbreviation bad_n_argument := (bad_n_argument eval).
#[local] Abbreviation unrecognized := (unrecognized eval).
#[local] Abbreviation banner := (@banner data).
#[local] Abbreviation status_events := (@status_events data).
#[local] Abbreviation grows := (@grows data _).
#[local] Abbreviation silent := (@silent data).
#[local] Abbreviation dispatchable := (@dispatchable data).
#[local] Abbreviation set_queue := (@set_queue data).
#[local] Abbreviation prompted := (@prompted data).

Lemma format_status_ok (self : DebugNode) :
  formattable (after self) = true →
  _format_status self = Ok (status_line (after self)).
Proof.
  unfold formattable, _format_status, status_line, type_of_node.
  destruct (after self) as [c sp nm u dyn sh]; simpl.
  destruct c, sp; simpl; intros H; try discriminate;
    destruct nm; reflexivity.
Qed.

Lemma format_status_err (self : DebugNode) :
  formattable (after self) = false →
  _format_status self = Err TypeError.
Proof.
  unfold formattable, _format_status.
  destruct (after self) as [c sp nm u dyn sh]; simpl.
  destruct c, sp; simpl; intros H; try discriminate; reflexivity.
Qed.

Lemma print_status_ok (self : DebugNode) (p : pass) (w : world) :
  formattable (after self) = true →
  _print_status self p w =
    (Returned (),
     with_stdout
       (stdout w ++ status_events p (_last_pass (cls w)) (after self)) w).
Proof.
  intros H. unfold _print_status, status_events, banner.
  rewrite (format_status_ok _ H).
  cbv [bind get_cls print emit lift ret with_stdout].
  destruct p, (_last_pass (cls w));
    cbn [pass_eqb negb stdout cls stdin host_calls heap];
    rewrite <- ?app_assoc; reflexivity.
Qed.

(** *** Running the primitives *)

Lemma bind_returned {A B} (c : M A) (k : A → M B) w a w' :
  c w = (Returned a, w') → bind c k w = k a w'.
Proof. unfold bind. by intros ->. Qed.

Lemma bind_raised {A B} (c : M A) (k : A → M B) w e w' :
  c w = (Raised e, w') → bind c k w = (Raised e, w').
Proof. unfold bind. by intros ->. Qed.

Lemma bind_out_of_fuel {A B} (c : M A) (k : A → M B) w w' :
  c w = (OutOfFuel, w') → bind c k w = (OutOfFuel, w').
Proof. unfold bind. by intros ->. Qed.

Lemma while_not_stop {S} n (test : S → bool) (body : S → M S) s :
  test s = true → while_not n test body s = ret s.
Proof. intros H. destruct n; simpl; by rewrite H. Qed.

Lemma while_not_step {S} n (test : S → bool) (body : S → M S) s :
  test s = false →
  while_not (Datatypes.S n) test body s
  = bind (body s) (while_not n test body).
Proof. intros H. simpl. by rewrite H. Qed.

Lemma last_is_nil (l : list value) v : last l = Some v → is_nil l = false.
Proof. by destruct l. Qed.

Lemma refill_nonempty fuel prompt (w : world) :
  is_nil (_commands (cls w)) = false → refill fuel prompt w = (Returned (), w).
Proof.
  intros H. unfold refill, bind, get_commands, get_cls, ret. cbn.
  by rewrite H.
Qed.

Lemma commands_last_some (w : world) v :
  last (_commands (cls w)) = Some v → commands_last w = (Returned v, w).
Proof.
  intros H. unfold commands_last, bind, get_commands, get_cls, ret. cbn.
  by rewrite H.
Qed.

Lemma pop_some (w : world) v :
  last (_commands (cls w)) = Some v →
  pop w = (Returned v, set_queue (removelast (_commands (cls w))) w).
Proof.
  intros H. unfold pop. rewrite (bind_returned _ _ _ _ _ (commands_last_some _ _ H)).
  reflexivity.
Qed.

(** An iteration that finds a command waiting goes straight to the
    dispatch. *)
Lemma forward_body_pending fuel self arg done (w : world) v :
  last (_commands (cls w)) = Some v →
  forward_body fuel self arg done w = forward_dispatch self arg done v w.
Proof.
  intros H. unfold forward_body.
  rewrite (bind_returned _ _ _ _ _ (refill_nonempty _ _ _ (last_is_nil _ _ H))).
  by rewrite (bind_returned _ _ _ _ _ (commands_last_some _ _ H)).
Qed.

Lemma backward_body_pending fuel self st g done (w : world) v :
  last (_commands (cls w)) = Some v →
  backward_body fuel self st g done w = backward_dispatch self st g done v w.
Proof.
  intros H. unfold backward_body.
  rewrite (bind_returned _ _ _ _ _ (refill_nonempty _ _ _ (last_is_nil _ _ H))).
  by rewrite (bind_returned _ _ _ _ _ (commands_last_some _ _ H)).
Qed.

(** *** A pass in terms of its loop *)

Lemma run_visit_loop fuel (v : visit) (w : world) :
  formattable (after (visited v)) = true →
  run_visit fuel v w =
    match visit_loop fuel v (announced (visit_pass v) (after (visited v)) w) with
    | (Returned _, w') => (Returned (visit_data v), mark (visit_pass v) w')
    | (Raised e, w') => (Raised e, w')
    | (OutOfFuel, w') => (OutOfFuel, w')
    end.
Proof.
  intros H. destruct v as [self arg | self st g];
    cbn [visited visit_pass visit_data visit_loop] in *.
  - unfold run_visit, forward. unfold bind at 1.
    rewrite (bind_returned _ _ _ _ _ (print_status_ok self pass_f w H)).
    fold (announced pass_f (after self) w). unfold bind at 1.
    destruct (forward_loop _ _ _ _) as [[b| |] w']; reflexivity.
  - unfold run_visit, backward.
    rewrite (bind_returned _ _ _ _ _ (print_status_ok self pass_b w H)).
    fold (announced pass_b (after self) w). unfold bind at 1.
    destruct (backward_loop _ _ _ _ _) as [[b| |] w']; reflexivity.
Qed.

Lemma visit_loop_unfold fuel (v : visit) :
  visit_loop fuel v = while_not fuel id (visit_body fuel v) false.
Proof. by destruct v. Qed.

Lemma visit_body_pending fuel (v : visit) done (w : world) x :
  last (_commands (cls w)) = Some x →
  visit_body fuel v done w = visit_dispatch v done x w.
Proof.
  destruct v; [apply forward_body_pending | apply backward_body_pending].
Qed.

Lemma loop_done n (body : bool → M bool) (w w' : world) :
  body false w = (Returned true, w') →
  while_not (S n) id body false w = (Returned true, w').
Proof.
  intros H. rewrite while_not_step by done.
  rewrite (bind_returned _ _ _ _ _ H). by rewrite while_not_stop.
Qed.

Lemma loop_again n (body : bool → M bool) (w w' : world) :
  body false w = (Returned false, w') →
  while_not (S n) id body false w = while_not n id body false w'.
Proof.
  intros H. rewrite while_not_step by done.
  by rewrite (bind_returned _ _ _ _ _ H).
Qed.

Lemma loop_raised n (body : bool → M bool) (w w' : world) e :
  body false w = (Raised e, w') →
  while_not (S n) id body false w = (Raised e, w').
Proof.
  intros H. rewrite while_not_step by done.
  by rewrite (bind_raised _ _ _ _ _ H).
Qed.

(** *** Run until end: [c] *)

Lemma visit_dispatch_c (v : visit) done (w : world) :
  visit_dispatch v done (VStr "c") w = (Returned true, w).
Proof. by destruct v. Qed.

Lemma announced_commands p n (w : world) :
  _commands (cls (announced p n w)) = _commands (cls w).
Proof. done. Qed.

Lemma run_visit_c n (v : visit) (w : world) :
  formattable (after (visited v)) = true →
  last (_commands (cls w)) = Some (VStr "c") →
  run_visit (S n) v w
  = (Returned (visit_data v),
     finish (visit_pass v) (after (visited v)) w).
Proof.
  intros Hf Hc. rewrite run_visit_loop by done.
  rewrite visit_loop_unfold.
  rewrite (loop_done _ _ _ (announced (visit_pass v) (after (visited v)) w));
    [done |].
  rewrite (visit_body_pending _ _ _ _ (VStr "c")) by done.
  apply visit_dispatch_c.
Qed.

Lemma banner_silent p last : silent (banner p last).
Proof. unfold silent. destruct p, last; cbn; repeat constructor. Qed.

Lemma status_events_silent p last n : silent (status_events p last n).
Proof.
  unfold silent, status_events. apply Forall_app. split.
  - apply banner_silent.
  - by repeat constructor.
Qed.

Lemma print_status_err (self : DebugNode) (p : pass) (w : world) :
  formattable (after self) = false →
  _print_status self p w =
    (Raised TypeError,
     with_stdout (stdout w ++ banner p (_last_pass (cls w))) w).
Proof.
  intros H. unfold _print_status, banner.
  rewrite (format_status_err _ H).
  cbv [bind get_cls print emit lift ret raise with_stdout].
  destruct p, (_last_pass (cls w));
    cbn [pass_eqb negb stdout cls stdin host_calls heap];
    rewrite <- ?app_assoc, ?app_nil_r; try reflexivity.
  all: by destruct w.
Qed.

Lemma run_visit_unformattable fuel (v : visit) (w : world) :
  formattable (after (visited v)) = false →
  run_visit fuel v w =
    (Raised TypeError,
     with_stdout
       (stdout w ++ banner (visit_pass v) (_last_pass (cls w))) w).
Proof.
  intros H. destruct v as [self arg | self st g];
    cbn [visited visit_pass] in *.
  - unfold run_visit, forward. unfold bind at 1.
    by rewrite (bind_raised _ _ _ _ _ (print_status_err self pass_f w H)).
  - unfold run_visit, backward.
    by rewrite (bind_raised _ _ _ _ _ (print_status_err self pass_b w H)).
Qed.

(** C9. Once [c] is the last element of the command queue, it stays
    there: whatever nodes are visited afterwards, in forward or backward
    direction, the queue is left as it is, no line of input is read and no
    prompt is shown.  Each of these calls returns at once, handing its data
    through, as long as the status line of the node can be built; on a node
    whose status line cannot be built the call raises [TypeError] before
    the queue is looked at. *)
Theorem C9_run_until_end_is_never_removed
    (n : nat) (vs : list visit) (w : world) :
  last (_commands (cls w)) = Some (VStr "c") →
  ∃ o w' (evs : list event),
    run_visits (S n) vs w = (o, w')
    ∧ _commands (cls w') = _commands (cls w)
    ∧ stdin w' = stdin w
    ∧ stdout w' = stdout w ++ evs ∧ silent evs
    ∧ (o = Returned (visit_data <$> vs) ∨ o = Raised TypeError)
    ∧ (Forall (λ v, formattable (after (visited v)) = true) vs →
       o = Returned (visit_data <$> vs)).
Proof.
  revert w. induction vs as [|v vs IH]; intros w Hc.
  - exists (Returned []), w, []. cbn. rewrite app_nil_r.
    repeat split; auto. constructor.
  - cbn [run_visits].
    destruct (formattable (after (visited v))) eqn:Hf.
    + rewrite (bind_returned _ _ _ _ _ (run_visit_c n v w Hf Hc)).
      destruct (IH (finish (visit_pass v) (after (visited v)) w) Hc)
        as (o & w' & evs & Hrun & Hq & Hin & Hout & Hs & Ho & Hall).
      exists (match o with
              | Returned rs => Returned (visit_data v :: rs)
              | Raised e => Raised e
              | OutOfFuel => OutOfFuel
              end), w',
        (status_events (visit_pass v) (_last_pass (cls w)) (after (visited v))
         ++ evs).
      unfold bind at 1. rewrite Hrun.
      repeat split.
      * by destruct o.
      * done.
      * done.
      * rewrite Hout. cbn. by rewrite app_assoc.
      * apply Forall_app. split; [apply status_events_silent | done].
      * destruct Ho as [-> | ->]; [left | right]; done.
      * intros Hv. rewrite Hall; [done |]. by inversion Hv.
    + rewrite (bind_raised _ _ _ _ _ (run_visit_unformattable _ v w Hf)).
      exists (Raised TypeError),
        (with_stdout
           (stdout w ++ banner (visit_pass v) (_last_pass (cls w))) w),
        (banner (visit_pass v) (_last_pass (cls w))).
      split_and!; try done.
      * apply banner_silent.
      * by right.
      * intros Hv. inversion Hv; congruence.
Qed.

(** *** Reading a command *)

Lemma input_line prompt line more (w : world) :
  stdin w = line :: more →
  input prompt w = (Returned line, prompted prompt more w).
Proof.
  intros H. unfold input, bind, emit. cbn. by rewrite H.
Qed.

Lemma input_eof prompt (w : world) :
  stdin w = [] →
  input prompt w
  = (Raised EOFError, with_stdout (stdout w ++ [Prompt prompt]) w).
Proof.
  intros H. unfold input, bind, emit. cbn. by rewrite H.
Qed.

(** The branch of the parser taken by a line that starts with [n]. *)
Lemma not_single_letter rest :
  (String.length (String "n" rest) =? 1)%nat
  && Py.contains "bcdfp" (String "n" rest) = false.
Proof. destruct rest; reflexivity. Qed.

(** [n] followed by a number [k > 0]: [k] single steps. *)
Lemma body_n_number prompt u line more rest k (w : world) :
  stdin w = line :: more →
  Py.strip line = String "n" rest →
  rest ≠ "" →
  Py.int rest = Some k →
  (0 < k)%Z →
  wait_for_input_body prompt u w
  = (Returned (UList (replicate (Z.to_nat k) (VStr "n"))),
     prompted prompt more w).
Proof.
  intros Hin Hs Hr Hk Hpos. unfold wait_for_input_body.
  rewrite (bind_returned _ _ _ _ _ (input_line prompt _ _ _ Hin)).
  rewrite Hs. cbn [Py.is_empty]. unfold interpret.
  rewrite not_single_letter.
  cbn [Py.head_is Py.tail]. rewrite Ascii.eqb_refl.
  assert ((1 <? String.length (String "n" rest))%nat = true) as ->
    by (destruct rest; [done | reflexivity]).
  unfold py_int. rewrite Hk. cbv [bind ret try_except].
  destruct (Z.to_nat k) as [|m] eqn:Hm; [lia |].
  reflexivity.
Qed.

(** A bare [n]: one single step. *)
Lemma body_n prompt u line more (w : world) :
  stdin w = line :: more →
  Py.strip line = "n" →
  wait_for_input_body prompt u w
  = (Returned (UList [VStr "n"]), prompted prompt more w).
Proof.
  intros Hin Hs. unfold wait_for_input_body.
  rewrite (bind_returned _ _ _ _ _ (input_line prompt _ _ _ Hin)).
  rewrite Hs. reflexivity.
Qed.

Lemma wait_for_input_understood n prompt (w w' : world) l :
  wait_for_input_body prompt UFalse w = (Returned (UList l), w') →
  l ≠ [] →
  __wait_for_input (S n) prompt w = (Returned l, w').
Proof.
  intros H Hl. unfold __wait_for_input.
  rewrite while_not_step by done. unfold bind at 1.
  rewrite (bind_returned _ _ _ _ _ H).
  rewrite while_not_stop; [done |]. by destruct l.
Qed.

(** *** Output is only ever appended *)

Lemma grows_ret {A} (a : A) : grows (ret a).
Proof. by intros w. Qed.

Lemma grows_raise {A} e : grows (@raise data A e).
Proof. by intros w. Qed.

Lemma grows_out_of_fuel {A} : grows (@out_of_fuel data A).
Proof. by intros w. Qed.

Lemma grows_emit e : grows (emit e).
Proof. intros w. cbn. by apply prefix_app_r. Qed.

Lemma grows_bind {A B} (c : M A) (k : A → M B) :
  grows c → (∀ a, grows (k a)) → grows (bind c k).
Proof.
  intros Hc Hk w. unfold bind. specialize (Hc w).
  destruct (c w) as [[a|e|] w1]; cbn in *; [| done | done].
  etrans; [exact Hc | apply Hk].
Qed.

Lemma grows_try_except {A} (c h : M A) f :
  grows c → grows h → grows (try_except c f h).
Proof.
  intros Hc Hh w. unfold try_except. specialize (Hc w).
  destruct (c w) as [[a|e|] w1]; cbn in *; [done | | done].
  destruct (f e); [| done]. etrans; [exact Hc | apply Hh].
Qed.

Lemma grows_lift {A} (r : result A) : grows (lift r).
Proof. destruct r; [apply grows_ret | apply grows_raise]. Qed.

Lemma grows_while_not {S} n (test : S → bool) (body : S → M S) s :
  (∀ s, grows (body s)) → grows (while_not n test body s).
Proof.
  intros Hb. revert s. induction n as [|n IH]; intros s; cbn.
  - destruct (test s); [apply grows_ret | apply grows_out_of_fuel].
  - destruct (test s); [apply grows_ret |]. by apply grows_bind.
Qed.

Lemma grows_input prompt : grows (input prompt).
Proof.
  apply grows_bind; [apply grows_emit |]. intros _ w.
  by destruct (stdin w).
Qed.

Lemma grows_get_cls : grows get_cls.
Proof. by intros w. Qed.

Lemma grows_put_cls c : grows (put_cls c).
Proof. by intros w. Qed.

Lemma grows_get_commands : grows get_commands.
Proof. by intros w. Qed.

Lemma grows_set_commands l : grows (set_commands l).
Proof. by intros w. Qed.

Lemma grows_set_last_pass p : grows (set_last_pass p).
Proof. by intros w. Qed.

Lemma grows_commands_last : grows commands_last.
Proof.
  apply grows_bind; [apply grows_get_commands |]. intros l.
  destruct (last l); [apply grows_ret | apply grows_raise].
Qed.

Lemma grows_pop : grows pop.
Proof.
  apply grows_bind; [apply grows_commands_last |]. intros v.
  apply grows_bind; [apply grows_get_commands |]. intros l.
  apply grows_bind; [apply grows_set_commands |]. intros _. apply grows_ret.
Qed.

Lemma grows_call (v : value) arg n : grows (call v arg n).
Proof. destruct v; [apply grows_raise | apply grows_lift | apply grows_raise]. Qed.

Lemma grows_py_int s : grows (py_int s).
Proof. unfold py_int. destruct (Py.int s); [apply grows_ret | apply grows_raise]. Qed.

Create HintDb grows discriminated.
Hint Resolve grows_ret grows_raise grows_out_of_fuel grows_emit grows_bind
  grows_try_except grows_lift grows_input grows_get_cls grows_put_cls
  grows_get_commands grows_set_commands grows_set_last_pass
  grows_commands_last grows_pop grows_call grows_py_int : grows.

Ltac grows :=
  repeat first
    [ progress (intros; auto with grows)
    | apply grows_bind
    | apply grows_try_except
    | match goal with |- grows (if ?b then _ else _) => destruct b end
    | match goal with |- grows (match ?x with _ => _ end) => destruct x end ].

Lemma grows_wait_for_input_body prompt u :
  grows (wait_for_input_body prompt u).
Proof. unfold wait_for_input_body, interpret, print. grows. Qed.

Lemma grows_wait_for_input n prompt : grows (__wait_for_input n prompt).
Proof.
  unfold __wait_for_input. apply grows_bind; [| grows].
  apply grows_while_not. intros u. apply grows_wait_for_input_body.
Qed.

Lemma grows_refill n prompt : grows (refill n prompt).
Proof.
  unfold refill. apply grows_bind; [grows |]. intros l.
  destruct (is_nil l); [| grows].
  apply grows_bind; [apply grows_wait_for_input | grows].
Qed.

Lemma grows_visit_dispatch (v : visit) done x : grows (visit_dispatch v done x).
Proof.
  destruct v; cbn;
    unfold forward_dispatch, backward_dispatch, print,
      pdb_set_trace; grows.
Qed.

Lemma grows_visit_body n (v : visit) done : grows (visit_body n v done).
Proof.
  pose proof (grows_visit_dispatch v done) as Hd.
  destruct v; cbn; unfold forward_body, backward_body;
    (apply grows_bind; [apply grows_refill |]); intros _;
    (apply grows_bind; [apply grows_commands_last |]); intros x;
    apply (Hd x).
Qed.

Lemma grows_visit_loop n (v : visit) : grows (visit_loop n v).
Proof.
  rewrite visit_loop_unfold. apply grows_while_not. intros d.
  apply grows_visit_body.
Qed.

(** *** A visit that finds the queue empty pauses *)

Lemma prefix_bind {A B} (c : M A) (k : A → M B) (w : world) l :
  l `prefix_of` stdout (c w).2 → (∀ a, grows (k a)) →
  l `prefix_of` stdout (bind c k w).2.
Proof.
  intros Hc Hk. unfold bind.
  destruct (c w) as [[a|e|] w1]; cbn in *; [| done | done].
  etrans; [exact Hc | apply Hk].
Qed.

Lemma input_prompts prompt (w : world) :
  (stdout w ++ [Prompt prompt]) `prefix_of` stdout (input prompt w).2.
Proof.
  unfold input, bind, emit. cbn. by destruct (stdin w).
Qed.

Lemma wait_for_input_prompts n prompt (w : world) :
  (stdout w ++ [Prompt prompt])
    `prefix_of` stdout (__wait_for_input (S n) prompt w).2.
Proof.
  unfold __wait_for_input. apply prefix_bind; [| grows].
  rewrite while_not_step by done. apply prefix_bind.
  - unfold wait_for_input_body. apply prefix_bind; [apply input_prompts |].
    intros line. fold (wait_for_input_body prompt UFalse).
    unfold interpret, print. grows.
  - intros u. apply grows_while_not. apply grows_wait_for_input_body.
Qed.

Lemma loop_prompts n f (v : visit) (w : world) :
  _commands (cls w) = [] →
  (stdout w ++ [Prompt (prompt_of v)])
    `prefix_of` stdout (while_not (S n) id (visit_body (S f) v) false w).2.
Proof.
  intros Hq. rewrite while_not_step by done.
  apply prefix_bind; [| intros d; apply grows_while_not, grows_visit_body].
  pose proof (grows_visit_dispatch v false) as Hd.
  assert (∀ prompt,
    (stdout w ++ [Prompt prompt])
      `prefix_of` stdout (refill (S f) prompt w).2) as Hrefill.
  { intros prompt. unfold refill, bind at 1, get_commands, bind at 1, get_cls, ret.
    cbn. rewrite Hq. cbn.
    apply prefix_bind; [apply wait_for_input_prompts | grows]. }
  destruct v; cbn [visit_body prompt_of]; unfold forward_body, backward_body;
    (apply prefix_bind; [apply Hrefill |]); intros _;
    (apply grows_bind; [apply grows_commands_last |]); intros x;
    apply (Hd x).
Qed.

Lemma visit_loop_prompts n (v : visit) (w : world) :
  _commands (cls w) = [] →
  (stdout w ++ [Prompt (prompt_of v)])
    `prefix_of` stdout (visit_loop (S n) v w).2.
Proof. intros Hq. rewrite visit_loop_unfold. by apply loop_prompts. Qed.

Lemma run_visit_prompts n (v : visit) (w : world) :
  formattable (after (visited v)) = true →
  _commands (cls w) = [] →
  (stdout w
   ++ status_events (visit_pass v) (_last_pass (cls w)) (after (visited v))
   ++ [Prompt (prompt_of v)])
    `prefix_of` stdout (run_visit (S n) v w).2.
Proof.
  intros Hf Hq. rewrite run_visit_loop by done.
  pose proof (visit_loop_prompts n v
                (announced (visit_pass v) (after (visited v)) w) Hq) as H.
  cbn [announced stdout with_stdout] in H. rewrite <- app_assoc in H.
  destruct (visit_loop _ _ _) as [[b| |] w1]; exact H.
Qed.

(** *** Single steps: [n] *)

Lemma last_replicate_S {A} m (x : A) : last (replicate (S m) x) = Some x.
Proof. rewrite replicate_S_end. apply last_snoc. Qed.

Lemma removelast_replicate_S {A} m (x : A) :
  removelast (replicate (S m) x) = replicate m x.
Proof. rewrite replicate_S_end. apply removelast_last. Qed.

Lemma refill_empty fuel prompt (w w' : world) l :
  _commands (cls w) = [] →
  __wait_for_input fuel prompt w = (Returned l, w') →
  refill fuel prompt w = (Returned (), set_queue l w').
Proof.
  intros Hq H. unfold refill, bind at 1, get_commands, bind at 1, get_cls, ret.
  cbn. rewrite Hq. cbn. by rewrite (bind_returned _ _ _ _ _ H).
Qed.

Lemma visit_dispatch_n (v : visit) done (w : world) :
  last (_commands (cls w)) = Some (VStr "n") →
  visit_dispatch v done (VStr "n") w
  = (Returned true, set_queue (removelast (_commands (cls w))) w).
Proof.
  intros H. destruct v; cbn;
    unfold forward_dispatch, backward_dispatch; cbn;
    by rewrite (bind_returned _ _ _ _ _ (pop_some _ _ H)).
Qed.

Lemma run_visit_n n (v : visit) (w : world) :
  formattable (after (visited v)) = true →
  last (_commands (cls w)) = Some (VStr "n") →
  run_visit (S n) v w
  = (Returned (visit_data v),
     stepped (visit_pass v) (after (visited v)) w).
Proof.
  intros Hf Hc. rewrite run_visit_loop by done.
  rewrite visit_loop_unfold.
  rewrite (loop_done _ _ _
             (set_queue (removelast (_commands (cls w)))
                (announced (visit_pass v) (after (visited v)) w)));
    [done |].
  rewrite (visit_body_pending _ _ _ _ (VStr "n")) by done.
  by rewrite visit_dispatch_n.
Qed.

(** A visit that finds the queue empty and is given a list of [n]. *)
Lemma run_visit_enter_steps n (v : visit) (w w1 : world) m :
  formattable (after (visited v)) = true →
  _commands (cls w) = [] →
  __wait_for_input (S n) (prompt_of v)
    (announced (visit_pass v) (after (visited v)) w)
  = (Returned (replicate (S m) (VStr "n")), w1) →
  run_visit (S n) v w
  = (Returned (visit_data v),
     mark (visit_pass v) (set_queue (replicate m (VStr "n")) w1)).
Proof.
  intros Hf Hq Hw. rewrite run_visit_loop by done.
  rewrite visit_loop_unfold.
  set (w0 := announced (visit_pass v) (after (visited v)) w) in *.
  assert (_commands (cls w0) = []) as Hq0 by exact Hq.
  pose proof (last_replicate_S m (VStr "n" : value)) as Hlast.
  rewrite (loop_done _ _ _ (set_queue (replicate m (VStr "n")) w1));
    [done |].
  assert (visit_body (S n) v false w0
          = visit_dispatch v false (VStr "n")
              (set_queue (replicate (S m) (VStr "n")) w1)) as ->.
  { destruct v; cbn [visit_body visit_dispatch prompt_of] in *;
      unfold forward_body, backward_body;
      rewrite (bind_returned _ _ _ _ _ (refill_empty _ _ _ _ _ Hq0 Hw));
      by rewrite (bind_returned _ _ _ _ _
                    (commands_last_some (set_queue _ w1) _ Hlast)). }
  rewrite visit_dispatch_n by exact Hlast.
  cbn [set_queue cls with_cls _commands].
  rewrite removelast_replicate_S. by destruct w1.
Qed.

Lemma run_visits_stepping n (vs : list visit) (w : world) j :
  _commands (cls w) = replicate j (VStr "n") →
  length vs ≤ j →
  Forall (λ v, formattable (after (visited v)) = true) vs →
  ∃ w' (evs : list event),
    run_visits (S n) vs w = (Returned (visit_data <$> vs), w')
    ∧ _commands (cls w') = replicate (j - length vs) (VStr "n")
    ∧ stdin w' = stdin w
    ∧ stdout w' = stdout w ++ evs ∧ silent evs.
Proof.
  revert w j. induction vs as [|v vs IH]; intros w j Hq Hlen Hall.
  - exists w, []. cbn. rewrite Nat.sub_0_r, app_nil_r.
    split_and!; try done. constructor.
  - destruct j as [|j]; [cbn in Hlen; lia |].
    inversion Hall as [|? ? Hv Hvs]; subst.
    assert (last (_commands (cls w)) = Some (VStr "n")) as Hlast
      by (rewrite Hq; apply last_replicate_S).
    cbn [run_visits].
    rewrite (bind_returned _ _ _ _ _ (run_visit_n n v w Hv Hlast)).
    destruct (IH (stepped (visit_pass v) (after (visited v)) w) j)
      as (w' & evs & Hrun & Hq' & Hin & Hout & Hs).
    { cbn. rewrite Hq. apply removelast_replicate_S. }
    { cbn in Hlen. lia. }
    { done. }
    exists w',
      (status_events (visit_pass v) (_last_pass (cls w)) (after (visited v))
       ++ evs).
    rewrite (bind_returned _ _ _ _ _ Hrun).
    split_and!; try done.
    + rewrite Hout. cbn. by rewrite app_assoc.
    + apply Forall_app. split; [apply status_events_silent | done].
Qed.

(** C5 (as amended). Let [n <k>] with [k > 0] be typed at the prompt of a
    visit.  The parser turns it into [k] single-step commands.  The visit
    at whose prompt it was typed uses up the first and ends.  Each of the
    visits that follow, up to [k - 1] of them, uses up one more, reading no
    input and showing no prompt.  After [k - 1] such visits the queue is
    empty, and the visit after them prompts again. *)
Theorem C5_n_number_steps (n : nat) (k : positive) (v next : visit)
    (vs : list visit) (more : list string) (w : world) :
  _commands (cls w) = [] →
  stdin w = ("n " +:+ Py.str_int (Z.pos k)) :: more →
  formattable (after (visited v)) = true →
  Forall (λ v, formattable (after (visited v)) = true) vs →
  formattable (after (visited next)) = true →
  length vs ≤ Pos.to_nat k - 1 →
  ∃ (w1 w2 : world) (evs : list event),
    (∀ prompt,
       __wait_for_input (S n) prompt w
       = (Returned (replicate (Pos.to_nat k) (VStr "n")),
          prompted prompt more w))
    ∧ run_visit (S n) v w = (Returned (visit_data v), w1)
    ∧ _commands (cls w1) = replicate (Pos.to_nat k - 1) (VStr "n")
    ∧ stdin w1 = more
    ∧ stdout w1
      = stdout w
        ++ status_events (visit_pass v) (_last_pass (cls w)) (after (visited v))
        ++ [Prompt (prompt_of v)]
    ∧ run_visits (S n) vs w1 = (Returned (visit_data <$> vs), w2)
    ∧ _commands (cls w2)
      = replicate (Pos.to_nat k - 1 - length vs) (VStr "n")
    ∧ stdin w2 = more
    ∧ stdout w2 = stdout w1 ++ evs ∧ silent evs
    ∧ (length vs = Pos.to_nat k - 1 →
       _commands (cls w2) = []
       ∧ (stdout w2
          ++ status_events (visit_pass next) (_last_pass (cls w2))
               (after (visited next))
          ++ [Prompt (prompt_of next)])
           `prefix_of` stdout (run_visit (S n) next w2).2).
Proof.
  intros Hq Hin Hv Hvs Hnext Hlen.
  assert (∀ prompt (w0 : world),
    stdin w0 = stdin w →
    __wait_for_input (S n) prompt w0
    = (Returned (replicate (Pos.to_nat k) (VStr "n")),
       prompted prompt more w0)) as Hparse.
  { intros prompt w0 Hin0. apply wait_for_input_understood.
    - rewrite <- Z2Nat.inj_pos.
      apply body_n_number with (line := "n " +:+ Py.str_int (Z.pos k))
                               (rest := " " +:+ Py.str_int (Z.pos k)).
      + by rewrite Hin0.
      + apply strip_n_number.
      + done.
      + apply int_str_int.
      + lia.
    - destruct (Pos.to_nat k) eqn:E; [lia | done]. }
  destruct (Pos.to_nat k) as [|m] eqn:Hk; [lia |].
  pose proof (run_visit_enter_steps n v w _ m Hv Hq
                (Hparse (prompt_of v)
                   (announced (visit_pass v) (after (visited v)) w)
                   eq_refl)) as Hrun1.
  match type of Hrun1 with _ = (_, ?x) => set (w1 := x) in * end.
  destruct (run_visits_stepping n vs w1 m) as (w2 & evs & Hrun & Hq2 & Hin2 & Hout & Hs).
  { done. }
  { lia. }
  { done. }
  exists w1, w2, evs.
  replace (S m - 1) with m in * by lia.
  split_and!; try done.
  - intros prompt. by apply Hparse.
  - cbn. by rewrite <- app_assoc.
  - intros Hl. rewrite Hl, Nat.sub_diag in Hq2. split; [done |].
    by apply run_visit_prompts.
Qed.

(** *** Objects the dispatch has a branch for *)

(** On an object it has no branch for, the dispatch does nothing. *)
Lemma visit_dispatch_stuck (v : visit) done x (w : world) :
  dispatchable x = false →
  visit_dispatch v done x w = (Returned done, w).
Proof.
  unfold dispatchable. intros H.
  repeat (apply orb_false_elim in H as [H ?]).
  destruct v; cbn; unfold forward_dispatch, backward_dispatch;
    repeat match goal with H : _ = false |- _ => rewrite H; clear H end;
    reflexivity.
Qed.

(** Such an object at the end of the queue keeps the loop turning without
    any change of the world, whatever the fuel. *)
Lemma visit_loop_stuck n f (v : visit) x (w : world) :
  last (_commands (cls w)) = Some x →
  dispatchable x = false →
  while_not n id (visit_body f v) false w = (OutOfFuel, w).
Proof.
  intros Hlast Hx. induction n as [|n IH]; [done |].
  rewrite (loop_again _ _ w w); [exact IH |].
  rewrite (visit_body_pending _ _ _ _ x) by done.
  by apply visit_dispatch_stuck.
Qed.

Lemma run_visit_stuck n (v : visit) x (w : world) :
  formattable (after (visited v)) = true →
  last (_commands (cls w)) = Some x →
  dispatchable x = false →
  run_visit n v w
  = (OutOfFuel, announced (visit_pass v) (after (visited v)) w).
Proof.
  intros Hf Hlast Hx. rewrite run_visit_loop by done.
  rewrite visit_loop_unfold.
  by rewrite (visit_loop_stuck _ _ _ x).
Qed.

(** *** What the parser can answer *)

Lemma while_not_returned {S} n (test : S → bool) (body : S → M S) s
    (w w' : world) s' :
  while_not n test body s w = (Returned s', w') → test s' = true.
Proof.
  revert s w. induction n as [|n IH]; intros s w; cbn.
  - destruct (test s) eqn:Hs; [| done]. by intros [= <- <-].
  - destruct (test s) eqn:Hs; [by intros [= <- <-] |].
    unfold bind. destruct (body s w) as [[s1|e|] w1]; [| done | done].
    apply IH.
Qed.

(** The list the parser hands back is never empty. *)
Lemma wait_for_input_nonempty n prompt (w w' : world) l :
  __wait_for_input n prompt w = (Returned l, w') → l ≠ [].
Proof.
  unfold __wait_for_input, bind.
  destruct (while_not _ _ _ _ _) as [[u|e|] w1] eqn:H; [| done | done].
  intros [= <- <-]. apply while_not_returned in H. by destruct u as [|[|]].
Qed.

(** *** The end of the input *)

Lemma body_eof prompt u (w : world) :
  stdin w = [] →
  wait_for_input_body prompt u w
  = (Raised EOFError, with_stdout (stdout w ++ [Prompt prompt]) w).
Proof.
  intros H. unfold wait_for_input_body.
  by rewrite (bind_raised _ _ _ _ _ (input_eof prompt _ H)).
Qed.

Ltac run_dispatch :=
  cbv [pop commands_last get_commands get_cls set_commands put_cls bind ret
       raise print emit pdb_set_trace call lift];
  cbn [cls stdin stdout host_calls heap _commands _last_pass
       with_cls with_stdout].

(** *** The node hands its data through *)

Lemma forward_returned fuel self argument (w w' : world) r :
  forward fuel self argument w = (Returned r, w') → r = (None, argument).
Proof.
  unfold forward, bind.
  destruct (_print_status self pass_f w) as [[[]|e|] w1]; [| done | done].
  destruct (forward_loop fuel self argument w1) as [[b|e|] w2];
    [| done | done].
  cbn. by intros [= <- <-].
Qed.

Lemma backward_returned fuel self st root_gradients (w w' : world) r :
  backward fuel self st root_gradients w = (Returned r, w') →
  r = root_gradients.
Proof.
  unfold backward, bind.
  destruct (_print_status self pass_b w) as [[[]|e|] w1]; [| done | done].
  destruct (backward_loop fuel self st root_gradients w1) as [[b|e|] w2];
    [| done | done].
  cbn. by intros [= <- <-].
Qed.

(** *** One queue for all nodes *)

Lemma wait_for_input_n_number n prompt (k : positive) more (w : world) :
  stdin w = ("n " +:+ Py.str_int (Z.pos k)) :: more →
  __wait_for_input (S n) prompt w
  = (Returned (replicate (Pos.to_nat k) (VStr "n")), prompted prompt more w).
Proof.
  intros Hin. apply wait_for_input_understood.
  - rewrite <- Z2Nat.inj_pos.
    apply body_n_number with (line := "n " +:+ Py.str_int (Z.pos k))
                             (rest := " " +:+ Py.str_int (Z.pos k));
      [done | apply strip_n_number | done | apply int_str_int | lia].
  - destruct (Pos.to_nat k) eqn:E; [lia | done].
Qed.

Lemma forward_of_visit fuel self argument (w w' : world) x :
  run_visit fuel (Forward self argument) w = (Returned x, w') →
  forward fuel self argument w = (Returned (None, argument), w').
Proof.
  cbn [run_visit]. unfold bind.
  destruct (forward fuel self argument w) as [[r|e|] w1] eqn:H;
    [| done | done].
  intros [= <- <-]. by apply forward_returned in H as ->.
Qed.

(** C3. The command queue and the last-pass marker belong to the class,
    not to a node.  Let [n <k>] with [k > 1] be typed at the prompt of
    [forward] on a node [d1].  That call leaves [k - 1] steps in the queue
    and the marker at forward.  Whatever node [d2] is visited next, it finds
    them: its [forward] as well as its [backward] takes one of these steps
    without reading input or prompting, and its [backward] prints the
    separator of a change of pass, having read the marker that the call on
    [d1] wrote. *)
Theorem C3_queue_and_marker_shared_by_all_nodes
    (n : nat) (k : positive) (d1 d2 : DebugNode) (a1 a2 : data)
    (st : option state) (more : list string) (w : world) :
  _commands (cls w) = [] →
  stdin w = ("n " +:+ Py.str_int (Z.pos k)) :: more →
  (1 < k)%positive →
  formattable (after d1) = true →
  formattable (after d2) = true →
  ∃ w1 : world,
    forward (S n) d1 a1 w = (Returned (None, a1), w1)
    ∧ _commands (cls w1) = replicate (Pos.to_nat k - 1) (VStr "n")
    ∧ _last_pass (cls w1) = pass_f
    ∧ stdin w1 = more
    ∧ (∃ w2 : world,
         forward (S n) d2 a2 w1 = (Returned (None, a2), w2)
         ∧ _commands (cls w2) = replicate (Pos.to_nat k - 2) (VStr "n")
         ∧ stdin w2 = more
         ∧ stdout w2
           = stdout w1
             ++ [Print ("Forward after " +:+ status_line (after d2))])
    ∧ (∃ w2 : world,
         backward (S n) d2 st a2 w1 = (Returned a2, w2)
         ∧ _commands (cls w2) = replicate (Pos.to_nat k - 2) (VStr "n")
         ∧ stdin w2 = more
         ∧ stdout w2
           = stdout w1
             ++ [Print (Py.repeat_str "=" 40 +:+ " backward "
                        +:+ Py.repeat_str "=" 40);
                 Print ("Backward before " +:+ status_line (after d2))]
         ∧ _last_pass (cls w2) = pass_b).
Proof.
  intros Hq Hin Hk Hd1 Hd2.
  destruct (Pos.to_nat k) as [|[|m]] eqn:Hm; [lia | lia |].
  pose proof (wait_for_input_n_number n "[CNTK forward] >>> " k more
                (announced pass_f (after d1) w) Hin) as Hparse.
  rewrite Hm in Hparse.
  pose proof (run_visit_enter_steps n (Forward d1 a1) w _ (S m) Hd1 Hq Hparse)
    as Hrun1.
  cbn [visit_pass visit_data visited] in Hrun1.
  match type of Hrun1 with _ = (_, ?x) => set (w1 := x) in * end.
  assert (last (_commands (cls w1)) = Some (VStr "n")) as Hlast
    by apply (last_replicate_S m).
  exists w1. split_and!.
  - by apply forward_of_visit in Hrun1.
  - cbn. by rewrite ?Nat.sub_0_r.
  - done.
  - done.
  - pose proof (run_visit_n n (Forward d2 a2) w1 Hd2 Hlast) as Hrun2.
    apply forward_of_visit in Hrun2. eexists. split; [exact Hrun2 |].
    cbn [visit_pass visited]. split_and!; [| done | done].
    replace (S (S m) - 2) with m by lia.
    exact (removelast_replicate_S m (VStr "n")).
  - pose proof (run_visit_n n (Backward d2 st a2) w1 Hd2 Hlast) as Hrun2.
    eexists. split; [exact Hrun2 |].
    cbn [visit_pass visited]. split_and!; [| done | done | done].
    replace (S (S m) - 2) with m by lia.
    exact (removelast_replicate_S m (VStr "n")).
Qed.

(** *** Run until a predicate holds *)

(** [n] followed by text that is no number: the value of the text. *)
Lemma body_n_expression prompt u line more rest x (w : world) :
  stdin w = line :: more →
  Py.strip line = String "n" rest →
  rest ≠ "" →
  Py.int rest = None →
  eval rest = Ok x →
  wait_for_input_body prompt u w
  = (Returned (UList [x]), prompted prompt more w).
Proof.
  intros Hin Hs Hr Hk Hx. unfold wait_for_input_body.
  rewrite (bind_returned _ _ _ _ _ (input_line prompt _ _ _ Hin)).
  rewrite Hs. cbn [Py.is_empty]. unfold interpret.
  rewrite not_single_letter.
  cbn [Py.head_is Py.tail]. rewrite Ascii.eqb_refl.
  assert ((1 <? String.length (String "n" rest))%nat = true) as ->
    by (destruct rest; [done | reflexivity]).
  unfold py_int. rewrite Hk, Hx. reflexivity.
Qed.

Lemma visit_dispatch_false (v : visit) done p (w : world) :
  holds_at p v = Ok false →
  visit_dispatch v done (VCallable p) w = (Returned true, w).
Proof.
  unfold holds_at. intros H.
  destruct v; cbn in *; unfold forward_dispatch, backward_dispatch; cbn;
    unfold bind, lift; by rewrite H.
Qed.

Lemma visit_dispatch_true (v : visit) done p (w : world) :
  last (_commands (cls w)) = Some (VCallable p) →
  holds_at p v = Ok true →
  visit_dispatch v done (VCallable p) w
  = (Returned done, set_queue (removelast (_commands (cls w))) w).
Proof.
  unfold holds_at. intros Hlast H.
  destruct v; cbn in *; unfold forward_dispatch, backward_dispatch; cbn;
    unfold bind at 1, lift; rewrite H; cbn;
    by rewrite (bind_returned _ _ _ _ _ (pop_some _ _ Hlast)).
Qed.

Lemma run_visit_false n (v : visit) p (w : world) :
  formattable (after (visited v)) = true →
  last (_commands (cls w)) = Some (VCallable p) →
  holds_at p v = Ok false →
  run_visit (S n) v w
  = (Returned (visit_data v),
     finish (visit_pass v) (after (visited v)) w).
Proof.
  intros Hf Hc Hp. rewrite run_visit_loop by done.
  rewrite visit_loop_unfold.
  rewrite (loop_done _ _ _ (announced (visit_pass v) (after (visited v)) w));
    [done |].
  rewrite (visit_body_pending _ _ _ _ (VCallable p)) by done.
  by apply visit_dispatch_false.
Qed.

Lemma run_visits_false n (vs : list visit) p (w : world) :
  last (_commands (cls w)) = Some (VCallable p) →
  Forall (λ v, formattable (after (visited v)) = true) vs →
  Forall (λ v, holds_at p v = Ok false) vs →
  ∃ w' (evs : list event),
    run_visits (S n) vs w = (Returned (visit_data <$> vs), w')
    ∧ _commands (cls w') = _commands (cls w)
    ∧ stdin w' = stdin w
    ∧ stdout w' = stdout w ++ evs ∧ silent evs.
Proof.
  revert w. induction vs as [|v vs IH]; intros w Hq Hall Hp.
  - exists w, []. cbn. rewrite app_nil_r. split_and!; try done. constructor.
  - inversion Hall as [|? ? Hv Hvs]; inversion Hp as [|? ? Hpv Hpvs]; subst.
    cbn [run_visits].
    rewrite (bind_returned _ _ _ _ _ (run_visit_false n v p w Hv Hq Hpv)).
    destruct (IH (finish (visit_pass v) (after (visited v)) w))
      as (w' & evs & Hrun & Hq' & Hin & Hout & Hs); [done .. |].
    exists w',
      (status_events (visit_pass v) (_last_pass (cls w)) (after (visited v))
       ++ evs).
    rewrite (bind_returned _ _ _ _ _ Hrun).
    split_and!; try done.
    + rewrite Hout. cbn. by rewrite app_assoc.
    + apply Forall_app. split; [apply status_events_silent | done].
Qed.

(** A visit that finds the queue empty and is given a predicate that does
    not hold there. *)
Lemma run_visit_enter_false n (v : visit) p (w w1 : world) :
  formattable (after (visited v)) = true →
  _commands (cls w) = [] →
  __wait_for_input (S n) (prompt_of v)
    (announced (visit_pass v) (after (visited v)) w)
  = (Returned [VCallable p], w1) →
  holds_at p v = Ok false →
  run_visit (S n) v w
  = (Returned (visit_data v),
     mark (visit_pass v) (set_queue [VCallable p] w1)).
Proof.
  intros Hf Hq Hw Hp. rewrite run_visit_loop by done.
  rewrite visit_loop_unfold.
  set (w0 := announced (visit_pass v) (after (visited v)) w) in *.
  assert (_commands (cls w0) = []) as Hq0 by exact Hq.
  rewrite (loop_done _ _ _ (set_queue [VCallable p] w1)); [done |].
  assert (visit_body (S n) v false w0
          = visit_dispatch v false (VCallable p)
              (set_queue [VCallable p] w1)) as ->.
  { destruct v; cbn [visit_body visit_dispatch prompt_of] in *;
      unfold forward_body, backward_body;
      by rewrite (bind_returned _ _ _ _ _ (refill_empty _ _ _ _ _ Hq0 Hw)). }
  by apply visit_dispatch_false.
Qed.

(** A visit that finds the queue empty and is given a predicate that
    holds there: the predicate is taken off at once and the visit prompts a
    second time. *)
Lemma run_visit_enter_true n (v : visit) p (w w1 : world) :
  formattable (after (visited v)) = true →
  _commands (cls w) = [] →
  __wait_for_input (S (S n)) (prompt_of v)
    (announced (visit_pass v) (after (visited v)) w)
  = (Returned [VCallable p], w1) →
  holds_at p v = Ok true →
  (stdout w1 ++ [Prompt (prompt_of v)])
    `prefix_of` stdout (run_visit (S (S n)) v w).2.
Proof.
  intros Hf Hq Hw Hp. rewrite run_visit_loop by done.
  rewrite visit_loop_unfold.
  set (w0 := announced (visit_pass v) (after (visited v)) w) in *.
  assert (_commands (cls w0) = []) as Hq0 by exact Hq.
  assert (visit_body (S (S n)) v false w0
          = (Returned false, set_queue [] w1)) as Hbody.
  { transitivity (visit_dispatch v false (VCallable p)
                    (set_queue [VCallable p] w1)).
    - destruct v; cbn [visit_body visit_dispatch prompt_of] in *;
        unfold forward_body, backward_body;
        by rewrite (bind_returned _ _ _ _ _ (refill_empty _ _ _ _ _ Hq0 Hw)).
    - by rewrite visit_dispatch_true. }
  rewrite (loop_again _ _ _ _ Hbody).
  pose proof (loop_prompts n (S n) v (set_queue [] w1) eq_refl) as H.
  destruct (while_not _ _ _ _ _) as [[b| |] w']; exact H.
Qed.

(** C6. Let [n <expression>] be typed at the prompt of a visit, the
    expression being no number and its value a predicate [p].  The parser
    hands back [p] alone, which becomes the queue.  As long as [p] is false
    at a visit (at the one where it was typed, and at those that follow),
    the visit ends without reading input or prompting and [p] stays in
    the queue.  At the first visit where [p] is true, the iteration that
    calls [p] takes it off the queue and leaves [done] false, so that the
    loop, finding the queue empty, prompts at that node; if that is the
    visit where [p] was typed, it prompts there a second time. *)
Theorem C6_run_until_predicate_holds
    (n : nat) (line rest : string) (p : data → node → result bool)
    (v hit : visit) (vs : list visit) (more : list string) (w : world) :
  _commands (cls w) = [] →
  stdin w = line :: more →
  Py.strip line = String "n" rest →
  rest ≠ "" →
  Py.int rest = None →
  eval rest = Ok (VCallable p) →
  formattable (after (visited v)) = true →
  (∀ prompt,
     __wait_for_input (S (S n)) prompt w
     = (Returned [VCallable p], prompted prompt more w))
  ∧ (holds_at p v = Ok true →
     (stdout w
      ++ status_events (visit_pass v) (_last_pass (cls w)) (after (visited v))
      ++ [Prompt (prompt_of v); Prompt (prompt_of v)])
       `prefix_of` stdout (run_visit (S (S n)) v w).2)
  ∧ (holds_at p v = Ok false →
     Forall (λ v, formattable (after (visited v)) = true) vs →
     Forall (λ v, holds_at p v = Ok false) vs →
     formattable (after (visited hit)) = true →
     holds_at p hit = Ok true →
     ∃ (w1 w2 : world) (evs : list event),
       run_visit (S (S n)) v w = (Returned (visit_data v), w1)
       ∧ _commands (cls w1) = [VCallable p]
       ∧ stdin w1 = more
       ∧ run_visits (S (S n)) vs w1 = (Returned (visit_data <$> vs), w2)
       ∧ _commands (cls w2) = [VCallable p]
       ∧ stdin w2 = more
       ∧ stdout w2 = stdout w1 ++ evs ∧ silent evs
       ∧ visit_body (S (S n)) hit false
           (announced (visit_pass hit) (after (visited hit)) w2)
         = (Returned false,
            set_queue []
              (announced (visit_pass hit) (after (visited hit)) w2))
       ∧ (stdout w2
          ++ status_events (visit_pass hit) (_last_pass (cls w2))
               (after (visited hit))
          ++ [Prompt (prompt_of hit)])
           `prefix_of` stdout (run_visit (S (S n)) hit w2).2).
Proof.
  intros Hq Hin Hs Hr Hint Hev Hv.
  assert (∀ prompt (w0 : world),
    stdin w0 = stdin w →
    __wait_for_input (S (S n)) prompt w0
    = (Returned [VCallable p], prompted prompt more w0)) as Hparse.
  { intros prompt w0 Hin0. apply wait_for_input_understood; [| done].
    apply body_n_expression with (line := line) (rest := rest); try done.
    by rewrite Hin0. }
  pose proof (Hparse (prompt_of v)
                (announced (visit_pass v) (after (visited v)) w) eq_refl)
    as Hparse_v.
  split_and!.
  - intros prompt. by apply Hparse.
  - intros Hpv.
    pose proof (run_visit_enter_true n v p w _ Hv Hq Hparse_v Hpv) as H.
    cbn [prompted announced stdout with_stdout with_stdin] in H.
    by rewrite <- !app_assoc in H.
  - intros Hpv Hvs Hpvs Hhit Hphit.
    pose proof (run_visit_enter_false (S n) v p w _ Hv Hq Hparse_v Hpv)
      as Hrun1.
    match type of Hrun1 with _ = (_, ?x) => set (w1 := x) in * end.
    destruct (run_visits_false (S n) vs p w1)
      as (w2 & evs & Hrun & Hq2 & Hin2 & Hout & Hsil); [done .. |].
    set (w3 := announced (visit_pass hit) (after (visited hit)) w2).
    assert (last (_commands (cls w3)) = Some (VCallable p)) as Hlast
      by (unfold w3; cbn; by rewrite Hq2).
    assert (visit_body (S (S n)) hit false w3
            = (Returned false, set_queue [] w3)) as Hbody.
    { rewrite (visit_body_pending _ _ _ _ _ Hlast).
      rewrite (visit_dispatch_true _ _ _ _ Hlast Hphit).
      assert (_commands (cls w3) = [VCallable p]) as -> by exact Hq2.
      reflexivity. }
    exists w1, w2, evs. split_and!; try done.
    rewrite run_visit_loop by done. rewrite visit_loop_unfold.
    fold w3. rewrite (loop_again _ _ _ _ Hbody).
    pose proof (loop_prompts n (S n) hit (set_queue [] w3) eq_refl) as H.
    cbn [set_queue w3 announced stdout with_stdout with_cls] in H.
    rewrite <- app_assoc in H.
    destruct (while_not _ _ _ _ _) as [[b| |] w']; exact H.
Qed.

(** *** Lines that are no command *)

Lemma body_blank prompt u line more (w : world) :
  stdin w = line :: more →
  Py.strip line = "" →
  wait_for_input_body prompt u w = (Returned u, prompted prompt more w).
Proof.
  intros Hin Hs. unfold wait_for_input_body.
  rewrite (bind_returned _ _ _ _ _ (input_line prompt _ _ _ Hin)).
  by rewrite Hs.
Qed.

Lemma interpret_unrecognized s (w : world) :
  unrecognized s → interpret s UFalse w = (Returned UFalse, w).
Proof.
  unfold interpret. intros [[[c ->] Hc] | [[Hlen Hn] | (rest & -> & Hr & Hi & He)]].
  - destruct c as [[] [] [] [] [] [] [] []]; try discriminate Hc; reflexivity.
  - destruct s as [|c [|c' r]]; [cbn in Hlen; lia | cbn in Hlen; lia |].
    rewrite Hn. cbn. destruct (Ascii.eqb c "q"); reflexivity.
  - rewrite not_single_letter. cbn [Py.head_is Py.tail].
    rewrite Ascii.eqb_refl.
    assert ((1 <? String.length (String "n" rest))%nat = true) as ->
      by (destruct rest; [done | reflexivity]).
    unfold py_int. by rewrite Hi, He.
Qed.

Lemma body_unrecognized prompt line more (w : world) :
  stdin w = line :: more →
  unrecognized (Py.strip line) →
  wait_for_input_body prompt UFalse w
  = (Returned UFalse,
     with_stdout (stdout w ++ [Prompt prompt; Print help_text])
       (with_stdin more w)).
Proof.
  intros Hin Hs. unfold wait_for_input_body.
  rewrite (bind_returned _ _ _ _ _ (input_line prompt _ _ _ Hin)).
  assert (Py.is_empty (Py.strip line) = false) as ->.
  { destruct Hs as [[[c ->] _] | [[Hlen _] | (rest & -> & _)]]; try done.
    destruct (Py.strip line); [cbn in Hlen; lia | done]. }
  rewrite (bind_returned _ _ _ _ _ (interpret_unrecognized _ _ Hs)).
  cbv [truthy negb bind print emit ret prompted with_stdout with_stdin].
  cbn [cls stdin stdout host_calls heap]. by rewrite <- app_assoc.
Qed.

(** C7 (as amended). A line that is no command raises no exception and
    puts nothing in the queue, and the parser prompts again: it goes on as
    on the lines that remain.  A blank line is skipped in silence.  After
    an unknown character, a longer text not starting with [n], or an [n]
    whose argument is neither a number nor something [eval] can parse, the
    help text is printed first. *)
Theorem C7_lines_that_are_no_command
    (n : nat) (prompt line : string) (more : list string) (w : world) :
  stdin w = line :: more →
  (Py.strip line = "" →
   __wait_for_input (S n) prompt w
   = __wait_for_input n prompt
       (with_stdout (stdout w ++ [Prompt prompt]) (with_stdin more w)))
  ∧ (unrecognized (Py.strip line) →
     __wait_for_input (S n) prompt w
     = __wait_for_input n prompt
         (with_stdout (stdout w ++ [Prompt prompt; Print help_text])
            (with_stdin more w))).
Proof.
  intros Hin. split; intros Hs; unfold __wait_for_input;
    rewrite while_not_step by done; unfold bind at 1.
  - by rewrite (bind_returned _ _ _ _ _ (body_blank prompt UFalse _ _ _ Hin Hs)).
  - by rewrite (bind_returned _ _ _ _ _ (body_unrecognized prompt _ _ _ Hin Hs)).
Qed.

(** *** What every visit prints, and when it pauses *)

(** C4 (as amended). Every call of [forward] and of [backward] on a node
    whose status line can be built first prints, after the separator of a
    change of pass, the line that tells the node type, the name if the node
    has one, the uid, the dynamic axes and the shape.  It pauses, showing
    its prompt next, when the command queue is empty.  When the last queued
    command is [c] or [n] it does not pause: it returns without a prompt. *)
Theorem C4_status_line_always_pause_when_idle
    (n : nat) (v : visit) (w : world) :
  formattable (after (visited v)) = true →
  (∃ evs : list event,
     stdout (run_visit (S n) v w).2
     = stdout w
       ++ banner (visit_pass v) (_last_pass (cls w))
       ++ Print (status_prefix (visit_pass v)
                 +:+ status_line (after (visited v))) :: evs)
  ∧ (_commands (cls w) = [] →
     ∃ evs : list event,
       stdout (run_visit (S n) v w).2
       = stdout w
         ++ banner (visit_pass v) (_last_pass (cls w))
         ++ Print (status_prefix (visit_pass v)
                   +:+ status_line (after (visited v)))
            :: Prompt (prompt_of v) :: evs)
  ∧ (last (_commands (cls w)) = Some (VStr "c")
     ∨ last (_commands (cls w)) = Some (VStr "n") →
     proceeds_without_prompting (S n) v w).
Proof.
  intros Hf. split_and!.
  - rewrite run_visit_loop by done.
    pose proof (grows_visit_loop (S n) v
                  (announced (visit_pass v) (after (visited v)) w))
      as [evs Hevs].
    exists evs.
    assert (stdout (visit_loop (S n) v
                      (announced (visit_pass v) (after (visited v)) w)).2
            = stdout w ++ banner (visit_pass v) (_last_pass (cls w))
              ++ Print (status_prefix (visit_pass v)
                        +:+ status_line (after (visited v))) :: evs) as H.
    { rewrite Hevs. cbn [announced stdout with_stdout].
      unfold status_events, status_prefix. rewrite <- !app_assoc.
      by destruct (visit_pass v). }
    by destruct (visit_loop _ _ _) as [[b| |] w'].
  - intros Hq. destruct (run_visit_prompts n v w Hf Hq) as [evs Hevs].
    exists evs. rewrite Hevs. unfold status_events, status_prefix.
    rewrite <- !app_assoc. by destruct (visit_pass v).
  - intros [Hc | Hn].
    + eexists _, _. split; [by apply run_visit_c |]. split; [done |].
      apply status_events_silent.
    + eexists _, _. split; [by apply run_visit_n |]. split; [done |].
      apply status_events_silent.
Qed.

(** *** Saving the model *)

(** C8. [save_as_legacy_model] does one thing: it calls
    [cntk_py.save_as_legacy_model] once, with the root operation and the
    file name it was given, and ends as that call ends.  The debugger's
    class attributes, the console and the debug nodes are as before. *)
Theorem C8_save_as_legacy_model_is_one_host_call
    (root_op : node) (filename : string) (w : world) :
  ∃ w' : world,
    save_as_legacy_model root_op filename w
    = (match cntk_py (cntk_py_save_as_legacy_model root_op filename) with
       | Ok _ => Returned ()
       | Err e => Raised e
       end, w')
    ∧ host_calls w'
      = host_calls w ++ [cntk_py_save_as_legacy_model root_op filename]
    ∧ cls w' = cls w ∧ stdin w' = stdin w ∧ stdout w' = stdout w
    ∧ heap w' = heap w.
Proof.
  eexists. unfold save_as_legacy_model, call_host, bind, lift.
  destruct (cntk_py _) as [[]|e]; cbn; split_and!; reflexivity.
Qed.

(** *** Wrapping every node *)

Lemma dict_of_nodes_spec (nodes : list node) (m : gmap node nat)
    (w : world) :
  ∃ m' : gmap node nat,
    dict_of_nodes nodes m w
    = (Returned m', with_heap (heap w ++ (wrapper <$> nodes)) w)
    ∧ (∀ n, is_Some (m' !! n) ↔ n ∈ nodes ∨ is_Some (m !! n))
    ∧ (∀ n d, m' !! n = Some d →
         (m !! n = Some d ∧ n ∉ nodes)
         ∨ (n ∈ nodes ∧ length (heap w) ≤ d
            ∧ (heap w ++ (wrapper <$> nodes)) !! d = Some (wrapper n))).
Proof.
  revert m w. induction nodes as [|n0 rest IH]; intros m w.
  - exists m. cbn. rewrite app_nil_r. split_and!.
    + by destruct w.
    + intros n. rewrite elem_of_nil. tauto.
    + intros n d H. left. split; [done |]. apply not_elem_of_nil.
  - cbn [dict_of_nodes]. unfold bind at 1, new_DebugNode.
    set (w1 := with_heap (heap w ++ [DebugNode_init n0 "DebugNode"]) w).
    destruct (IH (<[n0 := length (heap w)]> m) w1) as (m' & Hrun & Hdom & Hval).
    exists m'. split_and!.
    + rewrite Hrun. unfold w1. cbn. by rewrite <- app_assoc.
    + intros n. rewrite Hdom, elem_of_cons, lookup_insert_is_Some.
      destruct (decide (n0 = n)) as [-> | Hne]; [tauto |].
      split; [intros [? | [? | [? ?]]] | intros [[? | ?] | ?]];
        try tauto; try congruence.
    + intros n d Hn. destruct (Hval n d Hn) as [[Hm Hnot] | (Hin & Hlen & Hlook)].
      * destruct (decide (n0 = n)) as [-> | Hne].
        -- rewrite lookup_insert_eq in Hm. injection Hm as <-.
           right. split_and!; [by left | done |].
           rewrite lookup_app_r by done. by rewrite Nat.sub_diag.
        -- rewrite lookup_insert_ne in Hm by done. left. split; [done |].
           rewrite elem_of_cons. intros [-> | ?]; done.
      * right. unfold w1 in Hlen, Hlook. cbn in Hlen, Hlook.
        rewrite length_app in Hlen. cbn in Hlen.
        split_and!; [by right | lia |].
        by rewrite <- app_assoc in Hlook.
Qed.

Section DebugModel.

Context {model_t : Type}.
Variable depth_first_search : model_t → (node → bool) → list node.
Variable clone : model_t → CloneMethod → gmap node nat → model_t.

(** C2. [debug_model] asks the host's [depth_first_search] for the nodes
    of the model, accepting every node.  It builds a dictionary whose keys
    are exactly these nodes; each node is mapped to a debug node created by
    this very call (it was not on the heap before) that wraps this node: the
    node is the one input of the debug node, handed to the base class with
    [as_numpy=True] and the name [DebugNode], and it is the node the debug
    node reports on, [self.after].  Different nodes get different debug
    nodes.  What it returns is the host's clone of the model under this
    dictionary with the clone method [share], the method by which the host
    keeps the parameters of the clone aliased to those of the original.
    Nothing else changes. *)
Theorem C2_debug_model_wraps_every_node (model : model_t) (w : world) :
  ∃ (mod_ : gmap node nat) (w' : world),
    debug_model depth_first_search clone model w
    = (Returned (clone model CloneMethod_share mod_), w')
    ∧ (∀ n, is_Some (mod_ !! n)
            ↔ n ∈ depth_first_search model (λ _, true))
    ∧ (∀ n d, mod_ !! n = Some d →
         length (heap w) ≤ d
         ∧ ∃ self : DebugNode,
             heap w' !! d = Some self
             ∧ inputs self = [n]
             ∧ as_numpy self = true
             ∧ fn_name self = "DebugNode"
             ∧ after self = n)
    ∧ (∀ n1 n2 d, mod_ !! n1 = Some d → mod_ !! n2 = Some d → n1 = n2)
    ∧ heap w `prefix_of` heap w'
    ∧ cls w' = cls w ∧ stdin w' = stdin w ∧ stdout w' = stdout w
    ∧ host_calls w' = host_calls w.
Proof.
  unfold debug_model.
  set (nodes := depth_first_search model (λ _, true)).
  destruct (dict_of_nodes_spec nodes ∅ w) as (m & Hrun & Hdom & Hval).
  exists m, (with_heap (heap w ++ (wrapper <$> nodes)) w).
  assert (∀ n d, m !! n = Some d →
            length (heap w) ≤ d
            ∧ (heap w ++ (wrapper <$> nodes)) !! d = Some (wrapper n)) as Hv.
  { intros n d H. destruct (Hval n d H) as [[Hm _] | (_ & ? & ?)]; [| done].
    by rewrite lookup_empty in Hm. }
  split_and!; try done.
  - by rewrite (bind_returned _ _ _ _ _ Hrun).
  - intros n. rewrite Hdom, lookup_empty. split; [intros [? | [? ?]] |]; auto.
    done.
  - intros n d H. destruct (Hv n d H) as [Hd Hl]. split; [done |].
    exists (wrapper n). by split_and!.
  - intros n1 n2 d H1 H2.
    destruct (Hv _ _ H1) as [_ Hl1]. destruct (Hv _ _ H2) as [_ Hl2].
    rewrite Hl1 in Hl2. by injection Hl2.
  - by apply prefix_app_r.
Qed.

End DebugModel.

(** *** A queue the dispatch cannot handle *)

(** A visit that finds the queue empty and is given an object the
    dispatch has no branch for never ends. *)
Lemma run_visit_enter_stuck n (v : visit) x (w w1 : world) :
  formattable (after (visited v)) = true →
  _commands (cls w) = [] →
  __wait_for_input n (prompt_of v)
    (announced (visit_pass v) (after (visited v)) w)
  = (Returned [x], w1) →
  dispatchable x = false →
  run_visit n v w = (OutOfFuel, set_queue [x] w1).
Proof.
  intros Hf Hq Hw Hx. rewrite run_visit_loop by done.
  rewrite visit_loop_unfold.
  set (w0 := announced (visit_pass v) (after (visited v)) w) in *.
  assert (_commands (cls w0) = []) as Hq0 by exact Hq.
  destruct n as [|n]; [done |].
  assert (visit_body (S n) v false w0 = (Returned false, set_queue [x] w1))
    as Hbody.
  { transitivity (visit_dispatch v false x (set_queue [x] w1)).
    - destruct v; cbn [visit_body visit_dispatch prompt_of] in *;
        unfold forward_body, backward_body;
        by rewrite (bind_returned _ _ _ _ _ (refill_empty _ _ _ _ _ Hq0 Hw)).
    - by apply visit_dispatch_stuck. }
  rewrite (loop_again _ _ _ _ Hbody).
  by rewrite (visit_loop_stuck _ _ _ x).
Qed.

Lemma forward_out_of_fuel fuel self argument (w w' : world) :
  run_visit fuel (Forward self argument) w = (OutOfFuel, w') →
  forward fuel self argument w = (OutOfFuel, w').
Proof.
  cbn [run_visit]. unfold bind.
  destruct (forward fuel self argument w) as [[r|e|] w1]; [done | done |].
  by intros [= <-].
Qed.



(** ** Further properties of the command loop *)

#[local] Abbreviation tame := (@tame data _).
#[local] Abbreviation printed_by_p := (@printed_by_p data state str_state).
#[local] Abbreviation parsed := (parsed eval).
#[local] Abbreviation ignored := (ignored eval).
#[local] Abbreviation all_backward := (@all_backward data state).

(** *** Leaving the debugger: [q], the end of the input, a raising
    expression *)

Lemma wait_for_input_raised n prompt (w w' : world) e :
  wait_for_input_body prompt UFalse w = (Raised e, w') →
  __wait_for_input (S n) prompt w = (Raised e, w').
Proof.
  intros H. unfold __wait_for_input.
  rewrite while_not_step by done. unfold bind at 1.
  by rewrite (bind_raised _ _ _ _ _ H).
Qed.

Lemma body_q prompt u line more (w : world) :
  stdin w = line :: more →
  Py.strip line = "q" →
  wait_for_input_body prompt u w
  = (Raised (SystemExit 0), prompted prompt more w).
Proof.
  intros Hin Hs. unfold wait_for_input_body.
  rewrite (bind_returned _ _ _ _ _ (input_line prompt _ _ _ Hin)).
  by rewrite Hs.
Qed.

Lemma body_n_raises prompt u line more rest e (w : world) :
  stdin w = line :: more →
  Py.strip line = String "n" rest →
  rest ≠ "" →
  Py.int rest = None →
  eval rest = Err e →
  e ≠ SyntaxError →
  wait_for_input_body prompt u w = (Raised e, prompted prompt more w).
Proof.
  intros Hin Hs Hr Hk Hx He. unfold wait_for_input_body.
  rewrite (bind_returned _ _ _ _ _ (input_line prompt _ _ _ Hin)).
  rewrite Hs. cbn [Py.is_empty]. unfold interpret.
  rewrite not_single_letter.
  cbn [Py.head_is Py.tail]. rewrite Ascii.eqb_refl.
  assert ((1 <? String.length (String "n" rest))%nat = true) as ->
    by (destruct rest; [done | reflexivity]).
  unfold py_int. rewrite Hk, Hx. by destruct e.
Qed.

(** A visit that finds the queue empty and whose parser raises. *)
Lemma run_visit_enter_raised n (v : visit) e (w w1 : world) :
  formattable (after (visited v)) = true →
  _commands (cls w) = [] →
  __wait_for_input n (prompt_of v)
    (announced (visit_pass v) (after (visited v)) w)
  = (Raised e, w1) →
  run_visit n v w = (Raised e, w1).
Proof.
  intros Hf Hq Hw. rewrite run_visit_loop by done.
  rewrite visit_loop_unfold.
  set (w0 := announced (visit_pass v) (after (visited v)) w) in *.
  assert (_commands (cls w0) = []) as Hq0 by exact Hq.
  clearbody w0.
  destruct n as [|n]; [done |].
  assert (visit_body (S n) v false w0 = (Raised e, w1)) as Hbody.
  { assert (∀ prompt, __wait_for_input (S n) prompt w0 = (Raised e, w1) →
              refill (S n) prompt w0 = (Raised e, w1)) as Hrefill.
    { intros prompt H. unfold refill, bind at 1, get_commands, bind at 1,
        get_cls, ret. cbn. rewrite Hq0. cbn.
      by rewrite (bind_raised _ _ _ _ _ H). }
    destruct v; cbn [visit_body prompt_of] in *;
      unfold forward_body, backward_body;
      by rewrite (bind_raised _ _ _ _ _ (Hrefill _ Hw)). }
  by rewrite (loop_raised _ _ _ _ _ Hbody).
Qed.

(** X1. [q] typed at the prompt of a visit that found the queue empty
    ends the process with [SystemExit(0)]: nothing but the status line and
    the prompt has been printed, the queue is still empty and the pass
    marker is the one the visit found. *)
Theorem X1_q_exits_with_code_0
    (n : nat) (v : visit) (line : string) (more : list string) (w : world) :
  formattable (after (visited v)) = true →
  _commands (cls w) = [] →
  stdin w = line :: more →
  Py.strip line = "q" →
  ∃ w' : world,
    run_visit (S n) v w = (Raised (SystemExit 0), w')
    ∧ cls w' = cls w
    ∧ stdin w' = more
    ∧ stdout w'
      = stdout w
        ++ status_events (visit_pass v) (_last_pass (cls w))
             (after (visited v))
        ++ [Prompt (prompt_of v)].
Proof.
  intros Hf Hq Hin Hs. eexists. split.
  - apply run_visit_enter_raised; [done | done |].
    apply wait_for_input_raised. by apply body_q with (line := line).
  - cbn. by rewrite <- app_assoc.
Qed.

(** X2. When the input ends at the prompt of a visit that found the
    queue empty, [input] raises [EOFError] after the prompt has been shown;
    the class attributes are as the visit found them. *)
Theorem X2_end_of_input_raises_EOFError
    (n : nat) (v : visit) (w : world) :
  formattable (after (visited v)) = true →
  _commands (cls w) = [] →
  stdin w = [] →
  ∃ w' : world,
    run_visit (S n) v w = (Raised EOFError, w')
    ∧ cls w' = cls w
    ∧ stdout w'
      = stdout w
        ++ status_events (visit_pass v) (_last_pass (cls w))
             (after (visited v))
        ++ [Prompt (prompt_of v)].
Proof.
  intros Hf Hq Hin. eexists. split.
  - apply run_visit_enter_raised; [done | done |].
    apply wait_for_input_raised. by apply body_eof.
  - cbn. by rewrite <- app_assoc.
Qed.

(** X3. Of the exceptions of [eval] only [SyntaxError] is caught.  When
    the text after [n] is no number and [eval] raises anything else on it
    (an undefined name, or a [ValueError], which the handler of the failed
    [int] does not catch either), the exception leaves [forward] or
    [backward]: no help text is printed, nothing is queued and the pass
    marker is not set. *)
Theorem X3_other_exceptions_of_eval_escape
    (n : nat) (v : visit) (line rest : string) (e : exn)
    (more : list string) (w : world) :
  formattable (after (visited v)) = true →
  _commands (cls w) = [] →
  stdin w = line :: more →
  Py.strip line = String "n" rest →
  rest ≠ "" →
  Py.int rest = None →
  eval rest = Err e →
  e ≠ SyntaxError →
  ∃ w' : world,
    run_visit (S n) v w = (Raised e, w')
    ∧ cls w' = cls w
    ∧ stdin w' = more
    ∧ stdout w'
      = stdout w
        ++ status_events (visit_pass v) (_last_pass (cls w))
             (after (visited v))
        ++ [Prompt (prompt_of v)].
Proof.
  intros Hf Hq Hin Hs Hr Hi Hx He. eexists. split.
  - apply run_visit_enter_raised; [done | done |].
    apply wait_for_input_raised.
    by apply body_n_raises with (line := line) (rest := rest).
  - cbn. by rewrite <- app_assoc.
Qed.

(** *** Lines after which the parser asks again *)

(** A false [understood] is as good as [False]: one iteration gives the
    same world, and either the same true answer or again a false one. *)
Lemma body_falsy prompt u (w : world) :
  truthy u = false →
  (wait_for_input_body prompt u w).2 = (wait_for_input_body prompt UFalse w).2
  ∧ match (wait_for_input_body prompt u w).1,
          (wait_for_input_body prompt UFalse w).1 with
    | Returned a, Returned b =>
        (a = b ∧ truthy a = true) ∨ (truthy a = false ∧ truthy b = false)
    | Raised e, Raised e' => e = e'
    | _, _ => False
    end.
Proof.
  intros Hu. unfold wait_for_input_body.
  destruct (stdin w) as [|line more] eqn:Hin.
  { by rewrite !(bind_raised _ _ _ _ _ (input_eof prompt _ Hin)). }
  rewrite !(bind_returned _ _ _ _ _ (input_line prompt _ _ _ Hin)).
  destruct (Py.is_empty (Py.strip line)); [cbn; auto |].
  unfold interpret.
  destruct (_ && _); [cbn; auto |].
  destruct (Py.head_is "n" (Py.strip line)).
  { unfold bind at 1 3. unfold try_except, bind, py_int, lift, ret, raise.
    destruct (1 <? String.length (Py.strip line))%nat.
    - destruct (Py.int _) as [k|].
      + destruct (Z.to_nat k); cbn; auto.
      + cbn. destruct (eval _) as [x|e]; [cbn; auto |].
        destruct e; cbn; auto.
    - change (Z.to_nat 1) with 1. cbn. auto. }
  destruct (String.eqb _ _); [cbn; auto |].
  unfold bind, ret. rewrite Hu. cbn. auto.
Qed.

Lemma wait_loop_falsy n prompt u (w : world) :
  truthy u = false →
  while_not n truthy (wait_for_input_body prompt) u w
  = while_not n truthy (wait_for_input_body prompt) UFalse w.
Proof.
  revert u w. induction n as [|n IH]; intros u w Hu; cbn; rewrite Hu; [done |].
  destruct (body_falsy prompt u w Hu) as [Hw Ho].
  unfold bind.
  destruct (wait_for_input_body prompt u w) as [[a|e|] w1];
    destruct (wait_for_input_body prompt UFalse w) as [[b|e'|] w2];
    cbn in Hw, Ho; subst; try done.
  destruct Ho as [[-> _] | [Ha Hb]]; [done |].
  by rewrite (IH a), (IH b).
Qed.

Lemma body_nonpositive prompt line more (w : world) :
  stdin w = line :: more →
  nonpositive_steps (Py.strip line) →
  wait_for_input_body prompt UFalse w
  = (Returned (UList []),
     with_stdout (stdout w ++ [Prompt prompt; Print help_text])
       (with_stdin more w)).
Proof.
  intros Hin (rest & k & Hs & Hr & Hk & Hle). unfold wait_for_input_body.
  rewrite (bind_returned _ _ _ _ _ (input_line prompt _ _ _ Hin)).
  rewrite Hs. cbn [Py.is_empty]. unfold interpret.
  rewrite not_single_letter.
  cbn [Py.head_is Py.tail]. rewrite Ascii.eqb_refl.
  assert ((1 <? String.length (String "n" rest))%nat = true) as ->
    by (destruct rest; [done | reflexivity]).
  unfold py_int. rewrite Hk.
  cbv [bind ret try_except print emit prompted with_stdout with_stdin].
  replace (Z.to_nat k) with 0 by lia.
  cbn [replicate truthy negb cls stdin stdout host_calls heap].
  by rewrite <- app_assoc.
Qed.

(** The parser after one ignored line. *)
Lemma wait_for_input_ignored n prompt line more (w : world) :
  stdin w = line :: more →
  ignored line →
  ∃ evs : list event,
    __wait_for_input (S n) prompt w
    = __wait_for_input n prompt
        (with_stdout (stdout w ++ Prompt prompt :: evs) (with_stdin more w))
    ∧ (evs = [] ∨ evs = [Print help_text]).
Proof.
  intros Hin [Hs | [Hs | Hs]]; unfold __wait_for_input;
    rewrite while_not_step by done; unfold bind at 1.
  - exists []. split; [| by left].
    by rewrite (bind_returned _ _ _ _ _ (body_blank prompt UFalse _ _ _ Hin Hs)).
  - exists [Print help_text]. split; [| by right].
    by rewrite (bind_returned _ _ _ _ _ (body_unrecognized prompt _ _ _ Hin Hs)).
  - exists [Print help_text]. split; [| by right].
    rewrite (bind_returned _ _ _ _ _ (body_nonpositive prompt _ _ _ Hin Hs)).
    by rewrite wait_loop_falsy.
Qed.

(** X4. [n 0] and [n] with a negative number queue nothing: the list
    [['n'] * number] is empty, hence false, so the help text is printed
    and the parser asks again. *)
Theorem X4_n_with_nonpositive_number_asks_again
    (n : nat) (prompt line rest : string) (k : Z) (more : list string)
    (w : world) :
  stdin w = line :: more →
  Py.strip line = String "n" rest →
  rest ≠ "" →
  Py.int rest = Some k →
  (k ≤ 0)%Z →
  __wait_for_input (S n) prompt w
  = __wait_for_input n prompt
      (with_stdout (stdout w ++ [Prompt prompt; Print help_text])
         (with_stdin more w)).
Proof.
  intros Hin Hs Hr Hk Hle. unfold __wait_for_input.
  rewrite while_not_step by done. unfold bind at 1.
  rewrite (bind_returned _ _ _ _ _ (body_nonpositive prompt line more w Hin
             (ex_intro _ rest (ex_intro _ k (conj Hs (conj Hr (conj Hk Hle))))))).
  by rewrite wait_loop_falsy.
Qed.

(** Any number of ignored lines. *)
Lemma wait_for_input_skips n prompt (junk rest : list string) (w : world) :
  stdin w = junk ++ rest →
  Forall ignored junk →
  ∃ w' : world,
    __wait_for_input (length junk + n) prompt w = __wait_for_input n prompt w'
    ∧ stdin w' = rest ∧ cls w' = cls w
    ∧ host_calls w' = host_calls w ∧ heap w' = heap w
    ∧ stdout w `prefix_of` stdout w'.
Proof.
  revert w. induction junk as [|line junk IH]; intros w Hin Hall.
  - exists w. by split_and!.
  - inversion Hall as [|? ? Hline Hjunk]; subst.
    destruct (wait_for_input_ignored (length junk + n) prompt line
                (junk ++ rest) w Hin Hline) as (evs & Hstep & _).
    destruct (IH (with_stdout (stdout w ++ Prompt prompt :: evs)
                    (with_stdin (junk ++ rest) w)) eq_refl Hjunk)
      as (w' & Hrun & Hin' & Hcls & Hh & Hheap & Hout).
    exists w'. cbn [length Nat.add]. rewrite Hstep, Hrun.
    split_and!; try done.
    etrans; [| exact Hout]. by apply prefix_app_r.
Qed.

#[local] Abbreviation pdb_sessions := (@pdb_sessions data).

(** X5. Ignored lines are transparent: after any number of blank lines,
    lines that are no command and step counts that are not positive, the
    parser is where it would be had they not been typed, except for the
    prompts and help texts printed; the class attributes, the host calls
    and the heap are untouched. *)
Theorem X5_ignored_lines_are_skipped
    (n : nat) (prompt : string) (junk rest : list string) (w : world) :
  stdin w = junk ++ rest →
  Forall ignored junk →
  ∃ w' : world,
    __wait_for_input (length junk + n) prompt w = __wait_for_input n prompt w'
    ∧ stdin w' = rest ∧ cls w' = cls w
    ∧ host_calls w' = host_calls w ∧ heap w' = heap w
    ∧ stdout w `prefix_of` stdout w'.
Proof. apply wait_for_input_skips. Qed.

(** *** The letters [p], [b], [f] and [d] *)

(** A line that is one of the letters [b c d f p]. *)
Lemma body_letter prompt u line more s (w : world) :
  stdin w = line :: more →
  Py.strip line = s →
  s ∈ ["b"; "c"; "d"; "f"; "p"] →
  wait_for_input_body prompt u w
  = (Returned (UList [VStr s]), prompted prompt more w).
Proof.
  intros Hin Hs Hl. unfold wait_for_input_body.
  rewrite (bind_returned _ _ _ _ _ (input_line prompt _ _ _ Hin)).
  rewrite Hs. clear Hs.
  repeat (apply elem_of_cons in Hl as [-> | Hl]; [reflexivity |]).
  by apply elem_of_nil in Hl.
Qed.

(** A visit that finds the queue empty and is given the list [[x]]: its
    first iteration is the dispatch on [x]. *)
Lemma visit_body_enter n (v : visit) x (w w1 : world) :
  _commands (cls w) = [] →
  __wait_for_input n (prompt_of v) w = (Returned [x], w1) →
  visit_body n v false w = visit_dispatch v false x (set_queue [x] w1).
Proof.
  intros Hq Hw.
  destruct v; cbn [visit_body visit_dispatch prompt_of] in *;
    unfold forward_body, backward_body;
    by rewrite (bind_returned _ _ _ _ _ (refill_empty _ _ _ _ _ Hq Hw)).
Qed.

Lemma visit_dispatch_p (v : visit) done (w : world) :
  last (_commands (cls w)) = Some (VStr "p") →
  visit_dispatch v done (VStr "p") w
  = (Returned done,
     set_queue (removelast (_commands (cls w)))
       (with_stdout (stdout w ++ printed_by_p v) w)).
Proof.
  intros H. destruct v; cbn [visit_dispatch printed_by_p];
    unfold forward_dispatch, backward_dispatch; cbn [value_is String.eqb];
    cbn; run_dispatch; rewrite H; cbn; rewrite <- ?app_assoc; reflexivity.
Qed.

(** X6. [p] does not end the visit.  Typed at the prompt of a visit that
    found the queue empty, it prints the input (in [forward]: [Input: ] and
    the argument; in [backward]: the state, [Root gradients: ] and the root
    gradients), is taken off the queue, and the same visit prompts again. *)
Theorem X6_p_prints_and_prompts_again
    (n : nat) (v : visit) (line : string) (more : list string) (w : world) :
  formattable (after (visited v)) = true →
  _commands (cls w) = [] →
  stdin w = line :: more →
  Py.strip line = "p" →
  (stdout w
   ++ status_events (visit_pass v) (_last_pass (cls w)) (after (visited v))
   ++ [Prompt (prompt_of v)] ++ printed_by_p v ++ [Prompt (prompt_of v)])
    `prefix_of` stdout (run_visit (S (S n)) v w).2.
Proof.
  intros Hf Hq Hin Hs. rewrite run_visit_loop by done.
  rewrite visit_loop_unfold.
  set (w0 := announced (visit_pass v) (after (visited v)) w).
  assert (__wait_for_input (S (S n)) (prompt_of v) w0
          = (Returned [VStr "p"], prompted (prompt_of v) more w0)) as Hw.
  { apply wait_for_input_understood; [| done].
    apply body_letter with (line := line); [done | done |].
    repeat constructor. }
  assert (visit_body (S (S n)) v false w0
          = (Returned false,
             set_queue []
               (with_stdout (stdout (prompted (prompt_of v) more w0)
                             ++ printed_by_p v)
                  (prompted (prompt_of v) more w0)))) as Hbody.
  { rewrite (visit_body_enter _ _ _ w0 _ Hq Hw).
    by rewrite visit_dispatch_p. }
  rewrite (loop_again _ _ _ _ Hbody).
  match goal with
  | |- context [while_not (S n) id ?b false ?w1] =>
      pose proof (loop_prompts n (S n) v w1 eq_refl) as H
  end.
  destruct (while_not _ _ _ _ _) as [[b| |] w'];
    cbn [set_queue prompted w0 announced stdout with_stdout with_stdin
         with_cls] in H;
    rewrite <- !app_assoc in H; exact H.
Qed.

Lemma visit_dispatch_other_pass (v : visit) done (w : world) :
  visit_dispatch v done (VStr (letter_of_other_pass (visit_pass v))) w
  = (Returned true, w).
Proof. by destruct v. Qed.

Lemma visit_dispatch_own_pass (v : visit) done (w : world) :
  last (_commands (cls w)) = Some (VStr (letter_of_pass (visit_pass v))) →
  visit_dispatch v done (VStr (letter_of_pass (visit_pass v))) w
  = (Returned true, set_queue (removelast (_commands (cls w))) w).
Proof.
  intros H. destruct v; cbn in *;
    unfold forward_dispatch, backward_dispatch; cbn;
    by rewrite (bind_returned _ _ _ _ _ (pop_some _ _ H)).
Qed.

(** A visit of the pass the queued letter does not stop at. *)
Lemma run_visit_other_pass n (v : visit) (w : world) :
  formattable (after (visited v)) = true →
  last (_commands (cls w))
  = Some (VStr (letter_of_other_pass (visit_pass v))) →
  run_visit (S n) v w
  = (Returned (visit_data v), finish (visit_pass v) (after (visited v)) w).
Proof.
  intros Hf Hc. rewrite run_visit_loop by done.
  rewrite visit_loop_unfold.
  rewrite (loop_done _ _ _ (announced (visit_pass v) (after (visited v)) w));
    [done |].
  rewrite (visit_body_pending _ _ _ _
             (VStr (letter_of_other_pass (visit_pass v)))) by done.
  apply visit_dispatch_other_pass.
Qed.

(** A visit of the pass the queued letter stops at. *)
Lemma run_visit_own_pass n (v : visit) (w : world) :
  formattable (after (visited v)) = true →
  last (_commands (cls w)) = Some (VStr (letter_of_pass (visit_pass v))) →
  run_visit (S n) v w
  = (Returned (visit_data v), stepped (visit_pass v) (after (visited v)) w).
Proof.
  intros Hf Hc. rewrite run_visit_loop by done.
  rewrite visit_loop_unfold.
  rewrite (loop_done _ _ _
             (set_queue (removelast (_commands (cls w)))
                (announced (visit_pass v) (after (visited v)) w)));
    [done |].
  rewrite (visit_body_pending _ _ _ _
             (VStr (letter_of_pass (visit_pass v)))) by done.
  by rewrite visit_dispatch_own_pass.
Qed.

(** X7. [b] runs until the backward pass and [f] until the forward pass.
    With the letter of pass [p] last in the queue, visits of the other pass
    go by without reading input or prompting and leave the letter where it
    is.  The first visit of pass [p] takes the letter off and ends, again
    without a prompt; if the letter was alone in the queue, it is the visit
    after that one which prompts. *)
Theorem X7_b_and_f_run_until_the_other_pass
    (n : nat) (p : pass) (vs : list visit) (stop next : visit) (w : world) :
  last (_commands (cls w)) = Some (VStr (letter_of_pass p)) →
  Forall (λ v, formattable (after (visited v)) = true
               ∧ visit_pass v ≠ p) vs →
  formattable (after (visited stop)) = true →
  visit_pass stop = p →
  formattable (after (visited next)) = true →
  ∃ (w1 w2 : world) (evs1 evs2 : list event),
    run_visits (S n) vs w = (Returned (visit_data <$> vs), w1)
    ∧ _commands (cls w1) = _commands (cls w)
    ∧ stdin w1 = stdin w
    ∧ stdout w1 = stdout w ++ evs1 ∧ silent evs1
    ∧ run_visit (S n) stop w1 = (Returned (visit_data stop), w2)
    ∧ _commands (cls w2) = removelast (_commands (cls w))
    ∧ stdin w2 = stdin w
    ∧ stdout w2 = stdout w1 ++ evs2 ∧ silent evs2
    ∧ (_commands (cls w) = [VStr (letter_of_pass p)] →
       (stdout w2
        ++ status_events (visit_pass next) p (after (visited next))
        ++ [Prompt (prompt_of next)])
         `prefix_of` stdout (run_visit (S n) next w2).2).
Proof.
  intros Hlast Hvs Hstop Hp Hnext.
  assert (∃ (w1 : world) (evs1 : list event),
    run_visits (S n) vs w = (Returned (visit_data <$> vs), w1)
    ∧ _commands (cls w1) = _commands (cls w)
    ∧ stdin w1 = stdin w
    ∧ stdout w1 = stdout w ++ evs1 ∧ silent evs1)
    as (w1 & evs1 & Hrun1 & Hq1 & Hin1 & Hout1 & Hs1).
  { clear Hstop Hnext. revert w Hlast.
    induction vs as [|v vs IH]; intros w Hlast.
    - exists w, []. cbn. rewrite app_nil_r. split_and!; try done. constructor.
    - apply Forall_cons in Hvs as [[Hf Hne] Hrest].
      assert (letter_of_pass p = letter_of_other_pass (visit_pass v)) as Hl
        by (destruct p, (visit_pass v); done).
      rewrite Hl in Hlast.
      cbn [run_visits].
      rewrite (bind_returned _ _ _ _ _ (run_visit_other_pass n v w Hf Hlast)).
      destruct (IH Hrest (finish (visit_pass v) (after (visited v)) w))
        as (w1 & evs & Hrun & Hq' & Hin' & Hout & Hs).
      { cbn. by rewrite Hlast, Hl. }
      exists w1,
        (status_events (visit_pass v) (_last_pass (cls w)) (after (visited v))
         ++ evs).
      rewrite (bind_returned _ _ _ _ _ Hrun).
      split_and!; try done.
      + rewrite Hout. cbn. by rewrite app_assoc.
      + apply Forall_app. split; [apply status_events_silent | done]. }
  assert (last (_commands (cls w1))
          = Some (VStr (letter_of_pass (visit_pass stop)))) as Hlast1
    by (by rewrite Hq1, Hp).
  pose proof (run_visit_own_pass n stop w1 Hstop Hlast1) as Hrun2.
  eexists w1, _, evs1, _. split_and!; try done.
  - cbn. by rewrite Hq1.
  - apply status_events_silent.
  - intros Hone. subst p.
    apply (run_visit_prompts n next
             (stepped (visit_pass stop) (after (visited stop)) w1) Hnext).
    cbn. by rewrite Hq1, Hone.
Qed.

Lemma pdb_sessions_app (l1 l2 : list event) :
  pdb_sessions (l1 ++ l2) = pdb_sessions l1 + pdb_sessions l2.
Proof.
  induction l1 as [|e l1 IH]; [done |]. destruct e; cbn; by rewrite ?IH.
Qed.

Lemma pdb_sessions_status p last n : pdb_sessions (status_events p last n) = 0.
Proof. unfold status_events, banner. by destruct p, last. Qed.

Lemma run_visit_d_forward n self argument (w : world) :
  formattable (after self) = true →
  last (_commands (cls w)) = Some (VStr "d") →
  run_visit (S n) (Forward self argument) w
  = (Returned argument,
     mark pass_f
       (with_stdout
          (stdout w ++ status_events pass_f (_last_pass (cls w)) (after self)
           ++ [PdbSetTrace])
          (set_queue (removelast (_commands (cls w))) w))).
Proof.
  intros Hf Hc. rewrite run_visit_loop by done.
  rewrite visit_loop_unfold. cbn [visit_pass visited visit_data].
  erewrite loop_done.
  - reflexivity.
  - rewrite (visit_body_pending _ _ _ _ (VStr "d")) by done.
    cbn [visit_dispatch]. unfold forward_dispatch. cbn [value_is String.eqb].
    cbn. run_dispatch. cbn [announced cls with_stdout]. rewrite Hc.
    cbv [set_queue with_cls with_stdout announced].
    cbn [cls stdin stdout host_calls heap _commands _last_pass].
    by rewrite <- app_assoc.
Qed.

Lemma run_visit_d_backward n self st g (w : world) :
  formattable (after self) = true →
  last (_commands (cls w)) = Some (VStr "d") →
  run_visit (S n) (Backward self st g) w
  = (Returned g,
     mark pass_b
       (with_stdout
          (stdout w ++ status_events pass_b (_last_pass (cls w)) (after self)
           ++ [PdbSetTrace]) w)).
Proof.
  intros Hf Hc. rewrite run_visit_loop by done.
  rewrite visit_loop_unfold. cbn [visit_pass visited visit_data].
  erewrite loop_done.
  - reflexivity.
  - rewrite (visit_body_pending _ _ _ _ (VStr "d")) by done.
    cbn [visit_dispatch]. unfold backward_dispatch. cbn [value_is String.eqb].
    cbn. run_dispatch. cbv [with_stdout announced].
    cbn [cls stdin stdout host_calls heap _commands _last_pass].
    by rewrite <- app_assoc.
Qed.

(** X8. [d] is handled differently in the two directions.  [forward] takes
    it off the queue before it enters [pdb]; [backward] enters [pdb] and
    leaves it in the queue.  So with [d] last in the queue every call of
    [backward] opens one [pdb] session, never prompts and never consumes
    the letter, however many such calls follow one another, while one call
    of [forward] opens one session and removes it. *)
Theorem X8_d_stays_queued_in_backward
    (n : nat) (self : DebugNode) (argument : data) (vs : list visit)
    (w : world) :
  last (_commands (cls w)) = Some (VStr "d") →
  formattable (after self) = true →
  all_backward vs →
  Forall (λ v, formattable (after (visited v)) = true) vs →
  (∃ w' : world,
     run_visit (S n) (Forward self argument) w = (Returned argument, w')
     ∧ _commands (cls w') = removelast (_commands (cls w))
     ∧ stdin w' = stdin w
     ∧ stdout w'
       = stdout w ++ status_events pass_f (_last_pass (cls w)) (after self)
         ++ [PdbSetTrace])
  ∧ (∃ (w' : world) (evs : list event),
       run_visits (S n) vs w = (Returned (visit_data <$> vs), w')
       ∧ _commands (cls w') = _commands (cls w)
       ∧ stdin w' = stdin w
       ∧ stdout w' = stdout w ++ evs ∧ silent evs
       ∧ pdb_sessions evs = length vs).
Proof.
  intros Hlast Hself Hb Hvs. split.
  - eexists. split; [by apply run_visit_d_forward |]. by split_and!.
  - clear Hself. revert w Hlast.
    induction vs as [|v vs IH]; intros w Hlast.
    + exists w, []. cbn. rewrite app_nil_r. split_and!; try done. constructor.
    + apply Forall_cons in Hb as [Hv Hb]. apply Forall_cons in Hvs as [Hf Hvs].
      destruct v as [? ? | self' st g]; [done |].
      cbn [run_visits].
      rewrite (bind_returned _ _ _ _ _
                 (run_visit_d_backward n self' st g w Hf Hlast)).
      match goal with
      | |- context [bind (run_visits _ vs) _ ?w0] =>
          destruct (IH Hb Hvs w0 Hlast)
            as (w' & evs & Hrun & Hq' & Hin' & Hout & Hs & Hcount)
      end.
      exists w',
        (status_events pass_b (_last_pass (cls w)) (after self')
         ++ [PdbSetTrace] ++ evs).
      rewrite (bind_returned _ _ _ _ _ Hrun).
      split_and!; try done.
      * rewrite Hout. cbn. by rewrite <- !app_assoc.
      * apply Forall_app. split; [apply status_events_silent |].
        by constructor.
      * rewrite pdb_sessions_app, pdb_sessions_status. cbn. by rewrite Hcount.
Qed.

(** *** A predicate that raises *)

(** X9. When the queued predicate raises at a visit, the exception leaves
    [forward] or [backward]; the predicate is still in the queue, nothing
    has been read or prompted and the pass marker has not been set. *)
Theorem X9_raising_predicate_stays_queued
    (n : nat) (v : visit) (p : data → node → result bool) (e : exn)
    (w : world) :
  formattable (after (visited v)) = true →
  last (_commands (cls w)) = Some (VCallable p) →
  holds_at p v = Err e →
  run_visit (S n) v w
  = (Raised e, announced (visit_pass v) (after (visited v)) w).
Proof.
  intros Hf Hc Hp. rewrite run_visit_loop by done.
  rewrite visit_loop_unfold.
  erewrite loop_raised; [reflexivity |].
  rewrite (visit_body_pending _ _ _ _ (VCallable p)) by done.
  unfold holds_at in Hp.
  destruct v; cbn in *; unfold forward_dispatch, backward_dispatch; cbn;
    unfold bind, lift; by rewrite Hp.
Qed.

(** *** A single step *)

(** X10. A bare [n] is one step: typed at the prompt of a visit that
    found the queue empty, it ends that visit and leaves the queue empty,
    so that the next visit prompts. *)
Theorem X10_bare_n_is_a_single_step
    (n : nat) (v next : visit) (line : string) (more : list string)
    (w : world) :
  formattable (after (visited v)) = true →
  formattable (after (visited next)) = true →
  _commands (cls w) = [] →
  stdin w = line :: more →
  Py.strip line = "n" →
  ∃ w' : world,
    run_visit (S n) v w = (Returned (visit_data v), w')
    ∧ _commands (cls w') = []
    ∧ _last_pass (cls w') = visit_pass v
    ∧ stdin w' = more
    ∧ stdout w'
      = stdout w
        ++ status_events (visit_pass v) (_last_pass (cls w))
             (after (visited v))
        ++ [Prompt (prompt_of v)]
    ∧ (stdout w'
       ++ status_events (visit_pass next) (visit_pass v)
            (after (visited next))
       ++ [Prompt (prompt_of next)])
        `prefix_of` stdout (run_visit (S n) next w').2.
Proof.
  intros Hf Hnext Hq Hin Hs.
  assert (__wait_for_input (S n) (prompt_of v)
            (announced (visit_pass v) (after (visited v)) w)
          = (Returned (replicate 1 (VStr "n")),
             prompted (prompt_of v) more
               (announced (visit_pass v) (after (visited v)) w))) as Hw.
  { apply wait_for_input_understood; [| done].
    by apply body_n with (line := line). }
  pose proof (run_visit_enter_steps n v w _ 0 Hf Hq Hw) as Hrun.
  eexists. split; [exact Hrun |]. split_and!; try done.
  - cbn. by rewrite <- app_assoc.
  - match goal with
    | |- context [run_visit _ next ?w1] =>
        exact (run_visit_prompts n next w1 Hnext eq_refl)
    end.
Qed.

(** *** What a visit leaves alone *)

Lemma tame_ret {A} (a : A) : tame (ret a).
Proof. by intros w. Qed.

Lemma tame_raise {A} e : tame (@raise data A e).
Proof. by intros w. Qed.

Lemma tame_out_of_fuel {A} : tame (@out_of_fuel data A).
Proof. by intros w. Qed.

Lemma tame_emit e : tame (emit e).
Proof. by intros w. Qed.

Lemma tame_bind {A B} (c : M A) (k : A → M B) :
  tame c → (∀ a, tame (k a)) → tame (bind c k).
Proof.
  intros Hc Hk w. unfold bind. specialize (Hc w).
  destruct (c w) as [[a|e|] w1]; cbn in *; [| done | done].
  destruct Hc as (Hp & Hin & Hh & Hheap).
  destruct (Hk a w1) as (Hp' & Hin' & Hh' & Hheap').
  split_and!; [congruence | by etrans | congruence | congruence].
Qed.

Lemma tame_try_except {A} (c h : M A) f :
  tame c → tame h → tame (try_except c f h).
Proof.
  intros Hc Hh w. unfold try_except. specialize (Hc w).
  destruct (c w) as [[a|e|] w1]; cbn in *; [done | | done].
  destruct (f e); [| done].
  destruct Hc as (Hp & Hin & Hcalls & Hheap).
  destruct (Hh w1) as (Hp' & Hin' & Hcalls' & Hheap').
  split_and!; [congruence | by etrans | congruence | congruence].
Qed.

Lemma tame_lift {A} (r : result A) : tame (lift r).
Proof. destruct r; [apply tame_ret | apply tame_raise]. Qed.

Lemma tame_while_not {S} n (test : S → bool) (body : S → M S) s :
  (∀ s, tame (body s)) → tame (while_not n test body s).
Proof.
  intros Hb. revert s. induction n as [|n IH]; intros s; cbn.
  - destruct (test s); [apply tame_ret | apply tame_out_of_fuel].
  - destruct (test s); [apply tame_ret |]. by apply tame_bind.
Qed.

Lemma tame_input prompt : tame (input prompt).
Proof.
  apply tame_bind; [apply tame_emit |]. intros _ w.
  destruct (stdin w) as [|line rest] eqn:H; cbn; rewrite ?H; [done |].
  split_and!; try done. by apply suffix_cons_r.
Qed.

Lemma tame_get_commands : tame get_commands.
Proof. by intros w. Qed.

Lemma tame_set_commands l : tame (set_commands l).
Proof. by intros w. Qed.

Lemma tame_commands_last : tame commands_last.
Proof.
  apply tame_bind; [apply tame_get_commands |]. intros l.
  destruct (last l); [apply tame_ret | apply tame_raise].
Qed.

Lemma tame_pop : tame pop.
Proof.
  apply tame_bind; [apply tame_commands_last |]. intros v.
  apply tame_bind; [apply tame_get_commands |]. intros l.
  apply tame_bind; [apply tame_set_commands |]. intros _. apply tame_ret.
Qed.

Lemma tame_call (v : value) arg n : tame (call v arg n).
Proof. destruct v; [apply tame_raise | apply tame_lift | apply tame_raise]. Qed.

Lemma tame_py_int s : tame (py_int s).
Proof. unfold py_int. destruct (Py.int s); [apply tame_ret | apply tame_raise]. Qed.

Lemma tame_get_cls : tame get_cls.
Proof. by intros w. Qed.

Create HintDb tame discriminated.
Hint Resolve tame_ret tame_raise tame_out_of_fuel tame_emit tame_bind
  tame_try_except tame_lift tame_input tame_get_commands tame_set_commands
  tame_commands_last tame_pop tame_call tame_py_int tame_get_cls : tame.

Ltac tame :=
  repeat first
    [ progress (intros; auto with tame)
    | apply tame_bind
    | apply tame_try_except
    | match goal with |- tame (if ?b then _ else _) => destruct b end
    | match goal with |- tame (match ?x with _ => _ end) => destruct x end ].

Lemma tame_wait_for_input n prompt : tame (__wait_for_input n prompt).
Proof.
  unfold __wait_for_input. apply tame_bind; [| tame].
  apply tame_while_not. intros u.
  unfold wait_for_input_body, interpret, print. tame.
Qed.

Lemma tame_refill n prompt : tame (refill n prompt).
Proof.
  unfold refill. apply tame_bind; [tame |]. intros l.
  destruct (is_nil l); [| tame].
  apply tame_bind; [apply tame_wait_for_input | tame].
Qed.

Lemma tame_visit_dispatch (v : visit) done x : tame (visit_dispatch v done x).
Proof.
  destruct v; cbn;
    unfold forward_dispatch, backward_dispatch, print, pdb_set_trace; tame.
Qed.

Lemma tame_visit_loop n (v : visit) : tame (visit_loop n v).
Proof.
  rewrite visit_loop_unfold. apply tame_while_not. intros d.
  pose proof (tame_visit_dispatch v d) as Hd.
  destruct v; cbn; unfold forward_body, backward_body;
    (apply tame_bind; [apply tame_refill |]); intros _;
    (apply tame_bind; [apply tame_commands_last |]); intros x;
    apply (Hd x).
Qed.

Lemma tame_print_status self p : tame (_print_status self p).
Proof. unfold _print_status, print. tame. Qed.

(** [run_visit] as the status line, the loop and the marker. *)
Lemma run_visit_unfold fuel (v : visit) (w : world) :
  run_visit fuel v w
  = match _print_status (visited v) (visit_pass v) w with
    | (Returned _, w0) =>
        match visit_loop fuel v w0 with
        | (Returned _, w') => (Returned (visit_data v), mark (visit_pass v) w')
        | (Raised e, w') => (Raised e, w')
        | (OutOfFuel, w') => (OutOfFuel, w')
        end
    | (Raised e, w0) => (Raised e, w0)
    | (OutOfFuel, w0) => (OutOfFuel, w0)
    end.
Proof.
  destruct v as [self arg | self st g];
    cbn [run_visit visited visit_pass visit_loop visit_data].
  - unfold forward, bind.
    destruct (_print_status self pass_f w) as [[[]| |] w0]; [| done | done].
    by destruct (forward_loop _ _ _ _) as [[b| |] w'].
  - unfold backward, bind.
    destruct (_print_status self pass_b w) as [[[]| |] w0]; [| done | done].
    by destruct (backward_loop _ _ _ _ _) as [[b| |] w'].
Qed.

Lemma run_visit_effect (fuel : nat) (v : visit) (w : world) :
  _last_pass (cls (run_visit fuel v w).2)
  = match (run_visit fuel v w).1 with
    | Returned _ => visit_pass v
    | _ => _last_pass (cls w)
    end
  ∧ stdin (run_visit fuel v w).2 `suffix_of` stdin w
  ∧ host_calls (run_visit fuel v w).2 = host_calls w
  ∧ heap (run_visit fuel v w).2 = heap w.
Proof.
  rewrite run_visit_unfold.
  destruct (tame_print_status (visited v) (visit_pass v) w)
    as (Hp & Hin & Hc & Hh).
  destruct (_print_status _ _ w) as [[[]|e|] w0]; cbn in *; [| done | done].
  destruct (tame_visit_loop fuel v w0) as (Hp' & Hin' & Hc' & Hh').
  destruct (visit_loop fuel v w0) as [[b|e|] w']; cbn in *;
    (split_and!; [congruence | by etrans | congruence | congruence]).
Qed.

(** X11. The pass marker is written by a completed pass only.  After a
    call of [forward] or [backward] that returns, [_last_pass] is the pass
    of that call; after a call that raises or does not end it is what it
    was before.  Whatever the outcome, the call takes its input from the
    front of the lines typed and leaves the host calls and the debug nodes
    on the heap alone. *)
Theorem X11_pass_marker_set_by_completed_pass_only
    (fuel : nat) (v : visit) (w : world) :
  _last_pass (cls (run_visit fuel v w).2)
  = match (run_visit fuel v w).1 with
    | Returned _ => visit_pass v
    | _ => _last_pass (cls w)
    end
  ∧ stdin (run_visit fuel v w).2 `suffix_of` stdin w
  ∧ host_calls (run_visit fuel v w).2 = host_calls w
  ∧ heap (run_visit fuel v w).2 = heap w.
Proof. apply run_visit_effect. Qed.

Lemma run_visit_status_prefix fuel (v : visit) (w : world) :
  formattable (after (visited v)) = true →
  (stdout w
   ++ status_events (visit_pass v) (_last_pass (cls w)) (after (visited v)))
    `prefix_of` stdout (run_visit fuel v w).2.
Proof.
  intros Hf. rewrite run_visit_loop by done.
  pose proof (grows_visit_loop fuel v
                (announced (visit_pass v) (after (visited v)) w)) as H.
  by destruct (visit_loop _ _ _) as [[b| |] w'].
Qed.

(** X12. The separator is printed at a change of pass and only there.  A
    call that follows a completed call begins its output with the separator
    of its pass if the completed call was of the other pass, and directly
    with its status line if it was of the same pass. *)
Theorem X12_separator_at_a_change_of_pass
    (fuel fuel' : nat) (v1 v2 : visit) (w : world) (r : data) :
  formattable (after (visited v2)) = true →
  (run_visit fuel v1 w).1 = Returned r →
  (stdout (run_visit fuel v1 w).2
   ++ banner (visit_pass v2) (visit_pass v1)
   ++ [Print (status_prefix (visit_pass v2)
              +:+ status_line (after (visited v2)))])
    `prefix_of` stdout (run_visit fuel' v2 (run_visit fuel v1 w).2).2
  ∧ (banner (visit_pass v2) (visit_pass v1) = []
     ↔ visit_pass v1 = visit_pass v2).
Proof.
  intros Hf Hr. split.
  - pose proof (run_visit_status_prefix fuel' v2 (run_visit fuel v1 w).2 Hf)
      as H.
    destruct (run_visit_effect fuel v1 w) as [Hp _].
    rewrite Hr in Hp. rewrite Hp in H.
    unfold status_events in H. unfold status_prefix.
    by destruct (visit_pass v2).
  - unfold banner. by destruct (visit_pass v1), (visit_pass v2).
Qed.

(** *** The queue is refilled only when it is empty *)

(** The dispatch, whatever the object: it reads no input and either leaves
    the queue as it is or takes its last element off. *)
Lemma visit_dispatch_effect (v : visit) done x (w : world) :
  last (_commands (cls w)) = Some x →
  stdin (visit_dispatch v done x w).2 = stdin w
  ∧ (_commands (cls (visit_dispatch v done x w).2) = _commands (cls w)
     ∨ _commands (cls (visit_dispatch v done x w).2)
       = removelast (_commands (cls w))).
Proof.
  intros Hlast.
  destruct v as [self arg | self st g]; cbn [visit_dispatch];
    unfold forward_dispatch, backward_dispatch;
    repeat match goal with
      | |- context [if value_is x ?s then _ else _] =>
          destruct (value_is x s)
      | |- context [if callable x then _ else _] =>
          destruct (callable x) eqn:?
      end;
    run_dispatch; rewrite ?Hlast; cbn; auto;
    (destruct x as [s|f|r]; try discriminate;
     match goal with
     | |- context [f ?a ?n] => destruct (f a n) as [[|]|e]
     end; run_dispatch; rewrite ?Hlast; cbn; auto).
Qed.

#[local] Abbreviation queue_kept_or_input_read :=
  (@queue_kept_or_input_read data).

Lemma queue_kept_refl (w : world) : queue_kept_or_input_read w w.
Proof. by left. Qed.

Lemma queue_kept_trans (w1 w2 w3 : world) :
  queue_kept_or_input_read w1 w2 → queue_kept_or_input_read w2 w3 →
  queue_kept_or_input_read w1 w3.
Proof.
  intros [[Hin Hq] | Hlt] [[Hin' Hq'] | Hlt'].
  - left. split; [congruence | by etrans].
  - right. by rewrite <- Hin.
  - right. by rewrite Hin'.
  - right. lia.
Qed.

Lemma interpret_pure s u (w : world) : (interpret s u w).2 = w.
Proof.
  unfold interpret.
  destruct (_ && _); [done |].
  destruct (Py.head_is "n" s).
  { unfold try_except, bind, py_int, lift, ret, raise.
    destruct (1 <? String.length s)%nat; [| done].
    destruct (Py.int _); [done |]. cbn.
    destruct (eval _) as [x|e]; [done |]. by destruct e. }
  by destruct (String.eqb s "q").
Qed.

(** One iteration of the parser takes exactly one line, if there is one,
    and leaves the class attributes alone. *)
Lemma body_effect prompt u (w : world) :
  cls (wait_for_input_body prompt u w).2 = cls w
  ∧ match stdin w with
    | [] => stdin (wait_for_input_body prompt u w).2 = []
            ∧ (wait_for_input_body prompt u w).1 = Raised EOFError
    | _ :: more => stdin (wait_for_input_body prompt u w).2 = more
    end.
Proof.
  destruct (stdin w) as [|line more] eqn:Hin.
  { by rewrite (body_eof prompt u w Hin). }
  unfold wait_for_input_body.
  rewrite (bind_returned _ _ _ _ _ (input_line prompt _ _ _ Hin)).
  destruct (Py.is_empty _); [done |].
  pose proof (interpret_pure (Py.strip line) u (prompted prompt more w)) as Hp.
  unfold bind.
  destruct (interpret _ _ _) as [[u'|e|] w1]; cbn in Hp; subst w1;
    [| done | done].
  by destruct (truthy u').
Qed.

Lemma wait_loop_effect n prompt u (w : world) :
  truthy u = false →
  cls (while_not n truthy (wait_for_input_body prompt) u w).2 = cls w
  ∧ (stdin (while_not n truthy (wait_for_input_body prompt) u w).2 = stdin w
     ∨ length (stdin (while_not n truthy (wait_for_input_body prompt) u w).2)
       < length (stdin w))
  ∧ ∀ a, (while_not n truthy (wait_for_input_body prompt) u w).1 = Returned a →
         length (stdin (while_not n truthy (wait_for_input_body prompt) u w).2)
         < length (stdin w).
Proof.
  revert u w. induction n as [|n IH]; intros u w Hu; cbn; rewrite Hu.
  { split_and!; [done | by left | done]. }
  destruct (body_effect prompt u w) as [Hcls Hin].
  unfold bind.
  destruct (wait_for_input_body prompt u w) as [[u1|e|] w1] eqn:Hb;
    cbn in Hcls, Hin.
  - destruct (stdin w) as [|line more] eqn:Hw; [by destruct Hin |].
    destruct (truthy u1) eqn:Hu1.
    + rewrite while_not_stop by done. cbn. rewrite Hin. cbn.
      split_and!; [done | right; lia | intros; lia].
    + destruct (IH u1 w1 Hu1) as (Hcls' & Hin' & Hret).
      rewrite Hin in Hin', Hret. cbn.
      split_and!; [congruence | | ].
      * right. destruct Hin' as [-> | ?]; lia.
      * intros a Ha. specialize (Hret a Ha). lia.
  - cbn. split_and!; [done | | done].
    destruct (stdin w) as [|line more]; [left; by destruct Hin |].
    right. rewrite Hin. cbn. lia.
  - cbn. split_and!; [done | | done].
    destruct (stdin w) as [|line more]; [left; by destruct Hin |].
    right. rewrite Hin. cbn. lia.
Qed.

Lemma wait_for_input_effect n prompt (w : world) :
  cls (__wait_for_input n prompt w).2 = cls w
  ∧ (stdin (__wait_for_input n prompt w).2 = stdin w
     ∨ length (stdin (__wait_for_input n prompt w).2) < length (stdin w))
  ∧ ∀ l, (__wait_for_input n prompt w).1 = Returned l →
         length (stdin (__wait_for_input n prompt w).2) < length (stdin w).
Proof.
  unfold __wait_for_input.
  destruct (wait_loop_effect n prompt UFalse w eq_refl) as (Hcls & Hin & Hret).
  unfold bind.
  destruct (while_not _ _ _ _ _) as [[u|e|] w1]; cbn in *;
    split_and!; try done.
  intros l _. by apply (Hret u).
Qed.

Lemma removelast_prefix {A} (l : list A) : removelast l `prefix_of` l.
Proof.
  destruct l as [|x l] using rev_ind; [done |].
  rewrite removelast_last. by apply prefix_app_r.
Qed.

Lemma visit_body_queue f (v : visit) done (w : world) :
  queue_kept_or_input_read w (visit_body f v done w).2.
Proof.
  destruct (last (_commands (cls w))) as [x|] eqn:Hlast.
  - rewrite (visit_body_pending _ _ _ _ x Hlast).
    destruct (visit_dispatch_effect v done x w Hlast) as [Hin [Hq | Hq]];
      left; (split; [done |]); rewrite Hq; [done | apply removelast_prefix].
  - assert (_commands (cls w) = []) as Hnil.
    { destruct (_commands (cls w)) as [|y l] using rev_ind; [done |].
      by rewrite last_snoc in Hlast. }
    assert (∀ prompt (k : value → M bool),
      (∀ y, tame (k y)) →
      queue_kept_or_input_read w
        (bind (refill f prompt) (λ _, bind commands_last k) w).2) as H.
    { intros prompt k Hk.
      destruct (wait_for_input_effect f prompt w) as (Hcls & Hin & Hret).
      destruct (__wait_for_input f prompt w) as [[l|e|] w1] eqn:Hw;
        cbn in Hcls, Hin, Hret.
      - specialize (Hret l eq_refl).
        rewrite (bind_returned _ _ _ _ _ (refill_empty _ _ _ _ _ Hnil Hw)).
        assert (tame (bind commands_last k)) as Ht
          by (apply tame_bind; [apply tame_commands_last | done]).
        destruct (Ht (set_queue l w1)) as (_ & Hsuf & _).
        right. apply suffix_length in Hsuf. cbn in Hsuf. lia.
      - assert (refill f prompt w = (Raised e, w1)) as Hr.
        { unfold refill, bind at 1, get_commands, bind at 1, get_cls, ret.
          cbn. rewrite Hnil. cbn. by rewrite (bind_raised _ _ _ _ _ Hw). }
        rewrite (bind_raised _ _ _ _ _ Hr). cbn. destruct Hin as [Hin | Hin]; [left | by right].
        split; [done |]. by rewrite Hcls, Hnil.
      - assert (refill f prompt w = (OutOfFuel, w1)) as Hr.
        { unfold refill, bind at 1, get_commands, bind at 1, get_cls, ret.
          cbn. rewrite Hnil. cbn. by rewrite (bind_out_of_fuel _ _ _ _ Hw). }
        rewrite (bind_out_of_fuel _ _ _ _ Hr). cbn. destruct Hin as [Hin | Hin]; [left | by right].
        split; [done |]. by rewrite Hcls, Hnil. }
    pose proof (tame_visit_dispatch v done) as Hd.
    destruct v; cbn [visit_body]; unfold forward_body, backward_body;
      apply H; exact Hd.
Qed.

Lemma visit_loop_queue n f (v : visit) done (w : world) :
  queue_kept_or_input_read w (while_not n id (visit_body f v) done w).2.
Proof.
  revert done w. induction n as [|n IH]; intros done w; cbn.
  - destruct done; apply queue_kept_refl.
  - destruct done; cbn; [apply queue_kept_refl |].
    pose proof (visit_body_queue f v false w) as Hb.
    unfold bind.
    destruct (visit_body f v false w) as [[d|e|] w1]; cbn in Hb;
      [| done | done].
    eapply queue_kept_trans; [exact Hb | apply IH].
Qed.

Lemma print_status_frame self p (w : world) :
  cls (_print_status self p w).2 = cls w
  ∧ stdin (_print_status self p w).2 = stdin w.
Proof.
  destruct (formattable (after self)) eqn:Hf.
  - by rewrite print_status_ok.
  - by rewrite print_status_err.
Qed.

(** X13. The queue is refilled only when it is empty, and only from the
    input.  Over any call of [forward] or [backward], either no line has
    been read and the queue at the end is an initial part of the queue at
    the start (commands are taken off its end, never added, never
    reordered), or at least one line has been read. *)
Theorem X13_queue_only_shrinks_unless_input_is_read
    (fuel : nat) (v : visit) (w : world) :
  queue_kept_or_input_read w (run_visit fuel v w).2.
Proof.
  rewrite run_visit_unfold.
  destruct (print_status_frame (visited v) (visit_pass v) w) as [Hcls Hin].
  destruct (_print_status _ _ w) as [[[]|e|] w0]; cbn in Hcls, Hin.
  - pose proof (visit_loop_queue fuel fuel v false w0) as H.
    rewrite <- visit_loop_unfold in H.
    assert (queue_kept_or_input_read w w0) as H0
      by (left; by rewrite Hin, Hcls).
    destruct (visit_loop fuel v w0) as [[d|e|] w1]; cbn in H |- *;
      [| by eapply queue_kept_trans | by eapply queue_kept_trans].
    eapply queue_kept_trans; [exact H0 |].
    eapply queue_kept_trans; [exact H |]. by left.
  - left. cbn. by rewrite Hin, Hcls.
  - left. cbn. by rewrite Hin, Hcls.
Qed.

Lemma single_letter_parsed s :
  (String.length s =? 1)%nat && Py.contains "bcdfp" s = true →
  s ∈ ["b"; "c"; "d"; "f"; "p"].
Proof.
  destruct s as [|c [|c' r]]; [done | | done].
  destruct c as [[] [] [] [] [] [] [] []]; cbn; intros H;
    try discriminate H; set_solver.
Qed.

Lemma interpret_parsed s u u' (w w' : world) :
  (truthy u = true → parsed (as_list u)) →
  interpret s u w = (Returned u', w') →
  truthy u' = true → parsed (as_list u').
Proof.
  intros Hu. unfold interpret.
  destruct (_ && _) eqn:Hl.
  { intros [= <- <-] _. left. exists s. split; [done |].
    by apply single_letter_parsed. }
  destruct (Py.head_is "n" s).
  2: { destruct (String.eqb s "q"); [done |]. by intros [= <- <-]. }
  assert (∀ z, truthy (UList (replicate (Z.to_nat z) (VStr "n" : value)))
               = true →
               parsed (replicate (Z.to_nat z) (VStr "n"))) as Hn.
  { intros z. destruct (Z.to_nat z) as [|m]; [done |]. intros _.
    right. left. by exists m. }
  unfold try_except, bind, py_int, lift, ret, raise.
  destruct (1 <? String.length s)%nat.
  2: { intros [= <- <-]. apply (Hn 1%Z). }
  destruct (Py.int _); [intros [= <- <-]; apply Hn |]. cbn.
  destruct (eval (Py.tail s)) as [x|e] eqn:He.
  { intros [= <- <-] _. right. right. by exists (Py.tail s), x. }
  destruct e; try done. by intros [= <- <-].
Qed.

Lemma body_parsed prompt u u' (w w' : world) :
  (truthy u = true → parsed (as_list u)) →
  wait_for_input_body prompt u w = (Returned u', w') →
  truthy u' = true → parsed (as_list u').
Proof.
  intros Hu. unfold wait_for_input_body, bind at 1.
  destruct (input prompt w) as [[line|e|] w1]; [| done | done].
  destruct (Py.is_empty _); [by intros [= <- <-] |].
  unfold bind at 1.
  destruct (interpret _ _ _) as [[u1|e|] w2] eqn:Hi; [| done | done].
  pose proof (interpret_parsed _ _ _ _ _ Hu Hi) as H1.
  unfold bind, ret. destruct (negb (truthy u1)); cbn; by intros [= <- <-].
Qed.

Lemma wait_loop_parsed n prompt u u' (w w' : world) :
  (truthy u = true → parsed (as_list u)) →
  while_not n truthy (wait_for_input_body prompt) u w = (Returned u', w') →
  parsed (as_list u').
Proof.
  revert u w. induction n as [|n IH]; intros u w Hu; cbn.
  - destruct (truthy u) eqn:Ht; [| done]. intros [= <- <-]. by apply Hu.
  - destruct (truthy u) eqn:Ht; [intros [= <- <-]; by apply Hu |].
    unfold bind.
    destruct (wait_for_input_body prompt u w) as [[u1|e|] w1] eqn:Hb;
      [| done | done].
    apply IH. eapply body_parsed; [| exact Hb]. by rewrite Ht.
Qed.


(** X15. A sparse node that is neither a [Constant], a [Parameter] nor a
    [Function] cannot be visited: [type(self.after)] is a type object and
    [+= ' (sparse)'] raises [TypeError].  The visit raises it whatever the
    queue and the input hold; by then only the separator of a change of pass
    has been printed, no status line, no prompt, and nothing has been read
    or taken from the queue. *)
Theorem X15_sparse_node_of_another_class_raises_TypeError
    (fuel : nat) (v : visit) (t : string) (w : world) :
  is_sparse (after (visited v)) = true →
  class_of (after (visited v)) = OtherClass t →
  run_visit fuel v w =
    (Raised TypeError,
     with_stdout
       (stdout w ++ banner (visit_pass v) (_last_pass (cls w))) w).
Proof.
  intros Hs Hc. apply run_visit_unformattable.
  unfold formattable. by rewrite Hc, Hs.
Qed.

Section InferOutputs.

Context {model_t dtype_t variable : Type}.
Variable depth_first_search : model_t → (node → bool) → list node.
Variable clone : model_t → CloneMethod → gmap node nat → model_t.
Variable dtype : node → dtype_t.
Variable output_variable : list Z → dtype_t → list string → variable.

(** X16. Every debug node that [debug_model] puts on the heap declares
    exactly one output, with the shape, the data type and the dynamic axes of
    the node it stands after: [self.inputs[0]] is that node, so the
    [IndexError] of an empty [inputs] does not occur. *)
Theorem X16_inserted_nodes_declare_the_output_of_their_node
    (model : model_t) (w : world) (d : nat) (self : DebugNode) :
  length (heap w) ≤ d →
  heap (debug_model depth_first_search clone model w).2 !! d = Some self →
  after self ∈ depth_first_search model (λ _, true)
  ∧ infer_outputs dtype output_variable self
    = Ok [output_variable (shape (after self)) (dtype (after self))
            (dynamic_axes (after self))].
Proof.
  intros Hd. unfold debug_model.
  set (nodes := depth_first_search model (λ _, true)).
  destruct (dict_of_nodes_spec nodes ∅ w) as (m & Hrun & _).
  rewrite (bind_returned _ _ _ _ _ Hrun). cbn.
  rewrite lookup_app_r by done.
  rewrite list_lookup_fmap.
  destruct (nodes !! (d - length (heap w))) as [n|] eqn:Hn; [| done].
  intros [= <-]. split; [| done].
  cbn. by eapply list_elem_of_lookup_2.
Qed.

End InferOutputs.

(** *** The node hands its data through, and returns *)

#[local] Abbreviation passed_over := (@passed_over data state).
#[local] Abbreviation ends_visit := (@ends_visit data state).
#[local] Abbreviation evaluates_to := (evaluates_to eval).
#[local] Abbreviation line_passed_over := (line_passed_over eval).
#[local] Abbreviation line_ends_visit := (line_ends_visit eval).
#[local] Abbreviation session_ends := (session_ends eval).

(** At an object that ends the visit the dispatch sets [done]. *)
Lemma dispatch_ends (v : visit) done x (w : world) :
  ends_visit v x →
  last (_commands (cls w)) = Some x →
  ∃ w1 : world, visit_dispatch v done x w = (Returned true, w1).
Proof.
  intros [(s & -> & Hs) | (p & -> & Hp)] Hlast.
  - rewrite !elem_of_cons, elem_of_nil in Hs.
    destruct Hs as [-> | [-> | [-> | [-> | [-> | []]]]]].
    + eexists. apply visit_dispatch_c.
    + eexists. by apply visit_dispatch_n.
    + destruct v; cbn; unfold forward_dispatch, backward_dispatch; cbn.
      * by eexists.
      * rewrite (bind_returned _ _ _ _ _ (pop_some _ _ Hlast)). by eexists.
    + destruct v; cbn; unfold forward_dispatch, backward_dispatch; cbn.
      * rewrite (bind_returned _ _ _ _ _ (pop_some _ _ Hlast)). by eexists.
      * by eexists.
    + destruct v; cbn; unfold forward_dispatch, backward_dispatch; cbn.
      * rewrite (bind_returned _ _ _ _ _ (pop_some _ _ Hlast)). by eexists.
      * by eexists.
  - eexists. by apply visit_dispatch_false.
Qed.

(** An object that is passed over is taken off the queue, and the loop
    turns once more. *)
Lemma dispatch_passed (v : visit) x (w : world) :
  passed_over v x →
  last (_commands (cls w)) = Some x →
  ∃ w1 : world,
    visit_dispatch v false x w = (Returned false, w1)
    ∧ _commands (cls w1) = removelast (_commands (cls w))
    ∧ stdin w1 = stdin w.
Proof.
  intros [-> | (p & -> & Hp)] Hlast.
  - rewrite (visit_dispatch_p _ _ _ Hlast). by eexists.
  - rewrite (visit_dispatch_true _ _ _ _ Hlast Hp). by eexists.
Qed.

Lemma visit_body_enter_last n (v : visit) l x (w w1 : world) :
  _commands (cls w) = [] →
  __wait_for_input n (prompt_of v) w = (Returned l, w1) →
  last l = Some x →
  visit_body n v false w = visit_dispatch v false x (set_queue l w1).
Proof.
  intros Hq Hw Hl.
  assert (commands_last (set_queue l w1) = (Returned x, set_queue l w1))
    as Hc by (by apply commands_last_some).
  destruct v; cbn [visit_body visit_dispatch prompt_of] in *;
    unfold forward_body, backward_body;
    rewrite (bind_returned _ _ _ _ _ (refill_empty _ _ _ _ _ Hq Hw));
    by rewrite (bind_returned _ _ _ _ _ Hc).
Qed.

(** The parser on lines that are passed over and a line that ends the
    visit: it hands back the command of the first line it does not ignore. *)
Lemma wait_for_input_session (v : visit) prompt f skipped line more
    (w : world) :
  stdin w = skipped ++ line :: more →
  Forall (line_passed_over v) skipped →
  line_ends_visit v line →
  length skipped < f →
  ∃ l x (w1 : world),
    __wait_for_input f prompt w = (Returned l, w1)
    ∧ last l = Some x
    ∧ cls w1 = cls w
    ∧ (ends_visit v x
       ∨ (l = [x] ∧ passed_over v x
          ∧ ∃ skipped',
              stdin w1 = skipped' ++ line :: more
              ∧ Forall (line_passed_over v) skipped'
              ∧ length skipped' < length skipped)).
Proof.
  revert f w. induction skipped as [|l0 sk IH]; intros f w Hin Hall Hend Hf;
    (destruct f as [|f]; [cbn in Hf; lia |]).
  - cbn in Hin.
    destruct Hend as [Hl | [(rest & k & Hs & Hne & Hint & Hk)
                           | (x & (rest & Hs & Hne & Hint & Hev) & Hx)]].
    + assert (wait_for_input_body prompt UFalse w
              = (Returned (UList [VStr (Py.strip line)]),
                 prompted prompt more w)) as Hb.
      { rewrite !elem_of_cons, elem_of_nil in Hl.
        destruct Hl as [Hl | [Hl | [Hl | [Hl | [Hl | []]]]]]; rewrite Hl.
        - apply (body_letter _ _ line more);
            [done | done | repeat constructor].
        - by apply (body_n _ _ line more).
        - apply (body_letter _ _ line more);
            [done | done | repeat constructor].
        - apply (body_letter _ _ line more);
            [done | done | repeat constructor].
        - apply (body_letter _ _ line more);
            [done | done | repeat constructor]. }
      eexists _, _, _. split_and!.
      * by apply wait_for_input_understood.
      * reflexivity.
      * reflexivity.
      * left. left. by eexists.
    + pose proof (body_n_number prompt UFalse line more rest k w
                    Hin Hs Hne Hint Hk) as Hb.
      destruct (Z.to_nat k) as [|m] eqn:Hm; [lia |].
      eexists _, _, _. split_and!.
      * apply wait_for_input_understood; [exact Hb | done].
      * apply last_replicate_S.
      * reflexivity.
      * left. left. eexists. split; [done | repeat constructor].
    + pose proof (body_n_expression prompt UFalse line more rest x w
                    Hin Hs Hne Hint Hev) as Hb.
      eexists _, _, _. split_and!.
      * by apply wait_for_input_understood.
      * reflexivity.
      * reflexivity.
      * by left.
  - cbn in Hin, Hf. apply Forall_cons in Hall as [Hl0 Hall].
    assert (ignored l0 →
      ∃ l x (w1 : world),
        __wait_for_input (S f) prompt w = (Returned l, w1)
        ∧ last l = Some x ∧ cls w1 = cls w
        ∧ (ends_visit v x
           ∨ (l = [x] ∧ passed_over v x
              ∧ ∃ skipped',
                  stdin w1 = skipped' ++ line :: more
                  ∧ Forall (line_passed_over v) skipped'
                  ∧ length skipped' < length (l0 :: sk)))) as Hign.
    { intros Hi.
      destruct (wait_for_input_ignored f prompt l0 (sk ++ line :: more) w
                  Hin Hi) as (evs & Hw & _).
      rewrite Hw.
      match goal with
      | |- context [__wait_for_input f prompt ?w0] =>
          destruct (IH f w0) as (l & x & w1 & Hrun & Hlast & Hcls & Hcase);
            [reflexivity | done | done | lia |]
      end.
      exists l, x, w1. split_and!; [done | done | done |].
      destruct Hcase as [? | (? & ? & sk' & ? & ? & ?)]; [by left |].
      right. split_and!; [done | done |]. exists sk'. cbn.
      split_and!; [done | done | lia]. }
    destruct Hl0 as [Hl0 | [Hl0 | [Hl0 | [Hl0
                    | (x & (rest & Hs & Hne & Hint & Hev) & Hx)]]]].
    + apply Hign. by left.
    + apply Hign. right. by left.
    + apply Hign. right. by right.
    + pose proof (body_letter prompt UFalse l0 (sk ++ line :: more) "p" w
                    Hin Hl0 ltac:(repeat constructor)) as Hb.
      eexists _, _, _. split_and!.
      * by apply wait_for_input_understood.
      * reflexivity.
      * reflexivity.
      * right. split_and!; [done | by left |]. exists sk. cbn.
        split_and!; [done | done | lia].
    + pose proof (body_n_expression prompt UFalse l0 (sk ++ line :: more)
                    rest x w Hin Hs Hne Hint Hev) as Hb.
      eexists _, _, _. split_and!.
      * by apply wait_for_input_understood.
      * reflexivity.
      * reflexivity.
      * right. split_and!; [done | done |]. exists sk. cbn.
        split_and!; [done | done | lia].
Qed.

(** One turn of the loop of a visit in a session that ends it: the turn
    ends the visit, or the session that is left still ends it and is
    shorter. *)
Lemma visit_body_session f (v : visit) (w : world) :
  session_ends v w →
  length (stdin w) < f →
  ∃ d (w1 : world),
    visit_body f v false w = (Returned d, w1)
    ∧ (d = true
       ∨ (d = false ∧ session_ends v w1
          ∧ length (stdin w1) ≤ length (stdin w)
          ∧ length (_commands (cls w1)) + length (stdin w1)
            < length (_commands (cls w)) + length (stdin w))).
Proof.
  intros [(pre & x & post & Hq & Hx & Hpost)
         | (Hall & skipped & line & more & Hin & Hsk & Hline)] Hf.
  - destruct post as [|y post' _] using rev_ind.
    + assert (last (_commands (cls w)) = Some x) as Hlast
        by (rewrite Hq; apply last_snoc).
      rewrite (visit_body_pending _ _ _ _ x Hlast).
      destruct (dispatch_ends v false x w Hx Hlast) as [w1 Hd].
      exists true, w1. split; [done | by left].
    + apply Forall_app in Hpost as [Hpost' Hy].
      apply Forall_inv in Hy.
      assert (_commands (cls w) = (pre ++ x :: post') ++ [y]) as Hq'
        by (rewrite Hq, <- app_assoc; reflexivity).
      assert (last (_commands (cls w)) = Some y) as Hlast
        by (rewrite Hq'; apply last_snoc).
      rewrite (visit_body_pending _ _ _ _ y Hlast).
      destruct (dispatch_passed v y w Hy Hlast) as (w1 & Hd & Hq1 & Hin1).
      exists false, w1. split; [done |]. right.
      rewrite Hq', removelast_last in Hq1.
      split_and!; [done | | by rewrite Hin1 |].
      * left. by exists pre, x, post'.
      * rewrite Hq1, Hq', Hin1, !length_app. cbn. lia.
  - destruct (last (_commands (cls w))) as [y|] eqn:Hlast.
    + apply last_Some in Hlast as Hq. destruct Hq as [q' Hq].
      rewrite Hq in Hall. apply Forall_app in Hall as [Hall' Hy].
      apply Forall_inv in Hy.
      rewrite (visit_body_pending _ _ _ _ y Hlast).
      destruct (dispatch_passed v y w Hy Hlast) as (w1 & Hd & Hq1 & Hin1).
      exists false, w1. split; [done |]. right.
      rewrite Hq, removelast_last in Hq1.
      split_and!; [done | | by rewrite Hin1 |].
      * right. rewrite Hq1. split; [done |].
        exists skipped, line, more. by rewrite Hin1.
      * rewrite Hq1, Hq, Hin1, !length_app. cbn. lia.
    + apply last_None in Hlast as Hq.
      assert (length skipped < f) as Hf'.
      { rewrite Hin, length_app in Hf. lia. }
      destruct (wait_for_input_session v (prompt_of v) f skipped line more w
                  Hin Hsk Hline Hf')
        as (l & x & w1 & Hrun & Hl & Hcls & Hcase).
      rewrite (visit_body_enter_last _ _ _ _ _ _ Hq Hrun Hl).
      destruct Hcase as [Hx | (-> & Hx & sk' & Hin1 & Hsk' & Hlen)].
      * destruct (dispatch_ends v false x (set_queue l w1) Hx Hl)
          as [w2 Hd].
        exists true, w2. split; [done | by left].
      * destruct (dispatch_passed v x (set_queue [x] w1) Hx Hl)
          as (w2 & Hd & Hq2 & Hin2).
        cbn in Hq2, Hin2.
        exists false, w2. split; [done |]. right.
        split_and!; [done | | |].
        -- right. rewrite Hq2. split; [constructor |].
           exists sk', line, more. by rewrite Hin2.
        -- rewrite Hin2, Hin1, Hin, !length_app. cbn. lia.
        -- rewrite Hq2, Hq, Hin2, Hin1, Hin, !length_app. cbn. lia.
Qed.

Lemma visit_loop_session n f (v : visit) (w : world) :
  session_ends v w →
  length (_commands (cls w)) + length (stdin w) < n →
  length (stdin w) < f →
  ∃ w' : world, while_not n id (visit_body f v) false w = (Returned true, w').
Proof.
  revert w. induction n as [|n IH]; intros w Hs Hn Hf; [lia |].
  destruct (visit_body_session f v w Hs Hf)
    as (d & w1 & Hb & [-> | (-> & Hs1 & Hin1 & Hlt)]).
  - rewrite (loop_done _ _ _ _ Hb). by eexists.
  - rewrite (loop_again _ _ _ _ Hb). apply IH; [done | lia | lia].
Qed.

(** In a session that ends the visit, with fuel beyond the work to be done,
    the call returns the data it was given. *)
Lemma run_visit_session fuel (v : visit) (w : world) :
  formattable (after (visited v)) = true →
  session_ends v w →
  work w < fuel →
  ∃ w' : world, run_visit fuel v w = (Returned (visit_data v), w').
Proof.
  intros Hf Hs Hfuel. rewrite run_visit_loop by done.
  rewrite visit_loop_unfold. unfold work in Hfuel.
  destruct (visit_loop_session fuel fuel v
              (announced (visit_pass v) (after (visited v)) w))
    as [w' Hrun].
  - exact Hs.
  - cbn. lia.
  - cbn. lia.
  - rewrite Hrun. by eexists.
Qed.


End Properties.

(** ** The properties on concrete sessions *)

(** C10. The parser can hand back an object that is neither one of the
    six command letters nor callable.  Typing [n 1.5] at the prompt of
    [forward] makes it return the list that holds the float alone; no
    branch of the dispatch matches it, nothing is taken off the queue, and
    the loop of [forward] turns for ever: whatever the fuel, it runs out. *)
Theorem C10_non_callable_object_stalls_the_dispatch (fuel : nat) :
  let w := world_init ["n 1.5"] in
  __wait_for_input Sample.eval (S fuel) "[CNTK forward] >>> " w
  = (Returned [VOther "1.5"], prompted "[CNTK forward] >>> " [] w)
  ∧ dispatchable (VOther "1.5" : @value Sample.tensor) = false
  ∧ ∃ w', Sample.forward (S fuel) Sample.d_param [1; 2]%Z w = (OutOfFuel, w')
          ∧ _commands (cls w') = [VOther "1.5"].
Proof.
  intros w.
  assert (∀ w0 : world,
    stdin w0 = ["n 1.5"] →
    __wait_for_input Sample.eval (S fuel) "[CNTK forward] >>> " w0
    = (Returned [VOther "1.5"], prompted "[CNTK forward] >>> " [] w0))
    as Hparse.
  { intros w0 Hin. apply wait_for_input_understood; [| done].
    by apply body_n_expression with (line := "n 1.5") (rest := " 1.5"). }
  split; [by apply Hparse |]. split; [reflexivity |].
  eexists. split.
  - apply (forward_out_of_fuel Sample.str_state).
    apply (run_visit_enter_stuck Sample.str_state Sample.eval (S fuel)
             (Forward Sample.d_param [1; 2]%Z) (VOther "1.5") w);
      [reflexivity | reflexivity | by apply Hparse | reflexivity].
  - reflexivity.
Qed.


(** A session for C3: [n 2] typed at the parameter node; the Times node is
    visited next. *)
Lemma C3_witness :
  ∃ w1 : world,
    Sample.forward 1 Sample.d_param [1; 2]%Z (world_init ["n 2"])
    = (Returned (None, [1; 2]%Z), w1)
    ∧ _commands (cls w1) = [VStr "n"]
    ∧ (∃ w2 : world,
         Sample.backward 1 Sample.d_times None [3; 4]%Z w1
         = (Returned [3; 4]%Z, w2)
         ∧ _commands (cls w2) = []
         ∧ _last_pass (cls w2) = pass_b).
Proof.
  destruct (C3_queue_and_marker_shared_by_all_nodes Sample.str_state
              Sample.eval 0 2%positive Sample.d_param Sample.d_times
              [1; 2]%Z [3; 4]%Z None [] (world_init ["n 2"]))
    as (w1 & H1 & Hq1 & _ & _ & _ & (w2 & H2 & Hq2 & _ & _ & Hp)).
  - reflexivity.
  - reflexivity.
  - reflexivity.
  - reflexivity.
  - reflexivity.
  - exists w1. split; [exact H1 |]. split; [exact Hq1 |].
    exists w2. split; [exact H2 |]. split; [exact Hq2 | exact Hp].
Defined.

(** The claim C4 as stated fails: with [c] typed at the first node, the
    call of [forward] on the next node does not pause.  It reads no input
    and prints its status line only. *)
Lemma C4_counterexample_no_pause_after_c :
  let w1 := (Sample.forward 1 Sample.d_param [1; 2]%Z
               (world_init ["c"; "n"])).2 in
  ∃ w2 : world,
    Sample.forward 1 Sample.d_times [3; 4]%Z w1
    = (Returned (None, [3; 4]%Z), w2)
    ∧ stdin w2 = stdin w1
    ∧ stdout w2
      = stdout w1
        ++ [Print "Forward after Times node with uid='Times29' shape=[*,*](2,)"].
Proof. eexists. split_and!; vm_compute; reflexivity. Qed.

(** A session for C4: the Times node is visited with an empty queue. *)
Lemma C4_witness :
  ∃ evs : list event,
    stdout (Sample.run_visit 1 (Forward Sample.d_times [3; 4]%Z)
              (world_init ["n"])).2
    = [] ++ []
      ++ Print ("Forward after " +:+ status_line Sample.Times29)
         :: Prompt "[CNTK forward] >>> " :: evs.
Proof.
  refine (proj1 (proj2 (C4_status_line_always_pause_when_idle
                          Sample.str_state Sample.eval 0
                          (Forward Sample.d_times [3; 4]%Z)
                          (world_init ["n"]) _)) _);
    reflexivity.
Defined.

(** The claim C5 as stated fails for [k = 1]: after [n 1] has been typed
    at a node, the queue is empty when that visit ends, and the next visit
    does not go by without a prompt. *)
Lemma C5_counterexample_next_visit_prompts :
  let w1 := (Sample.run_visit 1 (Forward Sample.d_param [1; 2]%Z)
               (world_init ["n 1"; "n"])).2 in
  _commands (cls w1) = []
  ∧ ¬ proceeds_without_prompting Sample.str_state Sample.eval 1
        (Forward Sample.d_times [3; 4]%Z) w1.
Proof.
  split; [reflexivity |].
  intros (w' & evs & Hrun & Hout & Hsil).
  vm_compute in Hrun. injection Hrun as <-.
  vm_compute in Hout. injection Hout as <-.
  inversion Hsil as [|? ? _ Hrest]. inversion Hrest as [|? ? Hp _].
  discriminate Hp.
Qed.

(** A session for C5: [n 3] typed at the parameter node, two visits after
    it, and a third that prompts again. *)
Lemma C5_witness :
  ∃ w1 w2 : world,
    Sample.run_visit 1 (Forward Sample.d_param [1; 2]%Z) (world_init ["n 3"])
    = (Returned [1; 2]%Z, w1)
    ∧ _commands (cls w1) = [VStr "n"; VStr "n"]
    ∧ Sample.run_visits 1
        [Forward Sample.d_times [3; 4]%Z; Backward Sample.d_times None [5]%Z]
        w1
      = (Returned [[3; 4]; [5]]%Z, w2)
    ∧ _commands (cls w2) = [].
Proof.
  destruct (C5_n_number_steps Sample.str_state Sample.eval 0 3%positive
              (Forward Sample.d_param [1; 2]%Z)
              (Backward Sample.d_param None [6]%Z)
              [Forward Sample.d_times [3; 4]%Z;
               Backward Sample.d_times None [5]%Z]
              [] (world_init ["n 3"]))
    as (w1 & w2 & evs & _ & H1 & Hq1 & _ & _ & H2 & Hq2 & _).
  - reflexivity.
  - reflexivity.
  - reflexivity.
  - repeat constructor.
  - reflexivity.
  - vm_compute. lia.
  - exists w1, w2. split; [exact H1 |]. split; [exact Hq1 |].
    split; [exact H2 | exact Hq2].
Defined.

(** A session for C6: run until a Times node is hit.  The predicate is
    typed at the convolution node, is false there and at the next visit,
    and holds at the Times node. *)
Lemma C6_witness :
  ∃ w1 w2 : world,
    Sample.run_visit 2 (Forward Sample.d_conv [1; 2]%Z)
      (world_init ["n lambda arg, node: node.op_name == 'Times'"])
    = (Returned [1; 2]%Z, w1)
    ∧ _commands (cls w1) = [VCallable Sample.until_Times]
    ∧ Sample.run_visits 2 [Backward Sample.d_conv None [5]%Z] w1
      = (Returned [[5]]%Z, w2)
    ∧ _commands (cls w2) = [VCallable Sample.until_Times]
    ∧ (stdout w2
       ++ status_events pass_f (_last_pass (cls w2)) Sample.Times29
       ++ [Prompt "[CNTK forward] >>> "])
        `prefix_of`
        stdout (Sample.run_visit 2 (Forward Sample.d_times [3; 4]%Z) w2).2.
Proof.
  destruct (C6_run_until_predicate_holds Sample.str_state Sample.eval 0
              "n lambda arg, node: node.op_name == 'Times'"
              " lambda arg, node: node.op_name == 'Times'"
              Sample.until_Times
              (Forward Sample.d_conv [1; 2]%Z)
              (Forward Sample.d_times [3; 4]%Z)
              [Backward Sample.d_conv None [5]%Z]
              [] (world_init ["n lambda arg, node: node.op_name == 'Times'"]))
    as (_ & _ & H).
  - reflexivity.
  - reflexivity.
  - reflexivity.
  - discriminate.
  - reflexivity.
  - reflexivity.
  - reflexivity.
  - destruct H
      as (w1 & w2 & evs & H1 & Hq1 & _ & H2 & Hq2 & _ & _ & _ & _ & Hp).
    + reflexivity.
    + repeat constructor.
    + repeat constructor.
    + reflexivity.
    + reflexivity.
    + exists w1, w2. split; [exact H1 |]. split; [exact Hq1 |].
      split; [exact H2 |]. split; [exact Hq2 | exact Hp].
Defined.

(** The claim C7 as stated fails on the empty line: the parser shows its
    prompt, reads the line and prints nothing, the help text least of
    all. *)
Lemma C7_counterexample_blank_line_prints_no_help :
  let r := wait_for_input_body Sample.eval "[CNTK forward] >>> " UFalse
             (world_init [""]) in
  r.1 = Returned UFalse
  ∧ stdout r.2 = [Prompt "[CNTK forward] >>> "]
  ∧ Print help_text ∉ stdout r.2.
Proof.
  split_and!; [reflexivity | reflexivity |].
  cbn. intros H. apply list_elem_of_singleton in H. discriminate H.
Qed.

(** A session for C7: a blank line and the word [help]. *)
Lemma C7_witness :
  __wait_for_input Sample.eval 2 "[CNTK forward] >>> "
    (world_init ["  "; "c"])
  = __wait_for_input Sample.eval 1 "[CNTK forward] >>> "
      (with_stdout [Prompt "[CNTK forward] >>> "]
         (with_stdin ["c"] (world_init ["  "; "c"])))
  ∧ __wait_for_input Sample.eval 2 "[CNTK forward] >>> "
      (world_init ["help"; "c"])
    = __wait_for_input Sample.eval 1 "[CNTK forward] >>> "
        (with_stdout [Prompt "[CNTK forward] >>> "; Print help_text]
           (with_stdin ["c"] (world_init ["help"; "c"]))).
Proof.
  split.
  - refine (proj1 (C7_lines_that_are_no_command Sample.eval 1
                     "[CNTK forward] >>> " "  " ["c"]
                     (world_init ["  "; "c"]) _) _); reflexivity.
  - refine (proj2 (C7_lines_that_are_no_command Sample.eval 1
                     "[CNTK forward] >>> " "help" ["c"]
                     (world_init ["help"; "c"]) _) _); [reflexivity |].
    right. left. split; [vm_compute; lia | reflexivity].
Defined.

(** A session for C9: [c] is queued and two nodes are visited. *)
Lemma C9_witness :
  ∃ o w' (evs : list event),
    Sample.run_visits 1
      [Forward Sample.d_param [1; 2]%Z; Backward Sample.d_times None [3]%Z]
      (set_queue [VStr "c"] (world_init ["n"]))
    = (o, w')
    ∧ _commands (cls w') = [VStr "c"]
    ∧ stdin w' = ["n"]
    ∧ stdout w' = [] ++ evs ∧ silent evs
    ∧ o = Returned [[1; 2]; [3]]%Z.
Proof.
  destruct (C9_run_until_end_is_never_removed Sample.str_state Sample.eval 0
              [Forward Sample.d_param [1; 2]%Z;
               Backward Sample.d_times None [3]%Z]
              (set_queue [VStr "c"] (world_init ["n"])))
    as (o & w' & evs & Hrun & Hq & Hin & Hout & Hs & _ & Hall).
  - reflexivity.
  - exists o, w', evs. split; [exact Hrun |]. split; [exact Hq |].
    split; [exact Hin |]. split; [exact Hout |]. split; [exact Hs |].
    apply Hall. repeat constructor.
Defined.

(** ** Sessions for the further properties *)

(** [q], with blanks around it, typed at the Times node in the backward
    pass. *)
Lemma X1_witness :
  ∃ w' : world,
    Sample.run_visit 1 (Backward Sample.d_times None [5]%Z)
      (world_init [" q "; "n"])
    = (Raised (SystemExit 0), w')
    ∧ cls w' = DebugNode_class_init
    ∧ stdin w' = ["n"]
    ∧ stdout w'
      = [] ++ status_events pass_b pass_f Sample.Times29
        ++ [Prompt "[CNTK backward] >>> "].
Proof.
  exact (X1_q_exits_with_code_0 Sample.str_state Sample.eval 0
           (Backward Sample.d_times None [5]%Z) " q " ["n"]
           (world_init [" q "; "n"]) eq_refl eq_refl eq_refl eq_refl).
Defined.

(** Nothing is left to read when the parameter node asks. *)
Lemma X2_witness :
  ∃ w' : world,
    Sample.run_visit 1 (Forward Sample.d_param [1; 2]%Z) (world_init [])
    = (Raised EOFError, w')
    ∧ cls w' = DebugNode_class_init
    ∧ stdout w'
      = [] ++ status_events pass_f pass_f Sample.Parameter28
        ++ [Prompt "[CNTK forward] >>> "].
Proof.
  exact (X2_end_of_input_raises_EOFError Sample.str_state Sample.eval 0
           (Forward Sample.d_param [1; 2]%Z) (world_init [])
           eq_refl eq_refl eq_refl).
Defined.

(** [n foo] with [foo] undefined: the [NameError] leaves the visit. *)
Lemma X3_witness :
  ∃ w' : world,
    Sample.run_visit 1 (Forward Sample.d_param [1; 2]%Z)
      (world_init ["n foo"; "n"])
    = (Raised (OtherError "NameError"), w')
    ∧ cls w' = DebugNode_class_init
    ∧ stdin w' = ["n"]
    ∧ stdout w'
      = [] ++ status_events pass_f pass_f Sample.Parameter28
        ++ [Prompt "[CNTK forward] >>> "].
Proof.
  refine (X3_other_exceptions_of_eval_escape Sample.str_state Sample.eval 0
            (Forward Sample.d_param [1; 2]%Z) "n foo" " foo"
            (OtherError "NameError") ["n"] (world_init ["n foo"; "n"])
            eq_refl eq_refl eq_refl eq_refl _ eq_refl eq_refl _);
    discriminate.
Defined.

(** [n 0] is answered by the help text and a new prompt. *)
Lemma X4_witness :
  __wait_for_input Sample.eval 2 "[CNTK forward] >>> "
    (world_init ["n 0"; "c"])
  = __wait_for_input Sample.eval 1 "[CNTK forward] >>> "
      (with_stdout ([] ++ [Prompt "[CNTK forward] >>> "; Print help_text])
         (with_stdin ["c"] (world_init ["n 0"; "c"]))).
Proof.
  refine (X4_n_with_nonpositive_number_asks_again Sample.eval 1
            "[CNTK forward] >>> " "n 0" " 0" 0%Z ["c"]
            (world_init ["n 0"; "c"]) eq_refl eq_refl _ eq_refl _).
  - discriminate.
  - lia.
Defined.

(** A blank line, the word [help] and [n -2] before the command [c]. *)
Lemma X5_witness :
  ∃ w' : world,
    __wait_for_input Sample.eval (3 + 1) "[CNTK forward] >>> "
      (world_init ["  "; "help"; "n -2"; "c"])
    = __wait_for_input Sample.eval 1 "[CNTK forward] >>> " w'
    ∧ stdin w' = ["c"] ∧ cls w' = DebugNode_class_init
    ∧ host_calls w' = [] ∧ heap w' = []
    ∧ [] `prefix_of` stdout w'.
Proof.
  refine (X5_ignored_lines_are_skipped Sample.eval 1 "[CNTK forward] >>> "
            ["  "; "help"; "n -2"] ["c"]
            (world_init ["  "; "help"; "n -2"; "c"]) eq_refl _).
  constructor; [| constructor; [| constructor; [| constructor]]].
  - left. reflexivity.
  - right. left. right. left. split; [vm_compute; lia | reflexivity].
  - right. right. exists " -2", (-2)%Z.
    split; [reflexivity |]. split; [discriminate |].
    split; [reflexivity | lia].
Defined.

(** [p] typed at the Times node in the backward pass. *)
Lemma X6_witness :
  ([] ++ status_events pass_b pass_f Sample.Times29
   ++ [Prompt "[CNTK backward] >>> "]
   ++ [Print "State: None"; Print "Root gradients: "; PrintData [5; 6]%Z]
   ++ [Prompt "[CNTK backward] >>> "])
    `prefix_of`
    stdout (Sample.run_visit 2 (Backward Sample.d_times None [5; 6]%Z)
              (world_init ["p"])).2.
Proof.
  exact (X6_p_prints_and_prompts_again Sample.str_state Sample.eval 0
           (Backward Sample.d_times None [5; 6]%Z) "p" []
           (world_init ["p"]) eq_refl eq_refl eq_refl eq_refl).
Defined.

(** [b] is queued in the forward pass: two forward visits go by, the first
    backward visit takes the letter, and the one after it prompts. *)
Lemma X7_witness :
  ∃ (w1 w2 : world) (evs1 evs2 : list event),
    Sample.run_visits 1
      [Forward Sample.d_param [1; 2]%Z; Forward Sample.d_times [3; 4]%Z]
      (set_queue [VStr "b"] (world_init ["n"]))
    = (Returned [[1; 2]; [3; 4]]%Z, w1)
    ∧ _commands (cls w1) = [VStr "b"]
    ∧ stdout w1 = [] ++ evs1 ∧ silent evs1
    ∧ Sample.run_visit 1 (Backward Sample.d_times None [5]%Z) w1
      = (Returned [5]%Z, w2)
    ∧ _commands (cls w2) = []
    ∧ stdin w2 = ["n"]
    ∧ stdout w2 = stdout w1 ++ evs2 ∧ silent evs2
    ∧ (stdout w2
       ++ status_events pass_b pass_b Sample.Parameter28
       ++ [Prompt "[CNTK backward] >>> "])
        `prefix_of`
        stdout (Sample.run_visit 1 (Backward Sample.d_param None [6]%Z)
                  w2).2.
Proof.
  destruct (X7_b_and_f_run_until_the_other_pass Sample.str_state Sample.eval
              0 pass_b
              [Forward Sample.d_param [1; 2]%Z;
               Forward Sample.d_times [3; 4]%Z]
              (Backward Sample.d_times None [5]%Z)
              (Backward Sample.d_param None [6]%Z)
              (set_queue [VStr "b"] (world_init ["n"])))
    as (w1 & w2 & evs1 & evs2 & H1 & Hq1 & _ & Ho1 & Hs1 & H2 & Hq2 & Hin2
        & Ho2 & Hs2 & Hnext).
  - reflexivity.
  - repeat constructor; discriminate.
  - reflexivity.
  - reflexivity.
  - reflexivity.
  - exists w1, w2, evs1, evs2.
    split; [exact H1 |]. split; [exact Hq1 |]. split; [exact Ho1 |].
    split; [exact Hs1 |]. split; [exact H2 |]. split; [exact Hq2 |].
    split; [exact Hin2 |]. split; [exact Ho2 |]. split; [exact Hs2 |].
    exact (Hnext eq_refl).
Defined.

(** [d] is queued: [forward] takes it and enters [pdb] once; two calls of
    [backward] enter [pdb] once each and leave it queued. *)
Lemma X8_witness :
  (∃ w' : world,
     Sample.run_visit 1 (Forward Sample.d_param [1; 2]%Z)
       (set_queue [VStr "d"] (world_init []))
     = (Returned [1; 2]%Z, w')
     ∧ _commands (cls w') = []
     ∧ stdout w'
       = [] ++ status_events pass_f pass_f Sample.Parameter28
         ++ [PdbSetTrace])
  ∧ (∃ (w' : world) (evs : list event),
       Sample.run_visits 1
         [Backward Sample.d_times None [5]%Z;
          Backward Sample.d_param None [6]%Z]
         (set_queue [VStr "d"] (world_init []))
       = (Returned [[5]; [6]]%Z, w')
       ∧ _commands (cls w') = [VStr "d"]
       ∧ stdout w' = [] ++ evs
       ∧ pdb_sessions evs = 2).
Proof.
  destruct (X8_d_stays_queued_in_backward Sample.str_state Sample.eval 0
              Sample.d_param [1; 2]%Z
              [Backward Sample.d_times None [5]%Z;
               Backward Sample.d_param None [6]%Z]
              (set_queue [VStr "d"] (world_init [])))
    as [(w1 & H1 & Hq1 & _ & Ho1) (w2 & evs & H2 & Hq2 & _ & Ho2 & _ & Hn)].
  - reflexivity.
  - reflexivity.
  - repeat constructor.
  - repeat constructor.
  - split.
    + exists w1. split; [exact H1 |]. split; [exact Hq1 | exact Ho1].
    + exists w2, evs. split; [exact H2 |]. split; [exact Hq2 |].
      split; [exact Ho2 | exact Hn].
Defined.

(** The predicate of the help text that reads [op_name] is queued when a
    parameter node, which has no [op_name], is visited. *)
Lemma X9_witness :
  Sample.run_visit 1 (Forward Sample.d_param [1; 2]%Z)
    (set_queue [VCallable Sample.until_Times] (world_init ["n"]))
  = (Raised (OtherError "AttributeError"),
     announced pass_f Sample.Parameter28
       (set_queue [VCallable Sample.until_Times] (world_init ["n"]))).
Proof.
  exact (X9_raising_predicate_stays_queued Sample.str_state Sample.eval 0
           (Forward Sample.d_param [1; 2]%Z) Sample.until_Times
           (OtherError "AttributeError")
           (set_queue [VCallable Sample.until_Times] (world_init ["n"]))
           eq_refl eq_refl eq_refl).
Defined.

(** [n] typed at the parameter node; the Times node prompts. *)
Lemma X10_witness :
  ∃ w' : world,
    Sample.run_visit 1 (Forward Sample.d_param [1; 2]%Z) (world_init ["n"])
    = (Returned [1; 2]%Z, w')
    ∧ _commands (cls w') = []
    ∧ _last_pass (cls w') = pass_f
    ∧ stdin w' = []
    ∧ (stdout w'
       ++ status_events pass_f pass_f Sample.Times29
       ++ [Prompt "[CNTK forward] >>> "])
        `prefix_of`
        stdout (Sample.run_visit 1 (Forward Sample.d_times [3; 4]%Z) w').2.
Proof.
  destruct (X10_bare_n_is_a_single_step Sample.str_state Sample.eval 0
              (Forward Sample.d_param [1; 2]%Z)
              (Forward Sample.d_times [3; 4]%Z) "n" [] (world_init ["n"]))
    as (w' & H & Hq & Hp & Hin & _ & Hnext).
  - reflexivity.
  - reflexivity.
  - reflexivity.
  - reflexivity.
  - reflexivity.
  - exists w'. split; [exact H |]. split; [exact Hq |]. split; [exact Hp |].
    split; [exact Hin | exact Hnext].
Defined.

(** The forward visit of the Times node is followed by its backward
    visit: the separator of the backward pass comes first. *)
Lemma X12_witness :
  (stdout (Sample.run_visit 1 (Forward Sample.d_times [3; 4]%Z)
             (world_init ["n"; "n"])).2
   ++ banner pass_b pass_f
   ++ [Print ("Backward before " +:+ status_line Sample.Times29)])
    `prefix_of`
    stdout (Sample.run_visit 1 (Backward Sample.d_times None [5]%Z)
              (Sample.run_visit 1 (Forward Sample.d_times [3; 4]%Z)
                 (world_init ["n"; "n"])).2).2
  ∧ (banner (data := Sample.tensor) pass_b pass_f = [] ↔ pass_f = pass_b).
Proof.
  exact (X12_separator_at_a_change_of_pass Sample.str_state Sample.eval 1 1
           (Forward Sample.d_times [3; 4]%Z)
           (Backward Sample.d_times None [5]%Z)
           (world_init ["n"; "n"]) [3; 4]%Z eq_refl eq_refl).
Defined.


(** The sparse input variable is visited at the start of a forward pass. *)
Lemma X15_witness :
  Sample.run_visit 1 (Forward Sample.d_input [1]%Z)
    (mark pass_b (world_init ["n"]))
  = (Raised TypeError,
     with_stdout ([] ++ banner pass_f pass_b)
       (mark pass_b (world_init ["n"]))).
Proof.
  exact (X15_sparse_node_of_another_class_raises_TypeError Sample.str_state
           Sample.eval 1 (Forward Sample.d_input [1]%Z)
           "<class 'cntk.variables.Variable'>"
           (mark pass_b (world_init ["n"])) eq_refl eq_refl).
Defined.

(** A model of two nodes, given as the list of its nodes; the second debug
    node put on the heap stands after the Times node. *)
Lemma X16_witness :
  Sample.Times29 ∈ filter (λ _ : node, true = true)
                     [Sample.Parameter28; Sample.Times29]
  ∧ infer_outputs (λ _ : node, "float32")
      (λ s t a, (s, t, a)) Sample.d_times
    = Ok [([2]%Z, "float32", ["defaultBatchAxis"; "defaultDynamicAxis"])].
Proof.
  exact (X16_inserted_nodes_declare_the_output_of_their_node
           (data := Sample.tensor)
           (λ (m : list node) (f : node → bool), filter (λ n, f n = true) m)
           (λ m _ _, m) (λ _ : node, "float32") (λ s t a, (s, t, a))
           [Sample.Parameter28; Sample.Times29] (world_init []) 1
           Sample.d_times ltac:(cbn; lia) eq_refl).
Defined.

(** ** Two sessions, run

    The session of the module's docstring: the previous pass was a backward
    pass; [n] is typed at the parameter node, [n] at the Times node, and [p]
    when the backward pass reaches the Times node, after which nothing more
    is typed. *)
Example docstring_session :
  stdout
    (Sample.run_visits 2
       [Forward Sample.d_param [1; 2]%Z; Forward Sample.d_times [3; 4]%Z;
        Backward Sample.d_times None [5; 6]%Z]
       (mark pass_b (world_init ["n"; "n"; "p"]))).2
  = [Print "";
     Print (Py.repeat_str "=" 40 +:+ " forward  " +:+ Py.repeat_str "=" 40);
     Print "Forward after Parameter node with uid='Parameter28' shape=[](2,)";
     Prompt "[CNTK forward] >>> ";
     Print "Forward after Times node with uid='Times29' shape=[*,*](2,)";
     Prompt "[CNTK forward] >>> ";
     Print (Py.repeat_str "=" 40 +:+ " backward " +:+ Py.repeat_str "=" 40);
     Print "Backward before Times node with uid='Times29' shape=[*,*](2,)";
     Prompt "[CNTK backward] >>> ";
     Print "State: None";
     Print "Root gradients: ";
     PrintData [5; 6]%Z;
     Prompt "[CNTK backward] >>> "].
Proof. vm_compute. reflexivity. Qed.

(** An undefined name after [n] is no [SyntaxError]: the exception of
    [eval] leaves [forward]. *)
Example undefined_name_is_raised :
  (Sample.forward 2 Sample.d_param [1; 2]%Z (world_init ["n foo"])).1
  = Raised (OtherError "NameError").
Proof. vm_compute. reflexivity. Qed.

(** [d] is taken off the queue by [forward] but stays in it in
    [backward]. *)
Example d_in_forward_and_backward :
  _commands (cls (Sample.forward 2 Sample.d_param [1; 2]%Z
                    (world_init ["d"])).2) = []
  ∧ _commands (cls (Sample.backward 2 Sample.d_param None [1; 2]%Z
                      (world_init ["d"])).2) = [VStr "d"].
Proof. split; vm_compute; reflexivity. Qed.

(** The status line of a named node, and the sparse input for which none
    can be built. *)
Example status_of_named_node :
  _format_status Sample.d_conv
  = Ok "Convolution node with name='conv1' uid='Convolution7' shape=[*](16, 28, 28)"
  ∧ _format_status Sample.d_input = Err TypeError.
Proof. split; vm_compute; reflexivity. Qed.
